(** * Expense tracker backend: a shallow embedding of [backend.py]

    The development follows the layout of the Python module:
    - text helpers ([str.strip], truthiness, [str()]);
    - the part of the [decimal] module that [_parse_amount] uses;
    - [_parse_amount];
    - [datetime.strptime] for the format [%Y-%m-%d];
    - [hashlib.sha256];
    - true division of integers, which turns minor units into a float;
    - the two SQLite tables, [_row_to_expense], [_get_idempotency_key],
      [create_expense] and [get_expenses];
    - the properties, each checked first on the inputs of the test suite.

    Python [str] values are modelled as Rocq strings whose characters are
    the code points below 256.  Exceptions are explicit: every operation
    that can raise returns a [res]. *)

From Stdlib Require Import ZArith QArith Ascii String List Lia Bool.
From Stdlib Require OrderedTypeEx.
From stdpp Require Import gmap strings list sorting.

Local Open Scope string_scope.
Local Open Scope Z_scope.

(** ** Exceptions *)

Inductive exn : Set :=
| InvalidOperation
| ValueError
| TypeError
| AttributeError
| OverflowError
| DecimalOverflow
| ZeroDivisionError
| IntegrityError
| OperationalError.

Inductive res (A : Type) : Type :=
| Ok (a : A)
| Raise (e : exn).
Arguments Ok {A} a.
Arguments Raise {A} e.

#[global] Instance res_bind : MBind res := fun A B (k : A -> res B) (m : res A) =>
  match m with
  | Ok a => k a
  | Raise e => Raise e
  end.

#[global] Instance res_ret : MRet res := fun A (a : A) => Ok a.

(** [try: m except (e1, e2, ...): h] *)
Definition try_except {A : Type} (m : res A) (caught : exn -> bool) (h : res A) : res A :=
  match m with
  | Ok a => Ok a
  | Raise e => if caught e then h else Raise e
  end.

(** ** Text helpers *)

Module Text.

(** [str.isspace] on the code points below 256: TAB..CR, FS..US, SPACE,
    NEL (0x85) and NBSP (0xA0). *)
Definition is_space (c : ascii) : bool :=
  let n := Z.of_N (N_of_ascii c) in
  ((9 <=? n) && (n <=? 13)) || ((28 <=? n) && (n <=? 32))
  || (n =? 133) || (n =? 160).

Definition is_empty (s : string) : bool :=
  match s with
  | EmptyString => true
  | String _ _ => false
  end.

Fixpoint lstrip (s : string) : string :=
  match s with
  | EmptyString => EmptyString
  | String c s' => if is_space c then lstrip s' else s
  end.

Fixpoint rstrip (s : string) : string :=
  match s with
  | EmptyString => EmptyString
  | String c s' =>
      let r := rstrip s' in
      if is_space c && is_empty r then EmptyString else String c r
  end.

(** [s.strip()] *)
Definition strip (s : string) : string := rstrip (lstrip s).

Definition is_digit (c : ascii) : bool :=
  let n := Z.of_N (N_of_ascii c) in (48 <=? n) && (n <=? 57).

Definition digit_val (c : ascii) : Z := Z.of_N (N_of_ascii c) - 48.

(** ASCII lower-casing, used where Python matches with [re.IGNORECASE]. *)
Definition lower (c : ascii) : ascii :=
  let n := N_of_ascii c in
  if ((65 <=? n) && (n <=? 90))%N then ascii_of_N (n + 32) else c.

Fixpoint lower_str (s : string) : string :=
  match s with
  | EmptyString => EmptyString
  | String c s' => String (lower c) (lower_str s')
  end.

(** The value of a run of decimal digits, most significant first. *)
Fixpoint digits_val (acc : Z) (s : string) : Z :=
  match s with
  | EmptyString => acc
  | String c s' => digits_val (10 * acc + digit_val c) s'
  end.

Fixpoint all_digits (s : string) : bool :=
  match s with
  | EmptyString => true
  | String c s' => is_digit c && all_digits s'
  end.

(** Split a string into its longest prefix of digits and the rest. *)
Fixpoint span_digits (s : string) : string * string :=
  match s with
  | EmptyString => (EmptyString, EmptyString)
  | String c s' =>
      if is_digit c
      then let '(d, r) := span_digits s' in (String c d, r)
      else (EmptyString, s)
  end.

(** The decimal digits of a number that is not negative, most
    significant first, in front of [acc]. *)
Fixpoint digits_of_pos_fuel (fuel : nat) (n : Z) (acc : string) : string :=
  match fuel with
  | O => acc
  | S f =>
      let acc' := String (ascii_of_N (Z.to_N (48 + n mod 10))) acc in
      if n <? 10 then acc' else digits_of_pos_fuel f (n / 10) acc'
  end.

(** [sys.int_max_str_digits] as CPython sets it by default. *)
Definition INT_MAX_STR_DIGITS : Z := 4300.

(** [str(n)] for an [int]: once the digits are there the interpreter
    counts them, the sign aside, and raises [ValueError] when they are
    more than the limit. *)
Definition str_of_int (n : Z) : res string :=
  let m := Z.abs n in
  let ds := digits_of_pos_fuel (S (Z.to_nat (Z.log2 m))) m EmptyString in
  if INT_MAX_STR_DIGITS <? Z.of_nat (String.length ds) then Raise ValueError
  else Ok (if n <? 0 then String "-" ds else ds).

End Text.

(** ** JSON-decoded Python values

    [request.get_json] hands the handler [None], [bool], [int], [float],
    [str], [list] and [dict] objects.  The only thing the program does with
    a [float] it receives is to test its truth value and to call [str] on
    it, so a float is carried as the text [str()] prints for it (its
    shortest [repr], e.g. ["99.99"], ["1e+16"], ["nan"], ["-inf"]).  A
    [dict] keeps its items in insertion order. *)

#[warnings="-register-all"]
Inductive pyval : Type :=
| PyNone
| PyBool (b : bool)
| PyInt (n : Z)
| PyFloat (repr : string)
| PyStr (s : string)
| PyList (l : list pyval)
| PyDict (d : list (string * pyval)).

Module Py.

Definition hex_digit (n : Z) : ascii :=
  ascii_of_N (Z.to_N (if n <? 10 then 48 + n else 87 + n)).

(** One character of [repr(s)], [q] being the quote that was chosen. *)
Definition repr_char (q : ascii) (c : ascii) : string :=
  let n := Z.of_N (N_of_ascii c) in
  if Ascii.eqb c "\" then "\\"
  else if Ascii.eqb c q then String "\" (String q EmptyString)
  else if n =? 9 then "\t"
  else if n =? 10 then "\n"
  else if n =? 13 then "\r"
  else if (n <? 32) || ((127 <=? n) && (n <=? 160)) || (n =? 173)
  then String "\" (String "x" (String (hex_digit (n / 16))
                                (String (hex_digit (n mod 16)) EmptyString)))
  else String c EmptyString.

Fixpoint contains (c : ascii) (s : string) : bool :=
  match s with
  | EmptyString => false
  | String a s' => Ascii.eqb a c || contains c s'
  end.

Fixpoint concat_map (f : ascii -> string) (s : string) : string :=
  match s with
  | EmptyString => EmptyString
  | String a s' => f a +:+ concat_map f s'
  end.

(** The double quote character. *)
Definition DQUOTE : ascii := ascii_of_nat 34.

(** [repr(s)] for a [str]. *)
Definition repr_str (s : string) : string :=
  let q : ascii :=
    if contains "'" s && negb (contains DQUOTE s) then DQUOTE else "'"%char in
  String q (concat_map (repr_char q) s +:+ String q EmptyString).

Fixpoint join (sep : string) (l : list string) : string :=
  match l with
  | [] => EmptyString
  | [x] => x
  | x :: l' => x +:+ sep +:+ join sep l'
  end.

(** [repr(v)].  The only failure modelled is the one of [str] on an
    [int]; the interpreter's recursion limit, which bounds how deep a
    nesting [repr] walks, is a limit of the run and is left out. *)
Fixpoint repr (v : pyval) : res string :=
  match v with
  | PyNone => Ok "None"
  | PyBool true => Ok "True"
  | PyBool false => Ok "False"
  | PyInt n => Text.str_of_int n
  | PyFloat r => Ok r
  | PyStr s => Ok (repr_str s)
  | PyList l =>
      items ← (fix items (l : list pyval) : res (list string) :=
                 match l with
                 | [] => Ok []
                 | x :: l' => s ← repr x; r ← items l'; Ok (s :: r)
                 end) l;
      Ok ("[" +:+ join ", " items +:+ "]")
  | PyDict d =>
      items ← (fix items (d : list (string * pyval)) : res (list string) :=
                 match d with
                 | [] => Ok []
                 | kv :: d' =>
                     s ← repr (snd kv); r ← items d';
                     Ok ((repr_str (fst kv) +:+ ": " +:+ s) :: r)
                 end) d;
      Ok ("{" +:+ join ", " items +:+ "}")
  end.

(** [str(v)] *)
Definition str (v : pyval) : res string :=
  match v with
  | PyStr s => Ok s
  | _ => repr v
  end.

(** Truth value of an object, as [if v:] and [not v] test it. *)
Definition truthy (v : pyval) : bool :=
  match v with
  | PyNone => false
  | PyBool b => b
  | PyInt n => negb (n =? 0)
  | PyFloat r => negb (String.eqb r "0.0" || String.eqb r "-0.0")
  | PyStr s => negb (Text.is_empty s)
  | PyList l => match l with [] => false | _ => true end
  | PyDict d => match d with [] => false | _ => true end
  end.

(** [isinstance(v, (int, float))]; [bool] is a subclass of [int]. *)
Definition isinstance_int_float (v : pyval) : bool :=
  match v with
  | PyBool _ | PyInt _ | PyFloat _ => true
  | _ => false
  end.

Fixpoint assoc (k : string) (d : list (string * pyval)) : option pyval :=
  match d with
  | [] => None
  | (k', v) :: d' => if String.eqb k k' then Some v else assoc k d'
  end.

(** [d.get(k)]: the value stored under [k], [None] when there is none. *)
Definition dict_get (d : list (string * pyval)) (k : string) : pyval :=
  match assoc k d with
  | Some v => v
  | None => PyNone
  end.

End Py.

(** ** The [decimal] module

    What [_parse_amount] uses of it, under the default context: 28 digits
    of precision, rounding [ROUND_HALF_EVEN], and the traps
    [InvalidOperation], [DivisionByZero] and [Overflow] enabled.  A finite
    number is a sign, a non-negative coefficient and an exponent, and
    stands for [(-1)^sign * coeff * 10^exp].  Exponents are bounded as in
    the C implementation CPython loads (the pure Python fallback does not
    bound them). *)

Module decimal.

Inductive Decimal : Type :=
| Finite (sign : bool) (coeff : Z) (exp : Z)
| Infinity (sign : bool)
| NaN (sign : bool) (signaling : bool).

Definition prec : Z := 28.
Definition Emax : Z := 999999.
Definition Emin : Z := -999999.
Definition Etiny : Z := Emin - prec + 1.
Definition Etop : Z := Emax - prec + 1.

(** The widest exponents a number can have at all ([MAX_EMAX] and
    [MIN_ETINY] of a 64-bit build). *)
Definition MAX_EMAX : Z := 999999999999999999.
Definition MIN_ETINY : Z := -1999999999999999997.

(** *** Digits *)

Fixpoint ndigits_fuel (fuel : nat) (n : Z) : Z :=
  match fuel with
  | O => 1
  | S f => if n <? 10 then 1 else 1 + ndigits_fuel f (n / 10)
  end.

(** [len(self._int)]: the number of decimal digits of a coefficient. *)
Definition ndigits (n : Z) : Z := ndigits_fuel (S (Z.to_nat (Z.log2 n))) n.

(** [self.adjusted()] *)
Definition adjusted (c e : Z) : Z := e + ndigits c - 1.

(** *** Construction from a string *)

Fixpoint remove_underscores (s : string) : string :=
  match s with
  | EmptyString => EmptyString
  | String c s' =>
      if Ascii.eqb c "_" then remove_underscores s'
      else String c (remove_underscores s')
  end.

(** An optional sign. *)
Definition parse_sign (s : string) : bool * string :=
  match s with
  | String "-" r => (true, r)
  | String "+" r => (false, r)
  | _ => (false, s)
  end.

(** An optional sign and one or more digits, up to the end of the text. *)
Definition parse_exponent (s : string) : option Z :=
  let '(neg, r) := parse_sign s in
  if Text.is_empty r || negb (Text.all_digits r) then None
  else Some (if neg then - Text.digits_val 0 r else Text.digits_val 0 r).

(** A number with at least one digit: an integer part (maybe empty), an
    optional ["."] with a fractional part (maybe empty), an optional
    ["E"] with a signed exponent, then the end of the text. *)
Definition parse_number (sign : bool) (s : string) : option Decimal :=
  let '(intpart, r1) := Text.span_digits s in
  let '(fracpart, r2) :=
    match r1 with
    | String "." r => Text.span_digits r
    | _ => (EmptyString, r1)
    end in
  if Text.is_empty intpart && Text.is_empty fracpart then None
  else
    let coeff := Text.digits_val 0 (intpart +:+ fracpart) in
    let fraclen := Z.of_nat (String.length fracpart) in
    match r2 with
    | EmptyString => Some (Finite sign coeff (- fraclen))
    | String c r3 =>
        if Ascii.eqb (Text.lower c) "e" then
          match parse_exponent r3 with
          | Some e => Some (Finite sign coeff (e - fraclen))
          | None => None
          end
        else None
    end.

(** ["Inf"], ["Infinity"], or ["NaN"] with an optional leading ["s"]
    and trailing diagnostic digits; letter case is ignored. *)
Definition parse_special (sign : bool) (s : string) : option Decimal :=
  let l := Text.lower_str s in
  if String.eqb l "inf" || String.eqb l "infinity" then Some (Infinity sign)
  else
    match l with
    | String "n" (String "a" (String "n" diag)) =>
        if Text.all_digits diag then Some (NaN sign false) else None
    | String "s" (String "n" (String "a" (String "n" diag))) =>
        if Text.all_digits diag then Some (NaN sign true) else None
    | _ => None
    end.

(** The constructor converts exactly: a number whose exponent does not
    fit the widest context would have to be rounded or clamped, and
    signals [InvalidOperation] instead. *)
Definition exact (d : Decimal) : res Decimal :=
  match d with
  | Finite s c e =>
      if c =? 0
      then (if (e <? MIN_ETINY) || (MAX_EMAX <? e) then Raise InvalidOperation else Ok d)
      else (if (e <? MIN_ETINY) || (MAX_EMAX <? adjusted c e)
            then Raise InvalidOperation else Ok d)
  | _ => Ok d
  end.

(** [Decimal(s)] for a [str]: surrounding whitespace and all
    underscores are dropped; text that is no numeric string signals
    [InvalidOperation] (as [ConversionSyntax]). *)
Definition of_string (s : string) : res Decimal :=
  let '(sign, r) := parse_sign (remove_underscores (Text.strip s)) in
  match parse_number sign r with
  | Some d => exact d
  | None =>
      match parse_special sign r with
      | Some d => Ok d
      | None => Raise InvalidOperation
      end
  end.

(** [Decimal(n)] for an [int]. *)
Definition of_int (n : Z) : Decimal := Finite (n <? 0) (Z.abs n) 0.

(** *** Rounding *)

(** [n / d] rounded to an integer, ties going to the even neighbour. *)
Definition round_half_even (n d : Z) : Z :=
  let q := n / d in
  let r := n mod d in
  if 2 * r <? d then q
  else if d <? 2 * r then q + 1
  else if Z.even q then q else q + 1.

(** [self._rescale(exp, ROUND_HALF_EVEN)] for a finite number. *)
Definition rescale (s : bool) (c e : Z) (target : Z) : Decimal :=
  if c =? 0 then Finite s 0 target
  else if target <=? e then Finite s (c * 10 ^ (e - target)) target
  else Finite s (round_half_even c (10 ^ (target - e))) target.

(** [self._fix(context)]: round a result to the context's precision. *)
Definition fix_ (d : Decimal) : res Decimal :=
  match d with
  | Finite s c e =>
      if c =? 0 then Ok (Finite s 0 (Z.min (Z.max e Etiny) Emax))
      else
        let exp_min := e + ndigits c - prec in
        if Etop <? exp_min then Raise DecimalOverflow
        else
          let exp_min := Z.max exp_min Etiny in
          if e <? exp_min then
            let c' := round_half_even c (10 ^ (exp_min - e)) in
            let '(c', exp_min) :=
              if prec <? ndigits c' then (c' / 10, exp_min + 1) else (c', exp_min) in
            if Etop <? exp_min then Raise DecimalOverflow
            else Ok (Finite s c' exp_min)
          else Ok d
  | _ => Ok d
  end.

(** *** The operations *)

(** [self < 0]: an ordering comparison with a NaN signals
    [InvalidOperation]. *)
Definition lt_zero (d : Decimal) : res bool :=
  match d with
  | NaN _ _ => Raise InvalidOperation
  | Infinity s => Ok s
  | Finite s c _ => Ok (s && negb (c =? 0))
  end.

(** [self.quantize(exp)] *)
Definition quantize (d q : Decimal) : res Decimal :=
  match d, q with
  | NaN _ true, _ | _, NaN _ true => Raise InvalidOperation
  | NaN s false, _ => Ok (NaN s false)
  | _, NaN s false => Ok (NaN s false)
  | Infinity s, Infinity _ => Ok (Infinity s)
  | Infinity _, Finite _ _ _ | Finite _ _ _, Infinity _ => Raise InvalidOperation
  | Finite s c e, Finite _ _ qe =>
      if negb ((Etiny <=? qe) && (qe <=? Emax)) then Raise InvalidOperation
      else if c =? 0 then fix_ (Finite s 0 qe)
      else if Emax <? adjusted c e then Raise InvalidOperation
      else if prec <? adjusted c e - qe + 1 then Raise InvalidOperation
      else
        match rescale s c e qe with
        | Finite s' c' e' =>
            if Emax <? adjusted c' e' then Raise InvalidOperation
            else if prec <? ndigits c' then Raise InvalidOperation
            else fix_ (Finite s' c' e')
        | ans => Ok ans
        end
  end.

(** [self * other] *)
Definition mul (a b : Decimal) : res Decimal :=
  match a, b with
  | NaN _ true, _ | _, NaN _ true => Raise InvalidOperation
  | NaN s false, _ => Ok (NaN s false)
  | _, NaN s false => Ok (NaN s false)
  | Infinity s, Infinity s' => Ok (Infinity (xorb s s'))
  | Infinity s, Finite s' c _ | Finite s' c _, Infinity s =>
      if c =? 0 then Raise InvalidOperation else Ok (Infinity (xorb s s'))
  | Finite s1 c1 e1, Finite s2 c2 e2 =>
      fix_ (Finite (xorb s1 s2) (c1 * c2) (e1 + e2))
  end.

(** [int(self)]: truncation towards zero. *)
Definition to_int (d : Decimal) : res Z :=
  match d with
  | NaN _ _ => Raise ValueError
  | Infinity _ => Raise OverflowError
  | Finite s c e =>
      let m := if 0 <=? e then c * 10 ^ e else c / 10 ^ (- e) in
      Ok (if s then - m else m)
  end.

End decimal.

(** ** [_parse_amount] *)

Definition MSG_AMOUNT_REQUIRED : string := "Amount is required".
Definition MSG_AMOUNT_NEGATIVE : string := "Amount must be non-negative".
Definition MSG_AMOUNT_INVALID : string := "Amount must be a valid number".

(** The classes named by [except (InvalidOperation, ValueError, TypeError)]. *)
Definition parse_amount_caught (e : exn) : bool :=
  match e with
  | InvalidOperation | ValueError | TypeError => true
  | _ => false
  end.

Definition _parse_amount (value : pyval) : res (option Z * option string) :=
  match value with
  | PyNone => Ok (None, Some MSG_AMOUNT_REQUIRED)
  | _ =>
      try_except
        (dec ← (if Py.isinstance_int_float value
                then text ← Py.str value; decimal.of_string text
                else text ← Py.str value; decimal.of_string (Text.strip text));
         negative ← decimal.lt_zero dec;
         if negative : bool then Ok (None, Some MSG_AMOUNT_NEGATIVE)
         else
           dec ← decimal.quantize dec (decimal.Finite false 1 (-2));
           prod ← decimal.mul dec (decimal.of_int 100);
           paise ← decimal.to_int prod;
           Ok (Some paise, None))
        parse_amount_caught
        (Ok (None, Some MSG_AMOUNT_INVALID))
  end.

(** ** [datetime.strptime(date, '%Y-%m-%d')]

    The format is compiled to a regular expression whose groups are tried
    in the order written: [%Y] is four digits; [%m] is [1[0-2]], then
    [0[1-9]], then [[1-9]]; [%d] is [3[0-1]], then [[1-2]\d], then
    [0[1-9]], then [[1-9]], then a space and [[1-9]].  The first match is
    taken, text left over after it is an error, and the fields found must
    name a day of the proleptic Gregorian calendar in years 1..9999. *)

Module strptime.

Definition in_range (lo hi : Z) (c : ascii) : bool :=
  let n := Z.of_N (N_of_ascii c) - 48 in (lo <=? n) && (n <=? hi).

(** The ways [%m] can match at the head of [s], in the order tried. *)
Definition match_m (s : string) : list (Z * string) :=
  (match s with
   | String "1" (String c r) =>
       if in_range 0 2 c then [(10 + Text.digit_val c, r)] else []
   | _ => []
   end) ++
  (match s with
   | String "0" (String c r) =>
       if in_range 1 9 c then [(Text.digit_val c, r)] else []
   | _ => []
   end) ++
  (match s with
   | String c r => if in_range 1 9 c then [(Text.digit_val c, r)] else []
   | _ => []
   end).

(** The ways [%d] can match at the head of [s], in the order tried. *)
Definition match_d (s : string) : list (Z * string) :=
  (match s with
   | String "3" (String c r) =>
       if in_range 0 1 c then [(30 + Text.digit_val c, r)] else []
   | _ => []
   end) ++
  (match s with
   | String a (String c r) =>
       if in_range 1 2 a && in_range 0 9 c
       then [(10 * Text.digit_val a + Text.digit_val c, r)] else []
   | _ => []
   end) ++
  (match s with
   | String "0" (String c r) =>
       if in_range 1 9 c then [(Text.digit_val c, r)] else []
   | _ => []
   end) ++
  (match s with
   | String c r => if in_range 1 9 c then [(Text.digit_val c, r)] else []
   | _ => []
   end) ++
  (match s with
   | String " " (String c r) =>
       if in_range 1 9 c then [(Text.digit_val c, r)] else []
   | _ => []
   end).

(** [%Y]: exactly four digits. *)
Definition match_Y (s : string) : option (Z * string) :=
  match s with
  | String a (String b (String c (String d r))) =>
      if Text.is_digit a && Text.is_digit b && Text.is_digit c && Text.is_digit d
      then Some (Text.digits_val 0 (String a (String b (String c (String d EmptyString)))), r)
      else None
  | _ => None
  end.

Definition expect_dash (s : string) : option string :=
  match s with
  | String "-" r => Some r
  | _ => None
  end.

(** The first alternative of [alts] after which [k] succeeds. *)
Fixpoint first_match {A B : Type} (alts : list A) (k : A -> option B) : option B :=
  match alts with
  | [] => None
  | a :: alts' =>
      match k a with
      | Some b => Some b
      | None => first_match alts' k
      end
  end.

(** [format_regex.match(data_string)]: the fields and the unmatched rest. *)
Definition regex_match (s : string) : option (Z * Z * Z * string) :=
  match match_Y s with
  | None => None
  | Some (y, r0) =>
      match expect_dash r0 with
      | None => None
      | Some r1 =>
          first_match (match_m r1) (fun '(m, r2) =>
            match expect_dash r2 with
            | None => None
            | Some r3 =>
                first_match (match_d r3) (fun '(d, r4) => Some (y, m, d, r4))
            end)
      end
  end.

Definition is_leap (y : Z) : bool :=
  (y mod 4 =? 0) && (negb (y mod 100 =? 0) || (y mod 400 =? 0)).

Definition days_in_month (y m : Z) : Z :=
  if m =? 2 then (if is_leap y then 29 else 28)
  else if (m =? 4) || (m =? 6) || (m =? 9) || (m =? 11) then 30
  else 31.

(** The checks of the [date(year, month, day)] constructor. *)
Definition valid_date (y m d : Z) : bool :=
  (1 <=? y) && (y <=? 9999) && (1 <=? m) && (m <=? 12)
  && (1 <=? d) && (d <=? days_in_month y m).

Definition strptime (s : string) : res (Z * Z * Z) :=
  match regex_match s with
  | None => Raise ValueError
  | Some (y, m, d, rest) =>
      if negb (Text.is_empty rest) then Raise ValueError
      else if valid_date y m d then Ok (y, m, d)
      else Raise ValueError
  end.

End strptime.

(** ** [hashlib.sha256]

    SHA-256 as in FIPS 180-4, on 32-bit words kept in [Z]. *)

Module hashlib.

Definition mask32 : Z := 0xffffffff.
Definition w32 (x : Z) : Z := Z.land x mask32.
Definition rotr (n x : Z) : Z := Z.lor (Z.shiftr x n) (w32 (Z.shiftl x (32 - n))).

Definition Ch (x y z : Z) : Z := Z.lxor (Z.land x y) (Z.land (Z.lxor x mask32) z).
Definition Maj (x y z : Z) : Z :=
  Z.lxor (Z.lxor (Z.land x y) (Z.land x z)) (Z.land y z).
Definition Sigma0 (x : Z) : Z := Z.lxor (Z.lxor (rotr 2 x) (rotr 13 x)) (rotr 22 x).
Definition Sigma1 (x : Z) : Z := Z.lxor (Z.lxor (rotr 6 x) (rotr 11 x)) (rotr 25 x).
Definition sigma0 (x : Z) : Z := Z.lxor (Z.lxor (rotr 7 x) (rotr 18 x)) (Z.shiftr x 3).
Definition sigma1 (x : Z) : Z := Z.lxor (Z.lxor (rotr 17 x) (rotr 19 x)) (Z.shiftr x 10).

Definition is_prime (p : Z) : bool :=
  forallb (fun d => negb (p mod Z.of_nat d =? 0)) (seq 2 (Z.to_nat p - 2)).

(** The first 64 primes: those up to 311. *)
Definition primes : list Z := List.filter is_prime (map Z.of_nat (seq 2 310)).

(** The integer part of the cube root of [n], for [n < 2^108]. *)
Definition icbrt (n : Z) : Z :=
  fold_left (fun r b => let r' := r + 2 ^ Z.of_nat b in if r' * r' * r' <=? n then r' else r)
            (rev (seq 0 36)) 0.

(** The first 32 bits of the fractional parts of the cube roots of the
    first 64 primes. *)
Definition K : list Z :=
  Eval vm_compute in map (fun p => w32 (icbrt (p * 2 ^ 96))) primes.

(** The first 32 bits of the fractional parts of the square roots of the
    first 8 primes. *)
Definition H0 : list Z :=
  Eval vm_compute in map (fun p => w32 (Z.sqrt (p * 2 ^ 64))) (firstn 8 primes).

(** [s.encode()]: UTF-8 for code points below 256. *)
Fixpoint encode (s : string) : list Z :=
  match s with
  | EmptyString => []
  | String c s' =>
      let n := Z.of_N (N_of_ascii c) in
      if n <? 128 then n :: encode s'
      else Z.lor 0xc0 (Z.shiftr n 6) :: Z.lor 0x80 (Z.land n 0x3f) :: encode s'
  end.

Definition be_bytes (count : nat) (x : Z) : list Z :=
  map (fun i => Z.land (Z.shiftr x (8 * Z.of_nat i)) 0xff) (rev (seq 0 count)).

(** The message, a [1] bit, zero bits up to 448 modulo 512, and the
    message length in bits as a 64-bit big-endian number. *)
Definition pad (msg : list Z) : list Z :=
  let len := Z.of_nat (length msg) in
  let zeros := Z.to_nat ((55 - len) mod 64) in
  msg ++ [0x80] ++ repeat 0 zeros ++ be_bytes 8 (8 * len).

Fixpoint words (bs : list Z) : list Z :=
  match bs with
  | a :: b :: c :: d :: bs' =>
      (Z.shiftl a 24 + Z.shiftl b 16 + Z.shiftl c 8 + d) :: words bs'
  | _ => []
  end.

(** The message schedule, newest word first. *)
Fixpoint schedule (n : nat) (w : list Z) : list Z :=
  match n with
  | O => w
  | S n' =>
      let x := w32 (sigma1 (nth 1 w 0) + nth 6 w 0 + sigma0 (nth 14 w 0) + nth 15 w 0) in
      schedule n' (x :: w)
  end.

Definition round (st : list Z) (kw : Z * Z) : list Z :=
  match st with
  | [a; b; c; d; e; f; g; h] =>
      let t1 := h + Sigma1 e + Ch e f g + fst kw + snd kw in
      let t2 := Sigma0 a + Maj a b c in
      [w32 (t1 + t2); a; b; c; w32 (d + t1); e; f; g]
  | _ => st
  end.

Definition compress (h : list Z) (block : list Z) : list Z :=
  let w := rev (schedule 48 (rev block)) in
  let st := fold_left round (combine K w) h in
  map (fun p => w32 (fst p + snd p)) (combine h st).

Fixpoint blocks (n : nat) (ws : list Z) (h : list Z) : list Z :=
  match n with
  | O => h
  | S n' => blocks n' (skipn 16 ws) (compress h (firstn 16 ws))
  end.

Definition digest_words (msg : list Z) : list Z :=
  let ws := words (pad msg) in
  blocks (length ws / 16) ws H0.

Definition hex_word (x : Z) : string :=
  fold_right (fun i acc => String (Py.hex_digit (Z.land (Z.shiftr x (4 * Z.of_nat i)) 0xf)) acc)
             EmptyString (rev (seq 0 8)).

(** [hashlib.sha256(body.encode()).hexdigest()] *)
Definition sha256_hexdigest (body : string) : string :=
  fold_right (fun x acc => hex_word x +:+ acc) EmptyString (digest_words (encode body)).

End hashlib.

(** ** Floats leaving the program

    [a / b] on two [int]s is Python's true division: the exact quotient
    correctly rounded (ties to even) to an IEEE-754 binary64 number;
    reading a decimal literal as a [float] rounds its exact value the same
    way.  A binary64 result is represented by the rational number it is
    equal to, in lowest terms. *)

Module float.

(** [x * 2^k] for [k >= 0], [x] otherwise. *)
Definition scale (x k : Z) : Z := if 0 <=? k then x * 2 ^ k else x.

(** The binary64 number nearest to [q]. *)
Definition round_binary64 (q : Q) : res Q :=
  let q := Qred q in
  let n := Z.abs (Qnum q) in
  let d := Z.pos (Qden q) in
  if n =? 0 then Ok (0 # 1)%Q
  else
    let k := Z.log2 n - Z.log2 d in
    let k := if scale d k <=? scale n (- k) then k else k - 1 in
    let e := Z.max (k - 52) (-1074) in
    let m := decimal.round_half_even (scale n (- e)) (scale d e) in
    if (971 <? e) || ((e =? 971) && (m =? 2 ^ 53)) then Raise OverflowError
    else
      let m := if Qnum q <? 0 then - m else m in
      Ok (Qred (if 0 <=? e then inject_Z (m * 2 ^ e) else Qmake m (Z.to_pos (2 ^ (- e))))).

(** [a / b] for [int] operands. *)
Definition truediv (a b : Z) : res Q :=
  if b =? 0 then Raise ZeroDivisionError
  else round_binary64 (Qmake (a * Z.sgn b) (Z.to_pos (Z.abs b))).

End float.

(** ** The database

    Table [expenses] is keyed by its [INTEGER PRIMARY KEY AUTOINCREMENT]
    column [id]; [expenses_seq] is the counter SQLite keeps for it in
    [sqlite_sequence].  Table [idempotency_keys] is keyed by its
    [TEXT PRIMARY KEY] column. *)

Module Row.
Record t : Type := mk {
  amount_paise : Z;
  category : string;
  description : string;
  date : string;
  created_at : string
}.
End Row.

Module KeyRow.
Record t : Type := mk {
  expense_id : Z;
  created_at : string
}.
End KeyRow.

Record DB : Type := mkDB {
  expenses : gmap Z Row.t;
  expenses_seq : Z;
  idempotency_keys : gmap string KeyRow.t
}.

(** A row as a cursor returns it: the [id] and the other columns. *)
Definition row : Type := Z * Row.t.

(** The object [_row_to_expense] builds. *)
Module Expense.
Record t : Type := mk {
  id : Z;
  amount : Q;
  category : string;
  description : string;
  date : string;
  created_at : string
}.
End Expense.

Inductive json_body : Type :=
| JsonExpense (e : Expense.t)
| JsonError (error : string)
| JsonList (l : list Expense.t).

(** What a view function returns: [jsonify(...)] and a status code. *)
Definition response : Type := json_body * Z.

Definition _row_to_expense (r : row) : res Expense.t :=
  amount ← float.truediv (Row.amount_paise r.2) 100;
  Ok (Expense.mk r.1 amount (Row.category r.2) (Row.description r.2)
                 (Row.date r.2) (Row.created_at r.2)).

(** ** The request *)

Record Request : Type := mkRequest {
  (** [request.headers.get('Idempotency-Key')] *)
  header_idempotency_key : option string;
  (** [request.get_data(as_text=True)] *)
  get_data : string;
  (** [request.get_json(force=True, silent=True)]: [None] when the body
      is absent or does not parse. *)
  get_json : pyval
}.

Definition _get_idempotency_key (req : Request) : option string :=
  match header_idempotency_key req with
  | Some key =>
      if negb (Text.is_empty key) then Some (Text.strip key)
      else
        let body := get_data req in
        if negb (Text.is_empty body) then Some (hashlib.sha256_hexdigest body) else None
  | None =>
      let body := get_data req in
      if negb (Text.is_empty body) then Some (hashlib.sha256_hexdigest body) else None
  end.

(** ** [create_expense] *)

Definition MSG_INVALID_JSON : string := "Invalid JSON".
Definition MSG_CATEGORY_REQUIRED : string := "Category is required".
Definition MSG_DATE_REQUIRED : string := "Date is required".
Definition MSG_DATE_FORMAT : string := "Date must be in YYYY-MM-DD format".

(** [data.get(k)]: only a [dict] has the method. *)
Definition data_get (data : pyval) (k : string) : res pyval :=
  match data with
  | PyDict d => Ok (Py.dict_get d k)
  | _ => Raise AttributeError
  end.

(** [(v or '').strip()]: only a [str] has the method. *)
Definition or_empty_strip (v : pyval) : res string :=
  if Py.truthy v then
    match v with
    | PyStr s => Ok (Text.strip s)
    | _ => Raise AttributeError
    end
  else Ok (Text.strip "").

(** [if k:] on the value [_get_idempotency_key] returned. *)
Definition key_truthy (k : option string) : bool :=
  match k with
  | Some s => negb (Text.is_empty s)
  | None => false
  end.

(** The largest [id] in the table, 0 for an empty table. *)
Definition max_rowid (t : gmap Z Row.t) : Z :=
  foldr Z.max 0 (map fst (map_to_list t)).

Definition INT64_MAX : Z := 2 ^ 63 - 1.
Definition INT64_MIN : Z := - 2 ^ 63.

(** The two [SELECT]s that look a key up and fetch the row it names. *)
Definition find_existing (db : DB) (key : string) : option row :=
  match idempotency_keys db !! key with
  | Some existing =>
      match expenses db !! KeyRow.expense_id existing with
      | Some r => Some (KeyRow.expense_id existing, r)
      | None => None
      end
  | None => None
  end.

(** Lines 140-175: the transaction. *)
Definition store_expense (db : DB) (amount_paise : option Z)
    (category description date : string) (idempotency_key : option string)
    (created_at : string) : DB * res response :=
  match (if key_truthy idempotency_key
         then find_existing db (default "" idempotency_key) else None) with
  | Some r => (db, e ← _row_to_expense r; Ok (JsonExpense e, 201))
  | None =>
      match amount_paise with
      | None => (db, Raise IntegrityError)
      | Some paise =>
          if (paise <? INT64_MIN) || (INT64_MAX <? paise) then (db, Raise OverflowError)
          else
            let expense_id := Z.max (expenses_seq db) (max_rowid (expenses db)) + 1 in
            if INT64_MAX <? expense_id then (db, Raise OperationalError)
            else
              let r := Row.mk paise category description date created_at in
              let keys :=
                if key_truthy idempotency_key
                then <[default "" idempotency_key := KeyRow.mk expense_id created_at]>
                       (idempotency_keys db)
                else idempotency_keys db in
              let db' := mkDB (<[expense_id := r]> (expenses db)) expense_id keys in
              (db', match expenses db' !! expense_id with
                    | Some r' => e ← _row_to_expense (expense_id, r'); Ok (JsonExpense e, 201)
                    | None => Raise TypeError
                    end)
      end
  end.

(** Lines 118-138: what the checks before the transaction decide. *)
Inductive validated : Type :=
| Rejected (error : string)
| Accepted (amount_paise : option Z) (category description date : string).

Definition validate (data : pyval) : res validated :=
  if negb (Py.truthy data) then Ok (Rejected MSG_INVALID_JSON)
  else
    amount_raw ← data_get data "amount";
    category ← (v ← data_get data "category"; or_empty_strip v);
    description ← (v ← data_get data "description"; or_empty_strip v);
    date ← (v ← data_get data "date"; or_empty_strip v);
    '(amount_paise, amount_err) ← _parse_amount amount_raw;
    if key_truthy amount_err then Ok (Rejected (default "" amount_err))
    else if Text.is_empty category then Ok (Rejected MSG_CATEGORY_REQUIRED)
    else if Text.is_empty date then Ok (Rejected MSG_DATE_REQUIRED)
    else
      match strptime.strptime date with
      | Raise ValueError => Ok (Rejected MSG_DATE_FORMAT)
      | Raise e => Raise e
      | Ok _ => Ok (Accepted amount_paise category description date)
      end.

Definition create_expense (db : DB) (req : Request) (now : string) : DB * res response :=
  match validate (get_json req) with
  | Raise e => (db, Raise e)
  | Ok (Rejected error) => (db, Ok (JsonError error, 400))
  | Ok (Accepted amount_paise category description date) =>
      store_expense db amount_paise category description date
                    (_get_idempotency_key req) now
  end.

(** ** [get_expenses] *)

(** [ORDER BY date DESC, created_at DESC]: texts compare byte by byte. *)
Definition order_desc (r1 r2 : row) : bool :=
  match String.compare (Row.date r1.2) (Row.date r2.2) with
  | Gt => true
  | Lt => false
  | Eq =>
      match String.compare (Row.created_at r1.2) (Row.created_at r2.2) with
      | Lt => false
      | _ => true
      end
  end.

(** [ORDER BY date ASC, created_at ASC] *)
Definition order_asc (r1 r2 : row) : bool :=
  match String.compare (Row.date r1.2) (Row.date r2.2) with
  | Lt => true
  | Gt => false
  | Eq =>
      match String.compare (Row.created_at r1.2) (Row.created_at r2.2) with
      | Gt => false
      | _ => true
      end
  end.

Definition OrderDesc (r1 r2 : row) : Prop := order_desc r1 r2 = true.
Definition OrderAsc (r1 r2 : row) : Prop := order_asc r1 r2 = true.

#[global] Instance OrderDesc_dec r1 r2 : Decision (OrderDesc r1 r2).
Proof. unfold OrderDesc. apply _. Defined.

#[global] Instance OrderAsc_dec r1 r2 : Decision (OrderAsc r1 r2).
Proof. unfold OrderAsc. apply _. Defined.

(** The query [get_expenses] builds and runs; rows that agree on both
    sort columns come out in an order SQLite leaves open. *)
Definition select_expenses (db : DB) (category sort : string) : list row :=
  let rows := map_to_list (expenses db) in
  let rows :=
    if negb (Text.is_empty category)
    then filter (fun r : row => Row.category r.2 = category) rows
    else rows in
  if String.eqb sort "date_asc"
  then merge_sort OrderAsc rows
  else merge_sort OrderDesc rows.

(** [args_category] and [args_sort] are the query parameters, [None]
    when the URL has none. *)
Definition get_expenses (db : DB) (args_category args_sort : option string) : res response :=
  let category := Text.strip (default "" args_category) in
  let sort := Text.strip (default "" args_sort) in
  l ← mapM _row_to_expense (select_expenses db category sort);
  Ok (JsonList l, 200).

(** ** Notions used in the statements

    These are not part of the program: they name what the theorems talk
    about. *)

(** The number the text of an amount denotes: [Decimal(str(value))],
    with the exception of [str] or of the constructor when one raises. *)
Definition amount_decimal (value : pyval) : res decimal.Decimal :=
  text ← Py.str value; decimal.of_string text.

(** [c * 10^e] major units expressed in minor units, to the nearest
    integer, a tie going to the even one. *)
Definition minor_units (c e : Z) : Z :=
  if -2 <=? e then c * 10 ^ (e + 2)
  else decimal.round_half_even c (10 ^ (-2 - e)).

(** The largest count of minor units the 28-digit context lets through. *)
Definition MINOR_UNITS_LIMIT : Z := 10 ^ 28.

(** The exact value of a finite decimal. *)
Definition decimal_value (s : bool) (c e : Z) : Q :=
  let m := if s then - c else c in
  if 0 <=? e then inject_Z (m * 10 ^ e) else Qmake m (Z.to_pos (10 ^ (- e))).

(** Less than zero: a negative finite number or minus infinity. *)
Definition decimal_negative (d : decimal.Decimal) : Prop :=
  match d with
  | decimal.Finite s c _ => s = true /\ c <> 0
  | decimal.Infinity s => s = true
  | decimal.NaN _ _ => False
  end.

(** Column [amount_paise] is an SQLite [INTEGER]: every stored amount
    fits 64 bits. *)
Definition db_wf (db : DB) : Prop :=
  forall i r, expenses db !! i = Some r ->
    INT64_MIN <= Row.amount_paise r <= INT64_MAX.

(** The same, as a test that computes. *)
Definition db_wf_b (db : DB) : bool :=
  forallb (fun r : row => (INT64_MIN <=? Row.amount_paise r.2)
                          && (Row.amount_paise r.2 <=? INT64_MAX))
          (map_to_list (expenses db)).

(** Text order as SQLite's [BINARY] collation has it. *)
Definition text_lt (a b : string) : Prop := String.compare a b = Lt.

(** The greater date text first, then the greater creation text first. *)
Definition lex_desc (d1 c1 d2 c2 : string) : Prop :=
  text_lt d2 d1 \/ (d1 = d2 /\ ~ text_lt c1 c2).

(** The order [ORDER BY date DESC, created_at DESC] puts two listed
    expenses in.  Both columns are [TEXT] and are compared byte by byte:
    this is the order of the days and of the instants only among texts
    written alike.  It is not among the texts [create_expense] stores:
    ["2025-2-8"] is greater than ["2025-10-01"], and a creation time
    without a fraction of a second is greater than one with. *)
Definition text_desc (e1 e2 : Expense.t) : Prop :=
  text_lt (Expense.date e2) (Expense.date e1) \/
  (Expense.date e1 = Expense.date e2 /\
   ~ text_lt (Expense.created_at e1) (Expense.created_at e2)).

(** The order [ORDER BY date ASC, created_at ASC] puts them in. *)
Definition text_asc (e1 e2 : Expense.t) : Prop :=
  text_lt (Expense.date e1) (Expense.date e2) \/
  (Expense.date e1 = Expense.date e2 /\
   ~ text_lt (Expense.created_at e2) (Expense.created_at e1)).

(** What a listed expense shows of a stored row: its columns as they
    are, and the amount divided by 100. *)
Definition shows (r : row) (e : Expense.t) : Prop :=
  Expense.id e = r.1 /\
  float.truediv (Row.amount_paise r.2) 100 = Ok (Expense.amount e) /\
  Expense.category e = Row.category r.2 /\
  Expense.description e = Row.description r.2 /\
  Expense.date e = Row.date r.2 /\
  Expense.created_at e = Row.created_at r.2.

(** ** Invariants of the stored data *)

(** What [create_expense] lets into a row: an amount that is not
    negative and fits 64 bits, a category that is not empty, texts
    without surrounding whitespace, and a date [strptime] accepts. *)
Definition row_ok (r : Row.t) : Prop :=
  0 <= Row.amount_paise r <= INT64_MAX /\
  Row.category r <> EmptyString /\
  Text.strip (Row.category r) = Row.category r /\
  Text.strip (Row.description r) = Row.description r /\
  Text.strip (Row.date r) = Row.date r /\
  exists ymd, strptime.strptime (Row.date r) = Ok ymd.

Definition rows_ok (db : DB) : Prop :=
  forall i r, expenses db !! i = Some r -> row_ok r.

(** Referential integrity: every key names a stored expense. *)
Definition keys_ok (db : DB) : Prop :=
  forall k kr, idempotency_keys db !! k = Some kr ->
    is_Some (expenses db !! KeyRow.expense_id kr).

(** No two stored rows agree on both sort columns. *)
Definition sort_keys_distinct (db : DB) : Prop :=
  forall i j r1 r2,
    expenses db !! i = Some r1 -> expenses db !! j = Some r2 ->
    Row.date r1 = Row.date r2 -> Row.created_at r1 = Row.created_at r2 -> i = j.

(** The same, as a test that computes. *)
Definition sort_keys_distinct_b (db : DB) : bool :=
  let rows := map_to_list (expenses db) in
  forallb (fun r1 : row =>
    forallb (fun r2 : row =>
      implb (String.eqb (Row.date r1.2) (Row.date r2.2)
             && String.eqb (Row.created_at r1.2) (Row.created_at r2.2))
            (r1.1 =? r2.1)) rows) rows.

(** ** Dates written the ISO way *)

Definition digit_char (k : Z) : ascii := ascii_of_N (Z.to_N (48 + k)).

Definition pad2 (n : Z) : string :=
  String (digit_char (n / 10)) (String (digit_char (n mod 10)) EmptyString).

Definition pad4 (n : Z) : string :=
  String (digit_char (n / 1000)) (String (digit_char (n / 100 mod 10)) (pad2 (n mod 100))).

(** [YYYY-MM-DD], every field padded with zeros. *)
Definition iso_date (y m d : Z) : string :=
  pad4 y +:+ "-" +:+ pad2 m +:+ "-" +:+ pad2 d.

(** ** Sample data: the requests of the test suite *)

Definition EMPTY_DB : DB := mkDB ∅ 0 ∅.

(** [s] between double quotes. *)
Definition quoted (s : string) : string :=
  String Py.DQUOTE (s +:+ String Py.DQUOTE EmptyString).

(** The body [json.dumps] writes for the payload of [test_idempotency]. *)
Definition BUS_FARE_BODY : string :=
  "{" +:+ quoted "amount" +:+ ": 99.99, "
      +:+ quoted "category" +:+ ": " +:+ quoted "Transport" +:+ ", "
      +:+ quoted "description" +:+ ": " +:+ quoted "Bus fare" +:+ ", "
      +:+ quoted "date" +:+ ": " +:+ quoted "2025-02-18" +:+ "}".

Definition bus_fare (date : string) : pyval :=
  PyDict [("amount", PyFloat "99.99"); ("category", PyStr "Transport");
          ("description", PyStr "Bus fare"); ("date", PyStr date)].

(** The request of [test_idempotency]: no [Idempotency-Key] header. *)
Definition BUS_FARE_REQUEST : Request :=
  mkRequest None BUS_FARE_BODY (bus_fare "2025-02-18").

(** The same request sent with a header holding a single space. *)
Definition BLANK_HEADER_REQUEST : Request :=
  mkRequest (Some " ") BUS_FARE_BODY (bus_fare "2025-02-18").

(** A request whose date has no leading zeros. *)
Definition UNPADDED_DATE_REQUEST : Request :=
  mkRequest None
    ("{" +:+ quoted "amount" +:+ ": 99.99, "
         +:+ quoted "category" +:+ ": " +:+ quoted "Transport" +:+ ", "
         +:+ quoted "description" +:+ ": " +:+ quoted "Bus fare" +:+ ", "
         +:+ quoted "date" +:+ ": " +:+ quoted "2025-2-8" +:+ "}")
    (bus_fare "2025-2-8").

(** A request in which every checked field is wrong: a negative
    amount, an empty category and an empty date. *)
Definition ALL_WRONG : list (string * pyval) :=
  [("amount", PyInt (-50)); ("category", PyStr ""); ("date", PyStr "")].

Definition ALL_WRONG_REQUEST : Request :=
  mkRequest None
    ("{" +:+ quoted "amount" +:+ ": -50, " +:+ quoted "category" +:+ ": " +:+ quoted ""
         +:+ ", " +:+ quoted "date" +:+ ": " +:+ quoted "" +:+ "}")
    (PyDict ALL_WRONG).

(** A request with everything but an amount. *)
Definition NO_AMOUNT : list (string * pyval) :=
  [("category", PyStr "Food"); ("description", PyStr "x"); ("date", PyStr "2025-02-18")].

Definition NO_AMOUNT_REQUEST : Request :=
  mkRequest None
    ("{" +:+ quoted "category" +:+ ": " +:+ quoted "Food" +:+ ", "
         +:+ quoted "description" +:+ ": " +:+ quoted "x" +:+ ", "
         +:+ quoted "date" +:+ ": " +:+ quoted "2025-02-18" +:+ "}")
    (PyDict NO_AMOUNT).

(** A request whose body is the empty JSON object. *)
Definition EMPTY_OBJECT_REQUEST : Request := mkRequest None "{}" (PyDict []).

(** The database after [BUS_FARE_REQUEST] was served once. *)
Definition BUS_FARE_DB : DB :=
  (create_expense EMPTY_DB BUS_FARE_REQUEST "2025-02-18T10:00:00Z").1.

Definition BUS_FARE_EXPENSE : Expense.t :=
  Expense.mk 1 (7036170730324623 # 70368744177664) "Transport" "Bus fare"
             "2025-02-18" "2025-02-18T10:00:00Z".

(** Three expenses dated 16, 18 and 17 February, stored in that order. *)
Definition THREE_DATES_DB : DB :=
  mkDB (<[3 := Row.mk 100 "X" "x" "2025-02-17" "t3"]>
       (<[2 := Row.mk 100 "X" "x" "2025-02-18" "t2"]>
       (<[1 := Row.mk 100 "X" "x" "2025-02-16" "t1"]> ∅))) 3 ∅.

(** Three expenses in the categories Food, Transport, Food. *)
Definition THREE_CATEGORIES_DB : DB :=
  mkDB (<[3 := Row.mk 3000 "Food" "x" "2025-02-18" "t3"]>
       (<[2 := Row.mk 2000 "Transport" "x" "2025-02-18" "t2"]>
       (<[1 := Row.mk 1000 "Food" "x" "2025-02-18" "t1"]> ∅))) 3 ∅.

(** The row [BUS_FARE_REQUEST] leaves in the table. *)
Definition BUS_FARE_ROW : Row.t :=
  Row.mk 9999 "Transport" "Bus fare" "2025-02-18" "2025-02-18T10:00:00Z".

(** A body that is a JSON array. *)
Definition ARRAY_REQUEST : Request := mkRequest None "[1]" (PyList [PyInt 1]).

(** A request whose category is a number and whose amount is no number. *)
Definition NUMERIC_CATEGORY : list (string * pyval) :=
  [("amount", PyStr "abc"); ("category", PyInt 5)].

Definition NUMERIC_CATEGORY_REQUEST : Request :=
  mkRequest None
    ("{" +:+ quoted "amount" +:+ ": " +:+ quoted "abc" +:+ ", "
         +:+ quoted "category" +:+ ": 5}")
    (PyDict NUMERIC_CATEGORY).

(** An amount of [10^17] major units: [10^19] minor units, more than 64
    bits hold. *)
Definition HUGE_AMOUNT_REQUEST : Request :=
  mkRequest None
    ("{" +:+ quoted "amount" +:+ ": 100000000000000000, "
         +:+ quoted "category" +:+ ": " +:+ quoted "Food" +:+ ", "
         +:+ quoted "date" +:+ ": " +:+ quoted "2025-02-18" +:+ "}")
    (PyDict [("amount", PyInt (10 ^ 17)); ("category", PyStr "Food");
             ("date", PyStr "2025-02-18")]).

(** A request whose texts carry surrounding whitespace, and which tries
    to choose its own [id] and [created_at]. *)
Definition ALL_FIELDS_PADDED : list (string * pyval) :=
  [("amount", PyStr " 12.5 "); ("category", PyStr "  Food "); ("description", PyStr " Lunch  ");
   ("date", PyStr " 2025-02-18 "); ("created_at", PyStr "1999-01-01T00:00:00Z");
   ("id", PyInt 77)].

Definition PADDED_REQUEST : Request :=
  mkRequest (Some " retry-1 ")
    ("{" +:+ quoted "amount" +:+ ": " +:+ quoted " 12.5 " +:+ ", "
         +:+ quoted "category" +:+ ": " +:+ quoted "  Food " +:+ ", "
         +:+ quoted "description" +:+ ": " +:+ quoted " Lunch  " +:+ ", "
         +:+ quoted "date" +:+ ": " +:+ quoted " 2025-02-18 " +:+ ", "
         +:+ quoted "created_at" +:+ ": " +:+ quoted "1999-01-01T00:00:00Z" +:+ ", "
         +:+ quoted "id" +:+ ": 77}")
    (PyDict ALL_FIELDS_PADDED).

Definition PADDED_EXPENSE : Expense.t :=
  Expense.mk 1 (25 # 2) "Food" "Lunch" "2025-02-18" "2025-02-19T08:00:00Z".

(** Two expenses dated 18 and 8 February 2025, the second with its
    date sent as [2025-2-8]. *)
Definition FEB_18_DB : DB :=
  (create_expense EMPTY_DB BUS_FARE_REQUEST "2025-02-18T10:00:00.250000Z").1.

Definition FEB_18_EXPENSE : Expense.t :=
  Expense.mk 1 (7036170730324623 # 70368744177664) "Transport" "Bus fare"
             "2025-02-18" "2025-02-18T10:00:00.250000Z".

Definition FEB_8_DB : DB :=
  (create_expense FEB_18_DB UNPADDED_DATE_REQUEST "2025-02-18T10:00:05.750000Z").1.

Definition FEB_8_EXPENSE : Expense.t :=
  Expense.mk 2 (7036170730324623 # 70368744177664) "Transport" "Bus fare"
             "2025-2-8" "2025-02-18T10:00:05.750000Z".

(** Two expenses of one date, the second created half a second after
    the first, whose time of creation fell on a whole second. *)
Definition HALF_SECOND_DB : DB :=
  (create_expense BUS_FARE_DB PADDED_REQUEST "2025-02-18T10:00:00.500000Z").1.

Definition HALF_SECOND_EXPENSE : Expense.t :=
  Expense.mk 2 (25 # 2) "Food" "Lunch" "2025-02-18" "2025-02-18T10:00:00.500000Z".

(** A request dated 30 February. *)
Definition FEB_30 : list (string * pyval) :=
  [("amount", PyInt 20); ("category", PyStr "Food"); ("date", PyStr "2025-02-30")].

Definition FEB_30_REQUEST : Request :=
  mkRequest None
    ("{" +:+ quoted "amount" +:+ ": 20, "
         +:+ quoted "category" +:+ ": " +:+ quoted "Food" +:+ ", "
         +:+ quoted "date" +:+ ": " +:+ quoted "2025-02-30" +:+ "}")
    (PyDict FEB_30).

(** * Checks on concrete inputs *)

Example strip_ex1 : Text.strip "  Food " = "Food".
Proof. reflexivity. Qed.

Example strip_ex2 : Text.strip (String (ascii_of_nat 160) " ") = "".
Proof. reflexivity. Qed.

Example str_of_int_ex :
  Text.str_of_int (-1050) = Ok "-1050" /\ Text.str_of_int 0 = Ok "0".
Proof. split; reflexivity. Qed.

Example repr_ex :
  Py.str (PyList [PyInt 1; PyStr "a\b"; PyNone]) = Ok "[1, 'a\\b', None]".
Proof. reflexivity. Qed.

Example parse_amount_100 : _parse_amount (PyInt 100) = Ok (Some 10000, None).
Proof. vm_compute. reflexivity. Qed.

Example parse_amount_99_99 : _parse_amount (PyFloat "99.99") = Ok (Some 9999, None).
Proof. vm_compute. reflexivity. Qed.

Example parse_amount_50_50 : _parse_amount (PyStr "50.50") = Ok (Some 5050, None).
Proof. vm_compute. reflexivity. Qed.

Example parse_amount_neg : _parse_amount (PyInt (-1)) = Ok (None, Some MSG_AMOUNT_NEGATIVE).
Proof. vm_compute. reflexivity. Qed.

Example parse_amount_abc : _parse_amount (PyStr "abc") = Ok (None, Some MSG_AMOUNT_INVALID).
Proof. vm_compute. reflexivity. Qed.

Example parse_amount_big : _parse_amount (PyStr "1e26") = Ok (None, Some MSG_AMOUNT_INVALID).
Proof. vm_compute. reflexivity. Qed.

Example parse_amount_big2 : _parse_amount (PyStr "1e25") = Ok (Some (10^27), None).
Proof. vm_compute. reflexivity. Qed.

Example parse_amount_half_even :
  _parse_amount (PyStr "0.125") = Ok (Some 12, None) /\
  _parse_amount (PyStr "0.135") = Ok (Some 14, None) /\
  _parse_amount (PyStr " 1_000.005 ") = Ok (Some 100000, None).
Proof. vm_compute. repeat split; reflexivity. Qed.

Example strptime_ok : strptime.strptime "2025-02-18" = Ok (2025, 2, 18).
Proof. reflexivity. Qed.

Example strptime_feb30 : strptime.strptime "2025-02-30" = Raise ValueError.
Proof. reflexivity. Qed.

Example strptime_month13 : strptime.strptime "2025-13-01" = Raise ValueError.
Proof. reflexivity. Qed.

Example strptime_leap :
  strptime.strptime "2024-02-29" = Ok (2024, 2, 29) /\
  strptime.strptime "2023-02-29" = Raise ValueError /\
  strptime.strptime "1900-02-29" = Raise ValueError /\
  strptime.strptime "2000-02-29" = Ok (2000, 2, 29).
Proof. repeat split; reflexivity. Qed.

Example strptime_unpadded : strptime.strptime "2025-2-8" = Ok (2025, 2, 8).
Proof. reflexivity. Qed.

Example strptime_trailing : strptime.strptime "2025-02-181" = Raise ValueError.
Proof. reflexivity. Qed.

Example sha256_abc :
  hashlib.sha256_hexdigest "abc"
  = "ba7816bf8f01cfea414140de5dae2223b00361a396177a9cb410ff61f20015ad".
Proof. vm_compute. reflexivity. Qed.

Example truediv_150_5 : float.truediv 15050 100 = Ok (301 # 2)%Q.
Proof. vm_compute. reflexivity. Qed.

Example truediv_99_99 :
  float.truediv 9999 100 = Ok (7036170730324623 # 70368744177664)%Q /\
  float.round_binary64 (9999 # 100) = Ok (7036170730324623 # 70368744177664)%Q.
Proof. split; vm_compute; reflexivity. Qed.

Example test_create_and_get_expense :
  create_expense EMPTY_DB BUS_FARE_REQUEST "2025-02-18T10:00:00Z"
  = (BUS_FARE_DB, Ok (JsonExpense BUS_FARE_EXPENSE, 201)) /\
  get_expenses BUS_FARE_DB None None = Ok (JsonList [BUS_FARE_EXPENSE], 200).
Proof. split; vm_compute; reflexivity. Qed.

Example test_filter_by_category :
  (l ← get_expenses THREE_CATEGORIES_DB (Some "Food") None;
   match l with
   | (JsonList l, _) => Ok (length l, forallb (fun e => String.eqb (Expense.category e) "Food") l)
   | _ => Raise TypeError
   end) = Ok (2%nat, true) /\
  (l ← get_expenses THREE_CATEGORIES_DB (Some "food") None;
   match l with
   | (JsonList l, _) => Ok (length l)
   | _ => Raise TypeError
   end) = Ok 0%nat.
Proof. split; vm_compute; reflexivity. Qed.

Example test_sort_date_desc :
  (l ← get_expenses THREE_DATES_DB None (Some "date_desc");
   match l with
   | (JsonList l, _) => Ok (map Expense.date l)
   | _ => Raise TypeError
   end) = Ok ["2025-02-18"; "2025-02-17"; "2025-02-16"] /\
  (l ← get_expenses THREE_DATES_DB None (Some "date_asc");
   match l with
   | (JsonList l, _) => Ok (map Expense.date l)
   | _ => Raise TypeError
   end) = Ok ["2025-02-16"; "2025-02-17"; "2025-02-18"].
Proof. split; vm_compute; reflexivity. Qed.

Example test_validation_missing_date :
  validate (bus_fare "") = Ok (Rejected MSG_DATE_REQUIRED).
Proof. vm_compute. reflexivity. Qed.

(** * Lemmas *)

(** ** Text *)

Section TextFacts.
Import Text.

Lemma lstrip_head s :
  lstrip s = EmptyString \/ exists c r, lstrip s = String c r /\ is_space c = false.
Proof.
  induction s as [|c s IH]; simpl; [by left|].
  destruct (is_space c) eqn:Hc; [exact IH|].
  right. by exists c, s.
Qed.

Lemma rstrip_idem s : rstrip (rstrip s) = rstrip s.
Proof.
  induction s as [|c s IH]; simpl; [done|].
  destruct (is_space c && is_empty (rstrip s)) eqn:Hc; simpl; [done|].
  by rewrite IH, Hc.
Qed.

Lemma rstrip_cons_nonspace c s :
  is_space c = false -> rstrip (String c s) = String c (rstrip s).
Proof. intros Hc. simpl. by rewrite Hc. Qed.

Lemma strip_idem s : strip (strip s) = strip s.
Proof.
  unfold strip.
  destruct (lstrip_head s) as [->|(c & r & -> & Hc)]; [done|].
  rewrite (rstrip_cons_nonspace _ _ Hc). simpl lstrip. rewrite Hc.
  rewrite (rstrip_cons_nonspace _ _ Hc). by rewrite rstrip_idem.
Qed.

Lemma is_empty_true s : is_empty s = true <-> s = EmptyString.
Proof. destruct s; simpl; split; congruence. Qed.

Lemma digit_val_nonneg c : is_digit c = true -> 0 <= digit_val c <= 9.
Proof. unfold is_digit, digit_val. lia. Qed.

Lemma digits_val_nonneg s : forall acc,
  all_digits s = true -> 0 <= acc -> 0 <= digits_val acc s.
Proof.
  induction s as [|c s IH]; simpl; intros acc Hs Hacc; [done|].
  apply andb_true_iff in Hs as [Hc Hs].
  apply IH; [done|]. pose proof (digit_val_nonneg c Hc). lia.
Qed.

Lemma span_digits_all s : all_digits (span_digits s).1 = true.
Proof.
  induction s as [|c s IH]; simpl; [done|].
  destruct (is_digit c) eqn:Hc; [|done].
  destruct (span_digits s) as [d r]. simpl in *. by rewrite Hc, IH.
Qed.

Lemma all_digits_app a b :
  all_digits a = true -> all_digits b = true -> all_digits (a +:+ b) = true.
Proof.
  induction a as [|c a IH]; simpl; [done|].
  intros Ha Hb. apply andb_true_iff in Ha as [-> Ha]. simpl. by apply IH.
Qed.

End TextFacts.

(** ** Digits and rounding *)

Section DecimalFacts.
Import decimal.

Lemma ndigits_fuel_spec f : forall n,
  0 < n < 2 ^ Z.of_nat f ->
  1 <= ndigits_fuel f n /\ 10 ^ (ndigits_fuel f n - 1) <= n < 10 ^ ndigits_fuel f n.
Proof.
  induction f as [|f IH]; intros n Hn.
  - simpl in Hn. lia.
  - cbn [ndigits_fuel]. destruct (Z.ltb_spec n 10) as [Hlt|Hge].
    + simpl. lia.
    + assert (Hdiv : 0 < n / 10 < 2 ^ Z.of_nat f).
      { split; [apply Z.div_str_pos; lia|].
        apply Z.div_lt_upper_bound; [lia|].
        rewrite Nat2Z.inj_succ, Z.pow_succ_r in Hn by lia. lia. }
      destruct (IH _ Hdiv) as (H1 & H2 & H3).
      set (k := ndigits_fuel f (n / 10)) in *.
      replace (1 + k - 1) with (Z.succ (k - 1)) by lia.
      replace (1 + k) with (Z.succ k) by lia.
      rewrite !Z.pow_succ_r by lia.
      pose proof (Z.div_mod n 10 ltac:(lia)).
      pose proof (Z.mod_pos_bound n 10 ltac:(lia)).
      lia.
Qed.

Lemma ndigits_spec n :
  0 < n -> 1 <= ndigits n /\ 10 ^ (ndigits n - 1) <= n < 10 ^ ndigits n.
Proof.
  intros Hn. unfold ndigits. apply ndigits_fuel_spec.
  split; [done|].
  rewrite Nat2Z.inj_succ, Z2Nat.id by apply Z.log2_nonneg.
  apply Z.log2_spec. done.
Qed.

Lemma ndigits_unique n k :
  0 < n -> 10 ^ (k - 1) <= n < 10 ^ k -> ndigits n = k.
Proof.
  intros Hn [Hlo Hhi].
  destruct (ndigits_spec n Hn) as (H1 & H2 & H3).
  assert (Hk : 1 <= k).
  { destruct (Z.le_gt_cases 1 k) as [|Hk]; [done|].
    assert (10 ^ k <= 1); [|lia].
    destruct (Z.lt_trichotomy k 0) as [?|[->|?]]; [|simpl; lia|lia].
    rewrite Z.pow_neg_r by done. lia. }
  destruct (Z.lt_trichotomy (ndigits n) k) as [Hlt|[Heq|Hgt]]; [|done|].
  - assert (10 ^ ndigits n <= 10 ^ (k - 1)) by (apply Z.pow_le_mono_r; lia). lia.
  - assert (10 ^ k <= 10 ^ (ndigits n - 1)) by (apply Z.pow_le_mono_r; lia). lia.
Qed.

Lemma ndigits_mul_pow n k :
  0 < n -> 0 <= k -> ndigits (n * 10 ^ k) = ndigits n + k.
Proof.
  intros Hn Hk. destruct (ndigits_spec n Hn) as (H1 & H2 & H3).
  assert (0 < 10 ^ k) by (apply Z.pow_pos_nonneg; lia).
  apply ndigits_unique; [nia|].
  replace (ndigits n + k - 1) with (ndigits n - 1 + k) by lia.
  rewrite !Z.pow_add_r by lia. nia.
Qed.

Lemma ndigits_le n k :
  0 < n -> 0 <= k -> (ndigits n <= k <-> n < 10 ^ k).
Proof.
  intros Hn Hk. destruct (ndigits_spec n Hn) as (H1 & H2 & H3). split.
  - intros Hle. assert (10 ^ ndigits n <= 10 ^ k) by (apply Z.pow_le_mono_r; lia). lia.
  - intros Hlt. destruct (Z.le_gt_cases (ndigits n) k) as [|Hgt]; [done|].
    assert (10 ^ k <= 10 ^ (ndigits n - 1)) by (apply Z.pow_le_mono_r; lia). lia.
Qed.

(** The rounded quotient is within half a unit of the exact one, and on a
    tie it is even. *)
Lemma round_half_even_spec n d :
  0 < d ->
  let r := round_half_even n d in
  2 * Z.abs (r * d - n) <= d /\ (2 * Z.abs (r * d - n) = d -> Z.even r = true).
Proof.
  intros Hd. unfold round_half_even.
  pose proof (Z.div_mod n d ltac:(lia)) as Hdm.
  pose proof (Z.mod_pos_bound n d Hd) as Hm.
  destruct (Z.ltb_spec (2 * (n mod d)) d) as [H1|H1]; simpl.
  { split; [nia|]. intros He. nia. }
  destruct (Z.ltb_spec d (2 * (n mod d))) as [H2|H2]; simpl.
  { split; [nia|]. intros He. nia. }
  destruct (Z.even (n / d)) eqn:Hev; simpl.
  { split; [nia|done]. }
  split; [nia|]. intros _.
  rewrite Z.even_add, Hev. done.
Qed.

Lemma round_half_even_bounds n d :
  0 < d -> n / d <= round_half_even n d <= n / d + 1.
Proof.
  intros Hd. unfold round_half_even.
  repeat match goal with |- context [if ?b then _ else _] => destruct b end; lia.
Qed.

Lemma round_half_even_exact q d : 0 < d -> round_half_even (q * d) d = q.
Proof.
  intros Hd. unfold round_half_even.
  rewrite Z.div_mul, Z.mod_mul by lia.
  destruct (Z.ltb_spec (2 * 0) d); [done|lia].
Qed.

Lemma round_half_even_nonneg n d : 0 <= n -> 0 < d -> 0 <= round_half_even n d.
Proof.
  intros Hn Hd. pose proof (round_half_even_bounds n d Hd).
  pose proof (Z.div_pos n d Hn Hd). lia.
Qed.

Lemma minor_units_nonneg c e : 0 <= c -> 0 <= minor_units c e.
Proof.
  intros Hc. unfold minor_units. destruct (Z.leb_spec (-2) e).
  - assert (0 <= 10 ^ (e + 2)) by (apply Z.pow_nonneg; lia). nia.
  - apply round_half_even_nonneg; [done|]. apply Z.pow_pos_nonneg; lia.
Qed.

Lemma minor_units_zero e : minor_units 0 e = 0.
Proof.
  unfold minor_units. destruct (Z.leb_spec (-2) e); [lia|].
  replace 0 with (0 * 10 ^ (-2 - e)) at 1 by lia.
  apply round_half_even_exact. apply Z.pow_pos_nonneg; lia.
Qed.

End DecimalFacts.

(** ** [quantize], [*] and [int] on a non-negative amount *)

Section QuantizeFacts.
Import decimal.

Lemma minor_units_big c e :
  0 < c -> 26 <= adjusted c e -> MINOR_UNITS_LIMIT <= minor_units c e.
Proof.
  intros Hc Hadj. unfold adjusted in Hadj. unfold MINOR_UNITS_LIMIT, minor_units.
  destruct (ndigits_spec c Hc) as (H1 & H2 & _).
  destruct (Z.leb_spec (-2) e) as [He|He].
  - assert (10 ^ 28 <= 10 ^ (ndigits c - 1 + (e + 2))) by (apply Z.pow_le_mono_r; lia).
    rewrite Z.pow_add_r in H by lia.
    assert (0 < 10 ^ (e + 2)) by (apply Z.pow_pos_nonneg; lia). nia.
  - set (D := 10 ^ (-2 - e)). assert (HD : 0 < D) by (apply Z.pow_pos_nonneg; lia).
    pose proof (round_half_even_bounds c D HD) as [Hb _].
    assert (10 ^ 28 <= c / D); [|lia].
    apply Z.div_le_lower_bound; [done|].
    assert (10 ^ 28 <= 10 ^ (ndigits c - 1 - (-2 - e))) by (apply Z.pow_le_mono_r; lia).
    assert (10 ^ (ndigits c - 1) = 10 ^ (ndigits c - 1 - (-2 - e)) * D) as Heq.
    { unfold D. rewrite <- Z.pow_add_r by lia. f_equal. lia. }
    nia.
Qed.

Lemma minor_units_small c e :
  0 < c -> adjusted c e <= 25 ->
  minor_units c e <= MINOR_UNITS_LIMIT /\ (-2 <= e -> minor_units c e < MINOR_UNITS_LIMIT).
Proof.
  intros Hc Hadj. unfold adjusted in Hadj. unfold MINOR_UNITS_LIMIT, minor_units.
  destruct (ndigits_spec c Hc) as (H1 & _ & H3).
  destruct (Z.leb_spec (-2) e) as [He|He].
  - assert (10 ^ (ndigits c + (e + 2)) <= 10 ^ 28) by (apply Z.pow_le_mono_r; lia).
    rewrite Z.pow_add_r in H by lia.
    assert (0 < 10 ^ (e + 2)) by (apply Z.pow_pos_nonneg; lia).
    assert (c * 10 ^ (e + 2) < 10 ^ 28) by nia. lia.
  - split; [|lia].
    set (D := 10 ^ (-2 - e)). assert (HD : 0 < D) by (apply Z.pow_pos_nonneg; lia).
    pose proof (round_half_even_bounds c D HD) as [_ Hb].
    assert (c / D < 10 ^ 28); [|lia].
    apply Z.div_lt_upper_bound; [done|].
    assert (10 ^ ndigits c <= 10 ^ (28 + (-2 - e))) by (apply Z.pow_le_mono_r; lia).
    rewrite Z.pow_add_r in H by lia. fold D in H. lia.
Qed.

Lemma fix_small s c :
  0 <= c < MINOR_UNITS_LIMIT -> fix_ (Finite s c (-2)) = Ok (Finite s c (-2)).
Proof.
  intros [Hc Hlt]. unfold fix_.
  destruct (Z.eqb_spec c 0) as [->|Hne]; [done|].
  assert (Hnd : ndigits c <= 28) by (apply ndigits_le; [lia|lia|exact Hlt]).
  destruct (ndigits_spec c ltac:(lia)) as (H1 & _).
  unfold Etop, Etiny, Emax, Emin, prec.
  destruct (Z.ltb_spec (999999 - 28 + 1) (-2 + ndigits c - 28)); [lia|].
  destruct (Z.ltb_spec (-2) (Z.max (-2 + ndigits c - 28) (-999999 - 28 + 1))); [lia|done].
Qed.

Lemma quantize_cents s c e :
  0 <= c ->
  quantize (Finite s c e) (Finite false 1 (-2))
  = if minor_units c e <? MINOR_UNITS_LIMIT
    then Ok (Finite s (minor_units c e) (-2))
    else Raise InvalidOperation.
Proof.
  intros Hc. unfold quantize.
  replace (negb ((Etiny <=? -2) && (-2 <=? Emax))) with false by reflexivity.
  destruct (Z.eqb_spec c 0) as [->|Hne].
  { rewrite minor_units_zero. simpl. reflexivity. }
  assert (Hpos : 0 < c) by lia.
  destruct (Z.ltb_spec Emax (adjusted c e)) as [Hbig|Hle].
  { pose proof (minor_units_big c e Hpos) as Hm. unfold Emax in Hbig.
    destruct (Z.ltb_spec (minor_units c e) MINOR_UNITS_LIMIT); [lia|done]. }
  destruct (Z.ltb_spec prec (adjusted c e - -2 + 1)) as [Hbig|Hsmall].
  { pose proof (minor_units_big c e Hpos) as Hm. unfold prec in Hbig.
    destruct (Z.ltb_spec (minor_units c e) MINOR_UNITS_LIMIT); [lia|done]. }
  unfold prec in Hsmall.
  destruct (minor_units_small c e Hpos ltac:(lia)) as [Hm1 Hm2].
  pose proof (minor_units_nonneg c e Hc) as Hm0.
  assert (Hres : rescale s c e (-2) = Finite s (minor_units c e) (-2)).
  { unfold rescale, minor_units.
    destruct (Z.eqb_spec c 0); [lia|].
    destruct (Z.leb_spec (-2) e); do 3 f_equal; lia. }
  rewrite Hres.
  set (m := minor_units c e) in *.
  destruct (Z.eqb_spec m 0) as [Hz|Hnz].
  { rewrite Hz. reflexivity. }
  assert (Hnd : 1 <= ndigits m) by (apply ndigits_spec; lia).
  destruct (Z.ltb_spec m MINOR_UNITS_LIMIT) as [Hlt|Hge].
  - assert (ndigits m <= 28) by (apply ndigits_le; [lia|lia|exact Hlt]).
    unfold adjusted, Emax, prec.
    destruct (Z.ltb_spec 999999 (-2 + ndigits m - 1)); [lia|].
    destruct (Z.ltb_spec 28 (ndigits m)); [lia|].
    apply fix_small. lia.
  - assert (Hm : m = 10 ^ 28) by (unfold MINOR_UNITS_LIMIT in *; lia).
    rewrite Hm. reflexivity.
Qed.

Lemma mul_100_to_int s m :
  0 <= m < MINOR_UNITS_LIMIT ->
  (prod ← mul (Finite s m (-2)) (of_int 100); to_int prod)
  = Ok (if s then - m else m).
Proof.
  intros [Hm Hlt]. unfold mul, of_int.
  change (Z.abs 100) with 100. change (100 <? 0) with false.
  rewrite xorb_false_r. replace (-2 + 0) with (-2) by lia.
  unfold fix_.
  destruct (Z.eqb_spec (m * 100) 0) as [Hz|Hnz].
  { assert (m = 0) as -> by lia. simpl. by destruct s. }
  assert (Hpos : 0 < m) by lia.
  assert (Hnd : ndigits (m * 100) = ndigits m + 2).
  { change 100 with (10 ^ 2). apply ndigits_mul_pow; lia. }
  assert (Hn28 : ndigits m <= 28) by (apply ndigits_le; [lia|lia|exact Hlt]).
  destruct (ndigits_spec m Hpos) as (H1 & H2 & H3).
  rewrite Hnd. unfold Etop, Etiny, Emax, Emin, prec.
  destruct (Z.ltb_spec (999999 - 28 + 1) (-2 + (ndigits m + 2) - 28)); [lia|].
  rewrite Z.max_l by lia.
  destruct (Z.ltb_spec (-2) (-2 + (ndigits m + 2) - 28)) as [Hround|Hkeep].
  - assert (ndigits m = 27 \/ ndigits m = 28) as [Hk|Hk] by lia; rewrite Hk in *.
    + replace (-2 + (27 + 2) - 28) with (-1) by lia. change (-1 - -2) with 1.
      replace (m * 100) with ((m * 10) * 10 ^ 1) by lia.
      rewrite round_half_even_exact by lia.
      assert (ndigits (m * 10) = 28) as ->.
      { change 10 with (10 ^ 1) at 1. rewrite ndigits_mul_pow by lia. lia. }
      simpl. change (10 ^ (- (-1))) with 10. rewrite Z.div_mul by lia. done.
    + replace (-2 + (28 + 2) - 28) with 0 by lia. change (0 - -2) with 2.
      replace (m * 100) with (m * 10 ^ 2) by lia.
      rewrite round_half_even_exact by lia.
      rewrite Hk. simpl. replace (m * 10 ^ 0) with m by lia. done.
  - simpl. rewrite Z.div_mul by lia. done.
Qed.

End QuantizeFacts.

(** ** [Decimal(text)] *)

Section ConstructionFacts.
Import decimal.

Lemma of_string_raise s e : of_string s = Raise e -> e = InvalidOperation.
Proof.
  unfold of_string. destruct (parse_sign _) as [sg r].
  destruct (parse_number sg r) as [d|].
  - unfold exact. destruct d as [s' c e'| |]; try done.
    destruct (c =? 0); destruct (_ || _); congruence.
  - destruct (parse_special sg r); [done|]. congruence.
Qed.

Lemma exact_ok d d' : exact d = Ok d' -> d' = d.
Proof.
  unfold exact. destruct d as [s c e| |]; try congruence.
  destruct (c =? 0); destruct (_ || _); congruence.
Qed.

Lemma of_string_strip s : of_string (Text.strip s) = of_string s.
Proof. unfold of_string. by rewrite strip_idem. Qed.

Lemma parse_number_finite sg r d :
  parse_number sg r = Some d -> exists c e, d = Finite sg c e /\ 0 <= c.
Proof.
  unfold parse_number.
  pose proof (span_digits_all r) as Hip.
  destruct (Text.span_digits r) as [ip r1]. simpl in Hip.
  assert (Hfp : forall fp r2,
    match r1 with
    | String "." r' => Text.span_digits r'
    | _ => (EmptyString, r1)
    end = (fp, r2) -> Text.all_digits fp = true).
  { intros fp r2 Heq.
    assert (forall r', Text.span_digits r' = (fp, r2) -> Text.all_digits fp = true) as Hsp.
    { intros r' Hr'. pose proof (span_digits_all r') as H. by rewrite Hr' in H. }
    destruct r1 as [|a r']; [by inversion Heq|].
    destruct a as [[] [] [] [] [] [] [] []]; try (by inversion Heq).
    by eapply Hsp. }
  destruct (match r1 with String "." r' => Text.span_digits r' | _ => (EmptyString, r1) end)
    as [fp r2] eqn:Heq.
  specialize (Hfp _ _ eq_refl).
  assert (Hc : 0 <= Text.digits_val 0 (ip +:+ fp)).
  { apply digits_val_nonneg; [by apply all_digits_app|lia]. }
  destruct (Text.is_empty ip && Text.is_empty fp); [done|].
  destruct r2 as [|a r3].
  - intros [= <-]. eauto.
  - destruct (Ascii.eqb (Text.lower a) "e"); [|done].
    destruct (parse_exponent r3); [|done].
    intros [= <-]. eauto.
Qed.

Lemma parse_special_not_finite sg r s c e :
  parse_special sg r <> Some (Finite s c e).
Proof.
  unfold parse_special.
  destruct (String.eqb _ "inf" || String.eqb _ "infinity"); [done|].
  repeat (match goal with
          | |- context [match ?x with _ => _ end] => destruct x; try done
          end).
Qed.

Lemma of_string_coeff_nonneg t s c e : of_string t = Ok (Finite s c e) -> 0 <= c.
Proof.
  unfold of_string. destruct (parse_sign _) as [sg r].
  destruct (parse_number sg r) as [d|] eqn:Hn.
  - intros Hex. apply exact_ok in Hex as <-.
    apply parse_number_finite in Hn as (c' & e' & [= -> -> ->] & Hc). done.
  - destruct (parse_special sg r) as [d|] eqn:Hs; [|done].
    intros [= ->]. by apply parse_special_not_finite in Hs.
Qed.

End ConstructionFacts.

(** ** [str(value)] *)

Lemma str_of_int_raise n e : Text.str_of_int n = Raise e -> e = ValueError.
Proof. unfold Text.str_of_int. destruct (_ <? _); congruence. Qed.

Lemma repr_raise : forall v e, Py.repr v = Raise e -> e = ValueError.
Proof.
  fix IH 1. intros [|[]|n|r|s|l|d] e; cbn [Py.repr]; try congruence.
  - apply str_of_int_raise.
  - set (items := fix items (l : list pyval) : res (list string) :=
                    match l with
                    | [] => Ok []
                    | x :: l' => s ← Py.repr x; r ← items l'; Ok (s :: r)
                    end).
    assert (forall ex, items l = Raise ex -> ex = ValueError) as Hitems.
    { induction l as [|x l IHl]; intros ex; cbn [items]; [congruence|].
      destruct (Py.repr x) as [s|ex'] eqn:Hx.
      - cbn [mbind res_bind]. fold items.
        destruct (items l) as [r|ex'']; cbn [mbind res_bind]; [congruence|].
        intros [= <-]. by apply IHl.
      - intros [= <-]. by apply (IH x). }
    destruct (items l) as [r|ex]; [done|]. intros [= <-]. by apply Hitems.
  - set (items := fix items (d : list (string * pyval)) : res (list string) :=
                    match d with
                    | [] => Ok []
                    | kv :: d' =>
                        s ← Py.repr (snd kv); r ← items d';
                        Ok ((Py.repr_str (fst kv) +:+ ": " +:+ s) :: r)
                    end).
    assert (forall ex, items d = Raise ex -> ex = ValueError) as Hitems.
    { induction d as [|kv d IHd]; intros ex; cbn [items]; [congruence|].
      destruct (Py.repr (snd kv)) as [s|ex'] eqn:Hx.
      - cbn [mbind res_bind]. fold items.
        destruct (items d) as [r|ex'']; cbn [mbind res_bind]; [congruence|].
        intros [= <-]. by apply IHd.
      - intros [= <-]. by apply (IH (snd kv)). }
    destruct (items d) as [r|ex]; [done|]. intros [= <-]. by apply Hitems.
Qed.

Lemma str_raise v e : Py.str v = Raise e -> e = ValueError.
Proof. destruct v; try apply repr_raise. done. Qed.

(** ** What [_parse_amount] computes *)

Lemma amount_decimal_inv value d :
  amount_decimal value = Ok d ->
  exists text, Py.str value = Ok text /\ decimal.of_string text = Ok d.
Proof.
  unfold amount_decimal. destruct (Py.str value) as [text|ex]; [|done]. by exists text.
Qed.

Lemma amount_decimal_raise value e :
  amount_decimal value = Raise e -> e = InvalidOperation \/ e = ValueError.
Proof.
  unfold amount_decimal. destruct (Py.str value) as [text|ex] eqn:Hs.
  - intros H. left. by eapply of_string_raise.
  - intros [= <-]. right. by eapply str_raise.
Qed.

Lemma amount_decimal_coeff_nonneg value s c e :
  amount_decimal value = Ok (decimal.Finite s c e) -> 0 <= c.
Proof.
  intros (text & _ & H)%amount_decimal_inv. by eapply of_string_coeff_nonneg.
Qed.

Lemma is_none_dec (value : pyval) : {value = PyNone} + {value <> PyNone}.
Proof. destruct value; (by left) || (by right). Qed.

Lemma parse_amount_unfold value :
  value <> PyNone ->
  _parse_amount value =
  match amount_decimal value with
  | Raise _ => Ok (None, Some MSG_AMOUNT_INVALID)
  | Ok (decimal.NaN _ _) => Ok (None, Some MSG_AMOUNT_INVALID)
  | Ok (decimal.Infinity s) =>
      if s then Ok (None, Some MSG_AMOUNT_NEGATIVE) else Ok (None, Some MSG_AMOUNT_INVALID)
  | Ok (decimal.Finite s c e) =>
      if s && negb (c =? 0) then Ok (None, Some MSG_AMOUNT_NEGATIVE)
      else if minor_units c e <? MINOR_UNITS_LIMIT
           then Ok (Some (minor_units c e), None)
           else Ok (None, Some MSG_AMOUNT_INVALID)
  end.
Proof.
  intros Hv.
  assert (Hdec : (if Py.isinstance_int_float value
                  then text ← Py.str value; decimal.of_string text
                  else text ← Py.str value; decimal.of_string (Text.strip text))
                 = amount_decimal value).
  { unfold amount_decimal. destruct (Py.isinstance_int_float value); [done|].
    destruct (Py.str value) as [text|ex]; [|done]. apply of_string_strip. }
  assert (Hp : _parse_amount value =
    try_except
      (dec ← amount_decimal value;
       negative ← decimal.lt_zero dec;
       if negative : bool then Ok (None, Some MSG_AMOUNT_NEGATIVE)
       else
         dec ← decimal.quantize dec (decimal.Finite false 1 (-2));
         prod ← decimal.mul dec (decimal.of_int 100);
         paise ← decimal.to_int prod;
         Ok (Some paise, None))
      parse_amount_caught
      (Ok (None, Some MSG_AMOUNT_INVALID))).
  { rewrite <- Hdec. by destruct value. }
  rewrite Hp. clear Hp Hdec.
  destruct (amount_decimal value) as [d|e] eqn:Hd.
  2:{ apply amount_decimal_raise in Hd as [->| ->]; done. }
  destruct d as [s c e|s|s sig]; [|by destruct s|done].
  pose proof (amount_decimal_coeff_nonneg _ _ _ _ Hd) as Hc.
  cbn [mbind res_bind decimal.lt_zero].
  destruct (s && negb (c =? 0)) eqn:Hneg; [done|].
  rewrite (quantize_cents s c e Hc).
  pose proof (minor_units_nonneg c e Hc) as Hm.
  destruct (Z.ltb_spec (minor_units c e) MINOR_UNITS_LIMIT) as [Hlt|Hge]; [|done].
  cbn [mbind res_bind].
  pose proof (mul_100_to_int s (minor_units c e) ltac:(lia)) as Hmul.
  destruct (decimal.mul _ _) as [prod|ex]; [|done].
  cbn [mbind res_bind] in Hmul |- *. rewrite Hmul. cbn [try_except].
  destruct s; [|done].
  simpl in Hneg. destruct (Z.eqb_spec c 0) as [->|]; [|done].
  by rewrite minor_units_zero.
Qed.

(** ** True division *)

Section FloatFacts.
Import float.

Lemma round_binary64_proper (q1 q2 : Q) :
  (q1 == q2)%Q -> round_binary64 q1 = round_binary64 q2.
Proof. intros H. unfold round_binary64. by rewrite (Qred_complete _ _ H). Qed.

Lemma Qred_num_le (q : Q) : Z.abs (Qnum (Qred q)) <= Z.abs (Qnum q).
Proof.
  destruct q as [a b]. unfold Qred.
  pose proof (Z.ggcd_correct_divisors a (Z.pos b)) as Hd.
  pose proof (Z.ggcd_gcd a (Z.pos b)) as Hg.
  pose proof (Z.gcd_nonneg a (Z.pos b)) as Hnn.
  destruct (Z.ggcd a (Z.pos b)) as [g [aa bb]]. simpl in *.
  destruct Hd as [Ha Hb]. subst g.
  pose proof (Pos2Z.is_pos b) as Hbpos.
  assert (1 <= Z.gcd a (Z.pos b)).
  { destruct (Z.eq_dec (Z.gcd a (Z.pos b)) 0) as [Hz|]; [|lia].
    rewrite Hz in Hb. lia. }
  remember (Z.gcd a (Z.pos b)) as g. clear Heqg.
  rewrite Ha, Z.abs_mul. nia.
Qed.

(** A quotient whose numerator is below [2^1023] does not overflow. *)
Lemma round_binary64_ok (q : Q) :
  Z.abs (Qnum q) < 2 ^ 1023 -> exists f, round_binary64 q = Ok f.
Proof.
  intros Hq. unfold round_binary64.
  pose proof (Qred_num_le q) as Hle.
  set (n := Z.abs (Qnum (Qred q))) in *.
  set (d := Z.pos (Qden (Qred q))).
  destruct (Z.eqb_spec n 0) as [|Hn]; [by eexists|].
  assert (Hnpos : 0 < n) by (subst n; lia).
  assert (Hlog : Z.log2 n < 1023) by (apply Z.log2_lt_pow2; lia).
  pose proof (Z.log2_nonneg d) as Hd.
  set (k0 := Z.log2 n - Z.log2 d).
  set (k := if scale d k0 <=? scale n (- k0) then k0 else k0 - 1).
  assert (Hk : k <= 1022) by (subst k k0; destruct (_ <=? _); lia).
  set (e := Z.max (k - 52) (-1074)).
  assert (He : e <= 970) by (subst e; lia).
  destruct (Z.ltb_spec 971 e); [lia|].
  destruct (Z.eqb_spec e 971); [lia|].
  simpl. by eexists.
Qed.

Lemma truediv_100 (p : Z) : truediv p 100 = round_binary64 (p # 100).
Proof.
  unfold truediv. simpl. replace (p * 1) with p by lia. done.
Qed.

Lemma truediv_100_ok (p : Z) :
  Z.abs p < 2 ^ 1023 -> exists f, truediv p 100 = Ok f.
Proof. intros Hp. rewrite truediv_100. by apply round_binary64_ok. Qed.

End FloatFacts.

(** ** How close the float is *)

Section QuotientFacts.
Import float.

Lemma Qred_inject_Z (c : Z) : Qred (inject_Z c) = inject_Z c.
Proof.
  unfold Qred, inject_Z.
  pose proof (Z.ggcd_correct_divisors c 1) as Hd.
  pose proof (Z.ggcd_gcd c 1) as Hg. rewrite Z.gcd_1_r in Hg.
  destruct (Z.ggcd c 1) as [g [aa bb]]. simpl in Hg. subst g.
  destruct Hd as [Ha Hb]. assert (bb = 1) as -> by lia. assert (aa = c) as -> by lia. done.
Qed.

(** The exponent [round_binary64] settles on is a power of two that is
    not above the quotient. *)
Lemma exponent_below (n d : Z) :
  0 < n -> 0 < d ->
  let k0 := Z.log2 n - Z.log2 d in
  let k := if scale d k0 <=? scale n (- k0) then k0 else k0 - 1 in
  scale d k <= scale n (- k).
Proof.
  intros Hn Hd k0 k. subst k.
  destruct (Z.leb_spec (scale d k0) (scale n (- k0))) as [H|H]; [done|].
  pose proof (Z.log2_spec n Hn) as [Hn1 Hn2].
  pose proof (Z.log2_spec d Hd) as [Hd1 Hd2].
  pose proof (Z.log2_nonneg n) as Hln. pose proof (Z.log2_nonneg d) as Hld.
  unfold scale. destruct (Z.leb_spec 0 (k0 - 1)) as [Hk|Hk].
  - destruct (Z.leb_spec 0 (- (k0 - 1))) as [Hk'|Hk'].
    + assert (k0 = 1) as Hk1 by lia. rewrite Hk1. simpl.
      assert (Z.log2 n = Z.succ (Z.log2 d)) as Heq by (subst k0; lia).
      rewrite Heq in Hn1. lia.
    + assert (2 ^ Z.log2 n = 2 ^ Z.succ (Z.log2 d) * 2 ^ (k0 - 1)) as Heq.
      { rewrite <- Z.pow_add_r by lia. f_equal. subst k0. lia. }
      assert (0 < 2 ^ (k0 - 1)) by (apply Z.pow_pos_nonneg; lia).
      nia.
  - destruct (Z.leb_spec 0 (- (k0 - 1))) as [Hk'|Hk']; [|lia].
    assert (2 ^ Z.succ (Z.log2 d) = 2 ^ Z.log2 n * 2 ^ (- (k0 - 1))) as Heq.
    { rewrite <- Z.pow_add_r by lia. f_equal. subst k0. lia. }
    assert (0 < 2 ^ (- (k0 - 1))) by (apply Z.pow_pos_nonneg; lia).
    nia.
Qed.

(** What [p / 100] computes for a count below [100 * 2^46]: a multiple
    [m] of [2^e] with [e <= -7], half a unit in the last place from the
    quotient at most. *)
Lemma truediv_100_shape (p : Z) :
  Z.abs p < 100 * 2 ^ 46 ->
  exists m e, e <= -7 /\
    truediv p 100 = Ok (Qred (m # Z.to_pos (2 ^ (- e)))) /\
    Z.abs (100 * m - p * 2 ^ (- e)) <= 50 /\
    (p mod 100 = 0 -> 100 * m = p * 2 ^ (- e)).
Proof.
  intros Hp. rewrite truediv_100. unfold round_binary64.
  pose proof (Qred_correct (p # 100)) as Hq.
  destruct (Qred (p # 100)) as [N D] eqn:HN. unfold Qeq in Hq. cbn [Qnum Qden] in Hq |- *.
  pose proof (gcd_Qred (p # 100)) as Hgcd. rewrite HN in Hgcd. cbn [Qnum Qden] in Hgcd.
  set (d := Z.pos D) in *. assert (0 < d) as Hd by (subst d; lia).
  destruct (Z.eqb_spec (Z.abs N) 0) as [Hz|Hnz].
  { exists 0, (-7). assert (p = 0) as -> by nia. split; [lia|]. split; [done|]. split; done. }
  set (n := Z.abs N) in *. assert (0 < n) as Hn by (subst n; lia).
  pose proof (exponent_below n d Hn Hd) as Hk. cbv zeta in Hk.
  set (k0 := Z.log2 n - Z.log2 d) in *.
  set (k := if scale d k0 <=? scale n (- k0) then k0 else k0 - 1) in *.
  assert (k <= 45) as Hk45.
  { destruct (Z.le_gt_cases k 45) as [|Hbig]; [done|exfalso].
    unfold scale in Hk.
    destruct (Z.leb_spec 0 k); [|lia]. destruct (Z.leb_spec 0 (- k)); [lia|].
    assert (2 ^ 46 <= 2 ^ k) by (apply Z.pow_le_mono_r; lia).
    assert (100 * n = Z.abs p * d) as Hnd by (subst n; nia).
    nia. }
  set (e := Z.max (k - 52) (-1074)).
  assert (-1074 <= e <= -7) as He by (subst e; lia).
  assert (scale n (- e) = n * 2 ^ (- e)) as -> by (unfold scale; destruct (Z.leb_spec 0 (- e)); lia).
  assert (scale d e = d) as -> by (unfold scale; destruct (Z.leb_spec 0 e); lia).
  destruct (Z.ltb_spec 971 e); [lia|]. destruct (Z.eqb_spec e 971); [lia|]. cbn [orb andb].
  destruct (Z.leb_spec 0 e); [lia|].
  set (m := decimal.round_half_even (n * 2 ^ (- e)) d).
  pose proof (round_half_even_spec (n * 2 ^ (- e)) d Hd) as [Hm _]. fold m in Hm.
  assert (0 < 2 ^ (- e)) as HE by (apply Z.pow_pos_nonneg; lia).
  exists (if N <? 0 then - m else m), e. split; [lia|]. split; [done|].
  assert (Z.abs (100 * (if N <? 0 then - m else m) - p * 2 ^ (- e)) * d
          = 100 * Z.abs (m * d - n * 2 ^ (- e))) as Heq.
  { subst n. destruct (Z.ltb_spec N 0); nia. }
  split; [nia|].
  intros Hmod.
  assert (d = 1) as Hd1.
  { apply Z.mod_divide in Hmod; [|lia]. destruct Hmod as [c ->].
    assert (N = c * d) as HNc by lia.
    assert (Z.gcd N d = d) as Hg.
    { rewrite HNc, Z.gcd_comm, (Z.mul_comm c d). apply Z.gcd_mul_diag_l. lia. }
    lia. }
  assert (m = n * 2 ^ (- e)) as Hmex.
  { subst m. rewrite Hd1.
    pose proof (round_half_even_exact (n * 2 ^ (- e)) 1 ltac:(lia)) as Hex.
    by rewrite Z.mul_1_r in Hex. }
  rewrite Hd1 in Hq. subst n. destruct (Z.ltb_spec N 0); nia.
Qed.

(** The nearest integer is the only one less than half a step away. *)
Lemma round_half_even_unique (n d p : Z) :
  0 < d -> 2 * Z.abs (p * d - n) < d -> decimal.round_half_even n d = p.
Proof.
  intros Hd Hp. pose proof (round_half_even_spec n d Hd) as [Hr _]. cbv zeta in Hr.
  set (r := decimal.round_half_even n d) in *.
  assert (Z.abs (r - p) * d < d); [nia|]. nia.
Qed.

(** Below [100 * 2^46] the float tells the count: it is less than half
    a minor unit away, so the count is the float read to two decimals. *)
Lemma truediv_100_read_back (p : Z) (f : Q) :
  Z.abs p < 100 * 2 ^ 46 -> truediv p 100 = Ok f ->
  decimal.round_half_even (100 * Qnum f) (Z.pos (Qden f)) = p /\
  ((p # 100) - (1 # 200) < f)%Q /\ (f < (p # 100) + (1 # 200))%Q.
Proof.
  intros Hp Hf. destruct (truediv_100_shape p Hp) as (m & e & He & Hdiv & Herr & _).
  rewrite Hf in Hdiv. injection Hdiv as ->.
  assert (0 < 2 ^ (- e)) as HE by (apply Z.pow_pos_nonneg; lia).
  assert (2 ^ 7 <= 2 ^ (- e)) as HE7 by (apply Z.pow_le_mono_r; lia).
  change (2 ^ 7) with 128 in HE7.
  pose proof (Qred_correct (m # Z.to_pos (2 ^ (- e)))) as Hq.
  destruct (Qred (m # Z.to_pos (2 ^ (- e)))) as [N D]. unfold Qeq in Hq.
  cbn [Qnum Qden] in Hq |- *. rewrite Z2Pos.id in Hq by lia.
  set (E := 2 ^ (- e)) in *. set (d := Z.pos D) in *.
  assert (0 < d) as Hd by (subst d; lia).
  assert (Z.abs (p * d - 100 * N) * E = d * Z.abs (100 * m - p * E)) as Heq by nia.
  assert (2 * Z.abs (p * d - 100 * N) < d) as Hclose by nia.
  split; [by apply round_half_even_unique|].
  unfold Qlt, Qminus, Qplus, Qopp. cbn [Qnum Qden]. fold d.
  rewrite !Pos2Z.inj_mul. fold d. lia.
Qed.

End QuotientFacts.

Lemma negative_test s c :
  s && negb (c =? 0) = true <-> decimal_negative (decimal.Finite s c 0).
Proof. simpl. destruct s, (Z.eqb_spec c 0); simpl; split; try done; intros [? ?]; done. Qed.

Lemma parse_amount_success value s c e :
  value <> PyNone ->
  amount_decimal value = Ok (decimal.Finite s c e) ->
  ~ decimal_negative (decimal.Finite s c e) ->
  minor_units c e < MINOR_UNITS_LIMIT ->
  _parse_amount value = Ok (Some (minor_units c e), None).
Proof.
  intros Hv Hd Hnn Hlim. rewrite (parse_amount_unfold value Hv), Hd.
  destruct (s && negb (c =? 0)) eqn:Hs.
  { apply negative_test in Hs. done. }
  destruct (Z.ltb_spec (minor_units c e) MINOR_UNITS_LIMIT); [done|lia].
Qed.

(** The four shapes a result of [_parse_amount] can have. *)
Lemma parse_amount_shape value :
  (exists paise, _parse_amount value = Ok (Some paise, None) /\ 0 <= paise) \/
  (exists msg, _parse_amount value = Ok (None, Some msg) /\
     (msg = MSG_AMOUNT_REQUIRED \/ msg = MSG_AMOUNT_NEGATIVE \/ msg = MSG_AMOUNT_INVALID)).
Proof.
  destruct (is_none_dec value) as [->|Hv].
  { right. eexists. split; [done|]. by left. }
  rewrite (parse_amount_unfold value Hv).
  destruct (amount_decimal value) as [[s c e|s|s sig]|ex] eqn:Hd.
  - destruct (s && negb (c =? 0)); [right; eexists; split; [done|]; auto|].
    destruct (minor_units c e <? MINOR_UNITS_LIMIT); [|right; eexists; split; [done|]; auto].
    left. eexists. split; [done|].
    apply minor_units_nonneg. by eapply amount_decimal_coeff_nonneg.
  - right. destruct s; eexists; (split; [done|]); auto.
  - right. eexists; (split; [done|]); auto.
  - right. eexists; (split; [done|]); auto.
Qed.

(** * The Money Parser *)




(** C10.  Amounts with more than two fractional digits are rounded half
    to even: for a value whose text denotes the non-negative number
    [c * 10^e] with [e < -2], the parser returns the integer [paise]
    nearest to [c * 10^(e+2)], and when two integers are equally near it
    returns the even one; with at most two fractional digits nothing is
    rounded.  [parse("0.125") = 12] and [parse("0.135") = 14].  (The
    result exists whenever the rounded count fits the context's 28
    digits.) *)
Theorem parse_amount_rounds_half_even :
  (forall (value : pyval) (s : bool) (c e : Z),
     value <> PyNone ->
     amount_decimal value = Ok (decimal.Finite s c e) ->
     ~ decimal_negative (decimal.Finite s c e) ->
     minor_units c e < MINOR_UNITS_LIMIT ->
     exists paise,
       _parse_amount value = Ok (Some paise, None) /\
       (-2 <= e -> paise = c * 10 ^ (e + 2)) /\
       (e < -2 ->
        let D := 10 ^ (-2 - e) in
        2 * Z.abs (paise * D - c) <= D /\
        (2 * Z.abs (paise * D - c) = D -> Z.even paise = true))) /\
  _parse_amount (PyStr "0.125") = Ok (Some 12, None) /\
  _parse_amount (PyStr "0.135") = Ok (Some 14, None) /\
  _parse_amount (PyFloat "0.125") = Ok (Some 12, None) /\
  _parse_amount (PyStr "2.675") = Ok (Some 268, None) /\
  _parse_amount (PyStr "0.1251") = Ok (Some 13, None).
Proof.
  split; [|by repeat split; vm_compute].
  intros value s c e Hv Hd Hnn Hlim.
  exists (minor_units c e). split.
  - by apply (parse_amount_success value s c e).
  - unfold minor_units. split.
    + intros He. destruct (Z.leb_spec (-2) e); [done|lia].
    + intros He. destruct (Z.leb_spec (-2) e); [lia|].
      apply round_half_even_spec. apply Z.pow_pos_nonneg; lia.
Qed.

(** C2, the claim as written fails: ["70368744177664.01"], one minor
    unit above [2^46], is a non-negative decimal with two fractional
    digits.  It is parsed to 7036874417766401 minor units, and the
    division back gives the float [2^46 + 1/64], which is not the
    original value and reads 70368744177664.02 at two decimals: the very
    float that 7036874417766402 minor units give. *)
Lemma round_trip_fails_above_2_46 :
  amount_decimal (PyStr "70368744177664.01")
    = Ok (decimal.Finite false 7036874417766401 (-2)) /\
  _parse_amount (PyStr "70368744177664.01") = Ok (Some 7036874417766401, None) /\
  float.truediv 7036874417766401 100 = Ok (4503599627370497 # 64)%Q /\
  ~ (4503599627370497 # 64 == decimal_value false 7036874417766401 (-2))%Q /\
  decimal.round_half_even (100 * 4503599627370497) 64 = 7036874417766402 /\
  float.truediv 7036874417766402 100 = Ok (4503599627370497 # 64)%Q.
Proof.
  repeat split; try (vm_compute; reflexivity).
  unfold Qeq. vm_compute. discriminate.
Qed.

(** C2 (as the code has it).  For every value whose text denotes a
    non-negative decimal [c * 10^e] with at most two fractional digits
    ([-2 <= e]) and fewer than [100 * 2^46] minor units (a value below
    [2^46 = 70368744177664]), [_parse_amount] returns a count [paise]
    with [paise / 100] exactly the original value, and the division back
    in [_row_to_expense] yields the binary64 number nearest to the
    original value.  That float is less than half a minor unit away from
    the original value, so read to two decimals it is the original value
    exactly, and no other count in that range is shown as the same
    float. *)
Theorem parse_amount_round_trip (value : pyval) (s : bool) (c e : Z) :
  value <> PyNone ->
  amount_decimal value = Ok (decimal.Finite s c e) ->
  ~ decimal_negative (decimal.Finite s c e) ->
  -2 <= e ->
  c * 10 ^ (e + 2) < 100 * 2 ^ 46 ->
  exists paise f,
    _parse_amount value = Ok (Some paise, None) /\
    (paise # 100 == decimal_value s c e)%Q /\
    float.truediv paise 100 = Ok f /\
    float.round_binary64 (decimal_value s c e) = Ok f /\
    (forall i category description date created_at,
       _row_to_expense (i, Row.mk paise category description date created_at)
       = Ok (Expense.mk i f category description date created_at)) /\
    (decimal_value s c e - (1 # 200) < f)%Q /\
    (f < decimal_value s c e + (1 # 200))%Q /\
    decimal.round_half_even (100 * Qnum f) (Z.pos (Qden f)) = paise /\
    (forall paise', Z.abs paise' < 100 * 2 ^ 46 ->
       float.truediv paise' 100 = Ok f -> paise' = paise).
Proof.
  intros Hv Hd Hnn He Hlim.
  pose proof (amount_decimal_coeff_nonneg _ _ _ _ Hd) as Hc.
  assert (Hmu : minor_units c e = c * 10 ^ (e + 2)).
  { unfold minor_units. destruct (Z.leb_spec (-2) e); [done|lia]. }
  assert (Hp : 0 <= c * 10 ^ (e + 2)).
  { rewrite <- Hmu. by apply minor_units_nonneg. }
  assert (Hval : (c * 10 ^ (e + 2) # 100 == decimal_value s c e)%Q).
  { unfold decimal_value.
    assert ((if s then - c else c) = c) as ->.
    { destruct s; [|done]. simpl in Hnn.
      destruct (Z.eq_dec c 0) as [->|]; [done|]. exfalso. by apply Hnn. }
    destruct (Z.leb_spec 0 e) as [He0|He0].
    - unfold Qeq. simpl. rewrite Z.pow_add_r by lia. lia.
    - assert (e = -1 \/ e = -2) as [->| ->] by lia; unfold Qeq; simpl; lia. }
  assert (Hsmall : Z.abs (c * 10 ^ (e + 2)) < 100 * 2 ^ 46) by lia.
  destruct (truediv_100_ok (c * 10 ^ (e + 2))) as [f Hf].
  { assert (100 * 2 ^ 46 < 2 ^ 1023) by (vm_compute; reflexivity). lia. }
  destruct (truediv_100_read_back _ _ Hsmall Hf) as (Hback & Hlo & Hhi).
  exists (c * 10 ^ (e + 2)), f.
  repeat match goal with |- _ /\ _ => split end; try done.
  - rewrite <- Hmu. apply (parse_amount_success value s c e); [done..|].
    assert (100 * 2 ^ 46 < MINOR_UNITS_LIMIT) by (vm_compute; reflexivity). lia.
  - rewrite <- (round_binary64_proper _ _ Hval), <- truediv_100. done.
  - intros i category description date created_at.
    unfold _row_to_expense. simpl. by rewrite Hf.
  - by rewrite <- Hval.
  - by rewrite <- Hval.
  - intros paise' Hsmall' Hf'.
    destruct (truediv_100_read_back _ _ Hsmall' Hf') as (Hback' & _). congruence.
Qed.

(** [150.50 -> 15050 -> 150.5]: the text ["150.50"] passes the
    hypotheses of the round-trip law, and the float returned is exactly
    [150.5 = 301/2]. *)
Lemma parse_amount_round_trip_witness :
  exists paise f,
    _parse_amount (PyStr "150.50") = Ok (Some paise, None) /\
    (paise # 100 == decimal_value false 15050 (-2))%Q /\
    float.truediv paise 100 = Ok f /\
    float.round_binary64 (decimal_value false 15050 (-2)) = Ok f /\
    (forall i category description date created_at,
       _row_to_expense (i, Row.mk paise category description date created_at)
       = Ok (Expense.mk i f category description date created_at)) /\
    (decimal_value false 15050 (-2) - (1 # 200) < f)%Q /\
    (f < decimal_value false 15050 (-2) + (1 # 200))%Q /\
    decimal.round_half_even (100 * Qnum f) (Z.pos (Qden f)) = paise /\
    (forall paise', Z.abs paise' < 100 * 2 ^ 46 ->
       float.truediv paise' 100 = Ok f -> paise' = paise).
Proof.
  apply (parse_amount_round_trip (PyStr "150.50") false 15050 (-2)).
  - discriminate.
  - vm_compute. reflexivity.
  - simpl. intros [H _]. discriminate H.
  - lia.
  - vm_compute. reflexivity.
Defined.

(** The rounding law at ["0.125"]: the count returned is [12], the even
    one of the two integers nearest to [12.5]. *)
Lemma parse_amount_rounds_half_even_witness :
  exists paise,
    _parse_amount (PyStr "0.125") = Ok (Some paise, None) /\
    (-2 <= -3 -> paise = 125 * 10 ^ (-3 + 2)) /\
    (-3 < -2 ->
     let D := 10 ^ (-2 - -3) in
     2 * Z.abs (paise * D - 125) <= D /\
     (2 * Z.abs (paise * D - 125) = D -> Z.even paise = true)).
Proof.
  apply (proj1 parse_amount_rounds_half_even (PyStr "0.125") false 125 (-3)).
  - discriminate.
  - vm_compute. reflexivity.
  - simpl. intros [H _]. discriminate H.
  - vm_compute. reflexivity.
Defined.

(** * The ledger *)

(** ** Text order *)

Lemma compare_refl (a : string) : String.compare a a = Eq.
Proof. by apply OrderedTypeEx.String_as_OT.cmp_eq. Qed.

Lemma text_lt_trans (a b c : string) : text_lt a b -> text_lt b c -> text_lt a c.
Proof.
  unfold text_lt. rewrite !OrderedTypeEx.String_as_OT.cmp_lt.
  apply OrderedTypeEx.String_as_OT.lt_trans.
Qed.

Lemma text_lt_irrefl (a : string) : ~ text_lt a a.
Proof. unfold text_lt. by rewrite compare_refl. Qed.

Lemma text_trichotomy (a b : string) : text_lt a b \/ a = b \/ text_lt b a.
Proof.
  unfold text_lt. rewrite (String.compare_antisym b a).
  destruct (String.compare a b) eqn:H; simpl; auto.
  right. left. by apply String.compare_eq_iff.
Qed.

Lemma lex_desc_total d1 c1 d2 c2 : lex_desc d1 c1 d2 c2 \/ lex_desc d2 c2 d1 c1.
Proof.
  unfold lex_desc.
  destruct (text_trichotomy d1 d2) as [H|[->|H]]; [by right; left| |by left; left].
  destruct (text_trichotomy c1 c2) as [H|[->|H]].
  - right. right. split; [done|]. intros H'. eapply text_lt_irrefl, text_lt_trans; eauto.
  - left. right. split; [done|]. apply text_lt_irrefl.
  - left. right. split; [done|]. intros H'. eapply text_lt_irrefl, text_lt_trans; eauto.
Qed.

Lemma lex_desc_trans d1 c1 d2 c2 d3 c3 :
  lex_desc d1 c1 d2 c2 -> lex_desc d2 c2 d3 c3 -> lex_desc d1 c1 d3 c3.
Proof.
  unfold lex_desc. intros [H12|[-> H12]] [H23|[-> H23]].
  - left. eapply text_lt_trans; eauto.
  - by left.
  - by left.
  - right. split; [done|]. intros H13.
    destruct (text_trichotomy c2 c3) as [H|[->|H]]; [done|done|].
    destruct (text_trichotomy c1 c2) as [H'|[->|H']]; [done|done|].
    eapply text_lt_irrefl, text_lt_trans; [exact H13|]. eapply text_lt_trans; eauto.
Qed.

Lemma order_desc_lex (r1 r2 : row) :
  OrderDesc r1 r2 <->
  lex_desc (Row.date r1.2) (Row.created_at r1.2) (Row.date r2.2) (Row.created_at r2.2).
Proof.
  unfold OrderDesc, order_desc, lex_desc, text_lt.
  rewrite (String.compare_antisym (Row.date r2.2) (Row.date r1.2)).
  destruct (String.compare (Row.date r1.2) (Row.date r2.2)) eqn:Hd; simpl.
  - apply String.compare_eq_iff in Hd.
    destruct (String.compare (Row.created_at r1.2) (Row.created_at r2.2));
      split; try done; try (intros _; right; split; done); intros [?|[_ ?]]; done.
  - split; [done|]. intros [?|[Heq _]]; [done|].
    rewrite Heq, compare_refl in Hd. done.
  - split; [by left|done].
Qed.

Lemma order_asc_lex (r1 r2 : row) :
  OrderAsc r1 r2 <->
  lex_desc (Row.date r2.2) (Row.created_at r2.2) (Row.date r1.2) (Row.created_at r1.2).
Proof.
  unfold OrderAsc, order_asc, lex_desc, text_lt.
  destruct (String.compare (Row.date r1.2) (Row.date r2.2)) eqn:Hd; simpl.
  - apply String.compare_eq_iff in Hd.
    rewrite (String.compare_antisym (Row.created_at r2.2) (Row.created_at r1.2)).
    destruct (String.compare (Row.created_at r1.2) (Row.created_at r2.2));
      split; try done; try (intros _; right; split; done); intros [?|[_ ?]]; done.
  - split; [by left|done].
  - split; [done|]. intros [?|[Heq _]]; [done|].
    rewrite Heq, compare_refl in Hd. done.
Qed.

#[global] Instance OrderDesc_total : Total OrderDesc.
Proof. intros r1 r2. rewrite !order_desc_lex. apply lex_desc_total. Qed.

#[global] Instance OrderDesc_trans : Transitive OrderDesc.
Proof. intros r1 r2 r3. rewrite !order_desc_lex. apply lex_desc_trans. Qed.

#[global] Instance OrderAsc_total : Total OrderAsc.
Proof. intros r1 r2. rewrite !order_asc_lex. apply lex_desc_total. Qed.

#[global] Instance OrderAsc_trans : Transitive OrderAsc.
Proof.
  intros r1 r2 r3. rewrite !order_asc_lex. intros H12 H23.
  eapply lex_desc_trans; eauto.
Qed.

(** ** The tables *)

Lemma foldr_max_ge (l : list Z) (i : Z) : i ∈ l -> i <= foldr Z.max 0 l.
Proof.
  induction l as [|x l IH]; intros Hin.
  - by apply elem_of_nil in Hin.
  - apply elem_of_cons in Hin as [->|Hin]; simpl; [lia|].
    specialize (IH Hin). lia.
Qed.

Lemma max_rowid_ge (t : gmap Z Row.t) i r : t !! i = Some r -> i <= max_rowid t.
Proof.
  intros H. unfold max_rowid. apply foldr_max_ge.
  apply elem_of_map_to_list in H.
  apply list_elem_of_fmap. by exists (i, r).
Qed.

Lemma fresh_rowid (t : gmap Z Row.t) (seq : Z) :
  t !! (Z.max seq (max_rowid t) + 1) = None.
Proof.
  destruct (t !! _) as [r|] eqn:H; [|done].
  apply max_rowid_ge in H. lia.
Qed.

Lemma row_to_expense_ok (r : row) :
  Z.abs (Row.amount_paise r.2) < 2 ^ 1023 ->
  exists f, float.truediv (Row.amount_paise r.2) 100 = Ok f /\
    _row_to_expense r
    = Ok (Expense.mk r.1 f (Row.category r.2) (Row.description r.2)
                     (Row.date r.2) (Row.created_at r.2)).
Proof.
  intros H. destruct (truediv_100_ok _ H) as [f Hf].
  exists f. split; [done|]. unfold _row_to_expense. by rewrite Hf.
Qed.

Lemma row_to_expense_inv (r : row) (e : Expense.t) :
  _row_to_expense r = Ok e ->
  Expense.id e = r.1 /\ Expense.category e = Row.category r.2 /\
  Expense.description e = Row.description r.2 /\
  Expense.date e = Row.date r.2 /\ Expense.created_at e = Row.created_at r.2 /\
  float.truediv (Row.amount_paise r.2) 100 = Ok (Expense.amount e).
Proof.
  unfold _row_to_expense. destruct (float.truediv _ _) as [f|]; [|done].
  intros [= <-]. done.
Qed.

Lemma int64_small (p : Z) : INT64_MIN <= p <= INT64_MAX -> Z.abs p < 2 ^ 1023.
Proof.
  unfold INT64_MIN, INT64_MAX. intros H.
  assert (2 ^ 63 < 2 ^ 1023) by (apply Z.pow_lt_mono_r; lia). lia.
Qed.

(** Every row of a well-formed table converts. *)
Lemma mapM_row_to_expense (rows : list row) :
  Forall (fun r => INT64_MIN <= Row.amount_paise r.2 <= INT64_MAX) rows ->
  exists l, mapM _row_to_expense rows = Ok l /\
    Forall2 (fun r e => _row_to_expense r = Ok e) rows l.
Proof.
  induction rows as [|r rows IH]; intros Hall.
  - exists []. split; [done|constructor].
  - apply Forall_cons in Hall as [Hr Hall].
    destruct (IH Hall) as (l & Hl & Hf).
    destruct (row_to_expense_ok r (int64_small _ Hr)) as (f & _ & He).
    eexists (_ :: l). split.
    + cbn [mapM]. rewrite He. cbn [mbind res_bind]. rewrite Hl. done.
    + by constructor.
Qed.

Lemma db_wf_rows (db : DB) :
  db_wf db ->
  Forall (fun r : row => INT64_MIN <= Row.amount_paise r.2 <= INT64_MAX)
         (map_to_list (expenses db)).
Proof.
  intros Hwf. apply Forall_forall. intros [i r] Hin.
  apply elem_of_map_to_list in Hin. by eapply Hwf.
Qed.

(** ** Listing *)

Lemma select_expenses_perm (db : DB) (category sort : string) :
  select_expenses db category sort ≡ₚ
  (if Text.is_empty category then map_to_list (expenses db)
   else filter (fun r : row => Row.category r.2 = category) (map_to_list (expenses db))).
Proof.
  unfold select_expenses.
  destruct (String.eqb sort "date_asc"); rewrite merge_sort_Permutation;
    by destruct (Text.is_empty category).
Qed.

Lemma select_expenses_sorted (db : DB) (category sort : string) :
  (sort = "date_asc" -> StronglySorted OrderAsc (select_expenses db category sort)) /\
  (sort <> "date_asc" -> StronglySorted OrderDesc (select_expenses db category sort)).
Proof.
  unfold select_expenses. destruct (String.eqb_spec sort "date_asc") as [->|Hne].
  - split; [|done]. intros _. apply StronglySorted_merge_sort; apply _.
  - split; [done|]. intros _. apply StronglySorted_merge_sort; apply _.
Qed.

(** An order on rows carries over to the objects built from them. *)
Lemma StronglySorted_transfer (R : relation row) (R' : relation Expense.t)
    (rows : list row) (l : list Expense.t) :
  (forall r1 r2 e1 e2,
     _row_to_expense r1 = Ok e1 -> _row_to_expense r2 = Ok e2 -> R r1 r2 -> R' e1 e2) ->
  Forall2 (fun r e => _row_to_expense r = Ok e) rows l ->
  StronglySorted R rows -> StronglySorted R' l.
Proof.
  intros HR Hf. induction Hf as [|r e rows l Hre Hf IH]; intros Hs.
  - constructor.
  - apply StronglySorted_inv in Hs as [Hs Hall].
    constructor; [by apply IH|].
    clear IH Hs. induction Hf as [|r' e' rows l Hre' Hf IH]; [constructor|].
    apply Forall_cons in Hall as [Hrr Hall].
    constructor; [by eapply HR|by apply IH].
Qed.

Lemma text_desc_of_rows r1 r2 e1 e2 :
  _row_to_expense r1 = Ok e1 -> _row_to_expense r2 = Ok e2 ->
  OrderDesc r1 r2 -> text_desc e1 e2.
Proof.
  intros H1 H2. rewrite order_desc_lex. unfold text_desc, lex_desc.
  apply row_to_expense_inv in H1 as (_ & _ & _ & -> & -> & _).
  apply row_to_expense_inv in H2 as (_ & _ & _ & -> & -> & _).
  done.
Qed.

Lemma text_asc_of_rows r1 r2 e1 e2 :
  _row_to_expense r1 = Ok e1 -> _row_to_expense r2 = Ok e2 ->
  OrderAsc r1 r2 -> text_asc e1 e2.
Proof.
  intros H1 H2. rewrite order_asc_lex. unfold text_asc, lex_desc.
  apply row_to_expense_inv in H1 as (_ & _ & _ & -> & -> & _).
  apply row_to_expense_inv in H2 as (_ & _ & _ & -> & -> & _).
  intros [?|[-> ?]]; [by left|by right].
Qed.

Lemma select_expenses_wf (db : DB) (category sort : string) :
  db_wf db ->
  Forall (fun r : row => INT64_MIN <= Row.amount_paise r.2 <= INT64_MAX)
         (select_expenses db category sort).
Proof.
  intros Hwf. apply Forall_forall. intros r Hin.
  rewrite select_expenses_perm in Hin.
  pose proof (db_wf_rows db Hwf) as Hall. rewrite Forall_forall in Hall.
  apply Hall. destruct (Text.is_empty category); [done|].
  by apply list_elem_of_filter in Hin as [_ Hin].
Qed.

Lemma row_to_expense_shows (r : row) (e : Expense.t) :
  _row_to_expense r = Ok e -> shows r e.
Proof. intros H. apply row_to_expense_inv in H. unfold shows. tauto. Qed.

(** X17.  Whatever is stored, [get_expenses] answers 200 with exactly
    the stored rows whose category equals the trimmed filter, compared
    as text, character by character (all the rows when the filter is
    absent or empty once trimmed), each shown with its own id and texts
    and its amount divided by 100.  The answer is sorted by the date
    text, then by the creation text, both compared byte by byte:
    greater first unless the trimmed [sort] parameter is [date_asc], and
    then smaller first. *)
Theorem get_expenses_selects_and_sorts (db : DB) (args_category args_sort : option string) :
  db_wf db ->
  let category := Text.strip (default EmptyString args_category) in
  let sort := Text.strip (default EmptyString args_sort) in
  exists (rows : list row) (l : list Expense.t),
    get_expenses db args_category args_sort = Ok (JsonList l, 200) /\
    Forall2 shows rows l /\
    rows ≡ₚ (if Text.is_empty category then map_to_list (expenses db)
             else filter (fun r : row => Row.category r.2 = category)
                         (map_to_list (expenses db))) /\
    (sort = "date_asc" -> StronglySorted text_asc l) /\
    (sort <> "date_asc" -> StronglySorted text_desc l).
Proof.
  intros Hwf category sort.
  destruct (mapM_row_to_expense _ (select_expenses_wf db category sort Hwf))
    as (l & Hl & Hf).
  exists (select_expenses db category sort), l.
  split; [|split; [|split; [apply select_expenses_perm|]]].
  - unfold get_expenses. fold category sort. by rewrite Hl.
  - eapply Forall2_impl; [exact Hf|]. apply row_to_expense_shows.
  - destruct (select_expenses_sorted db category sort) as [Hasc Hdesc]. split.
    + intros Hs. eapply StronglySorted_transfer; [|exact Hf|by apply Hasc].
      apply text_asc_of_rows.
    + intros Hs. eapply StronglySorted_transfer; [|exact Hf|by apply Hdesc].
      apply text_desc_of_rows.
Qed.

Lemma db_wf_check (db : DB) : db_wf_b db = true -> db_wf db.
Proof.
  unfold db_wf_b. rewrite forallb_forall. intros H i r Hir.
  apply elem_of_map_to_list, list_elem_of_In in Hir.
  specialize (H _ Hir). simpl in H. lia.
Qed.

(** The sort test of the suite: three expenses dated 16, 18 and 17
    February, stored in that order, are listed 18, 17, 16. *)
Lemma get_expenses_selects_and_sorts_witness :
  exists (rows : list row) (l : list Expense.t),
    get_expenses THREE_DATES_DB None None = Ok (JsonList l, 200) /\
    Forall2 shows rows l /\
    rows ≡ₚ map_to_list (expenses THREE_DATES_DB) /\
    (EmptyString = "date_asc" -> StronglySorted text_asc l) /\
    (EmptyString <> "date_asc" -> StronglySorted text_desc l).
Proof.
  apply (get_expenses_selects_and_sorts THREE_DATES_DB None None).
  apply db_wf_check. vm_compute. reflexivity.
Defined.

(** C7.  The claim holds of the filter and fails of the order.  The
    list is sorted by the texts of the two columns, and the texts
    [create_expense] stores do not sort like the days and instants they
    name.  A date is stored as sent, so that of two expenses dated 18
    and 8 February 2025, the second sent as [2025-2-8], the earlier day
    is listed first where the list is to be newest first, and last under
    [date_asc].  The creation time is printed without a fraction when
    the microseconds are zero, so that of two expenses of one date
    created half a second apart, the older is listed first by default,
    and last under [date_asc]. *)
Theorem get_expenses_lists_older_first :
  (create_expense EMPTY_DB BUS_FARE_REQUEST "2025-02-18T10:00:00.250000Z"
     = (FEB_18_DB, Ok (JsonExpense FEB_18_EXPENSE, 201)) /\
   create_expense FEB_18_DB UNPADDED_DATE_REQUEST "2025-02-18T10:00:05.750000Z"
     = (FEB_8_DB, Ok (JsonExpense FEB_8_EXPENSE, 201)) /\
   strptime.strptime (Expense.date FEB_18_EXPENSE) = Ok (2025, 2, 18) /\
   strptime.strptime (Expense.date FEB_8_EXPENSE) = Ok (2025, 2, 8) /\
   get_expenses FEB_8_DB None None
     = Ok (JsonList [FEB_8_EXPENSE; FEB_18_EXPENSE], 200) /\
   get_expenses FEB_8_DB None (Some "date_asc")
     = Ok (JsonList [FEB_18_EXPENSE; FEB_8_EXPENSE], 200)) /\
  (create_expense EMPTY_DB BUS_FARE_REQUEST "2025-02-18T10:00:00Z"
     = (BUS_FARE_DB, Ok (JsonExpense BUS_FARE_EXPENSE, 201)) /\
   create_expense BUS_FARE_DB PADDED_REQUEST "2025-02-18T10:00:00.500000Z"
     = (HALF_SECOND_DB, Ok (JsonExpense HALF_SECOND_EXPENSE, 201)) /\
   Expense.date BUS_FARE_EXPENSE = Expense.date HALF_SECOND_EXPENSE /\
   Expense.created_at BUS_FARE_EXPENSE = "2025-02-18T10:00:00Z" /\
   Expense.created_at HALF_SECOND_EXPENSE = "2025-02-18T10:00:00.500000Z" /\
   get_expenses HALF_SECOND_DB None None
     = Ok (JsonList [BUS_FARE_EXPENSE; HALF_SECOND_EXPENSE], 200) /\
   get_expenses HALF_SECOND_DB None (Some "date_asc")
     = Ok (JsonList [HALF_SECOND_EXPENSE; BUS_FARE_EXPENSE], 200)).
Proof.
  repeat match goal with |- _ /\ _ => split end; vm_compute; reflexivity.
Qed.

(** ** The transaction *)

Lemma find_existing_sound (db : DB) (key : string) (r : row) :
  find_existing db key = Some r ->
  exists k, idempotency_keys db !! key = Some k /\ KeyRow.expense_id k = r.1 /\
            expenses db !! r.1 = Some r.2.
Proof.
  unfold find_existing.
  destruct (idempotency_keys db !! key) as [k|]; [|done].
  destruct (expenses db !! KeyRow.expense_id k) as [x|] eqn:Hx; [|done].
  intros [= <-]. by exists k.
Qed.

(** What a successful [store_expense] leaves behind when a key is in
    use: the key names a stored row, and that row is the one returned. *)
Lemma store_expense_keyed db amount_paise category description date key now db1 resp :
  store_expense db amount_paise category description date key now = (db1, Ok resp) ->
  key_truthy key = true ->
  exists r e, resp = (JsonExpense e, 201) /\
    find_existing db1 (default EmptyString key) = Some r /\
    _row_to_expense r = Ok e.
Proof.
  unfold store_expense. intros H Hk. rewrite Hk in H.
  destruct (find_existing db (default EmptyString key)) as [r|] eqn:Hfind.
  - destruct (_row_to_expense r) as [e|] eqn:He; [|by inversion H].
    injection H as <- <-. by exists r, e.
  - destruct amount_paise as [paise|]; [|by inversion H].
    destruct ((paise <? INT64_MIN) || (INT64_MAX <? paise)); [by inversion H|].
    set (i := Z.max (expenses_seq db) (max_rowid (expenses db)) + 1) in *.
    destruct (INT64_MAX <? i); [by inversion H|].
    cbn [expenses] in H. rewrite lookup_insert_eq in H.
    set (r := Row.mk paise category description date now) in *.
    destruct (_row_to_expense (i, r)) as [e|] eqn:He; [|by inversion H].
    injection H as <- <-. exists (i, r), e. split; [done|]. split; [|done].
    unfold find_existing. cbn [idempotency_keys expenses].
    rewrite lookup_insert_eq. cbn [KeyRow.expense_id].
    by rewrite lookup_insert_eq.
Qed.

Lemma store_expense_hit db amount_paise category description date key now r :
  key_truthy key = true ->
  find_existing db (default EmptyString key) = Some r ->
  store_expense db amount_paise category description date key now
  = (db, e ← _row_to_expense r; Ok (JsonExpense e, 201)).
Proof. intros Hk Hf. unfold store_expense. by rewrite Hk, Hf. Qed.

(** A successful answer of [store_expense] is a 201 with an expense. *)
Lemma store_expense_created db amount_paise category description date key now db1 resp :
  store_expense db amount_paise category description date key now = (db1, Ok resp) ->
  exists e, resp = (JsonExpense e, 201).
Proof.
  unfold store_expense.
  destruct (if key_truthy key then _ else _) as [r|].
  - destruct (_row_to_expense r) as [e|]; intros [= <- <-]. by eexists.
  - destruct amount_paise as [paise|]; [|done].
    destruct (_ || _); [done|]. destruct (INT64_MAX <? _); [done|].
    destruct (_ !! _) as [r'|]; [|done].
    destruct (_row_to_expense _) as [e|]; intros [= <- <-]. by eexists.
Qed.

(** The transaction keeps every stored amount within 64 bits. *)
Lemma store_expense_wf db amount_paise category description date key now :
  db_wf db ->
  db_wf (store_expense db amount_paise category description date key now).1.
Proof.
  intros Hwf. unfold store_expense.
  destruct (if key_truthy key then _ else _) as [r|]; [done|].
  destruct amount_paise as [paise|]; [|done].
  destruct (Z.ltb_spec paise INT64_MIN); [done|].
  destruct (Z.ltb_spec INT64_MAX paise); [done|]. simpl.
  destruct (INT64_MAX <? _); [done|]. simpl.
  intros i r. cbn [expenses].
  destruct (decide (i = Z.max (expenses_seq db) (max_rowid (expenses db)) + 1)) as [->|Hne].
  - rewrite lookup_insert_eq. intros [= <-]. simpl. lia.
  - rewrite lookup_insert_ne by done. apply Hwf.
Qed.

Lemma create_expense_wf db req now : db_wf db -> db_wf (create_expense db req now).1.
Proof.
  intros Hwf. unfold create_expense.
  destruct (validate (get_json req)) as [[msg|a c d dt]|ex]; [done| |done].
  by apply store_expense_wf.
Qed.

(** In a list built from rows with distinct ids, the object built from
    the row with a given id is the only one carrying that id. *)
Lemma filter_by_id_none (rows : list row) (l : list Expense.t) (i : Z) :
  Forall2 (fun r e => _row_to_expense r = Ok e) rows l ->
  i ∉ rows.*1 ->
  filter (fun e => Expense.id e = i) l = [].
Proof.
  induction 1 as [|r e rows l Hre Hf IH]; intros Hnot; [done|].
  rewrite fmap_cons, not_elem_of_cons in Hnot. destruct Hnot as [Hne Hnot].
  apply row_to_expense_inv in Hre as (Hid & _).
  rewrite filter_cons_False by congruence. by apply IH.
Qed.

Lemma filter_by_id_one (rows : list row) (l : list Expense.t) (r1 : row) (e1 : Expense.t) :
  Forall2 (fun r e => _row_to_expense r = Ok e) rows l ->
  NoDup rows.*1 ->
  r1 ∈ rows ->
  _row_to_expense r1 = Ok e1 ->
  filter (fun e => Expense.id e = Expense.id e1) l = [e1].
Proof.
  intros Hf Hnd Hin He1.
  pose proof (row_to_expense_inv _ _ He1) as (Hid1 & _).
  induction Hf as [|r e rows l Hre Hf IH]; [by apply elem_of_nil in Hin|].
  rewrite fmap_cons in Hnd. apply NoDup_cons in Hnd as [Hnot Hnd].
  apply elem_of_cons in Hin as [<-|Hin].
  - assert (e = e1) as -> by congruence.
    rewrite filter_cons_True by done.
    f_equal. eapply filter_by_id_none; [done|]. by rewrite Hid1.
  - pose proof (row_to_expense_inv _ _ Hre) as (Hid & _).
    rewrite filter_cons_False; [by apply IH|].
    rewrite Hid, Hid1. intros Heq. apply Hnot. rewrite Heq.
    apply list_elem_of_fmap. by exists r1.
Qed.

(** C1.  Take two create calls in sequence that both reach the
    idempotency step with the same determined key (the trimmed header,
    or the fingerprint of identical bodies), the first one answered 201
    with an expense.  The second call is answered 201 with that same
    expense, unchanged, same [id]; it leaves the database as it found it
    (no new expense row, no new key mapping); and a list issued
    afterwards shows exactly one record with that [id]. *)
Theorem create_expense_idempotent (db db1 : DB) (req1 req2 : Request) (now1 now2 : string)
    (e1 : Expense.t) (amount_paise : option Z) (category description date : string) :
  db_wf db ->
  create_expense db req1 now1 = (db1, Ok (JsonExpense e1, 201)) ->
  key_truthy (_get_idempotency_key req1) = true ->
  _get_idempotency_key req2 = _get_idempotency_key req1 ->
  validate (get_json req2) = Ok (Accepted amount_paise category description date) ->
  create_expense db1 req2 now2 = (db1, Ok (JsonExpense e1, 201)) /\
  exists l,
    get_expenses (create_expense db1 req2 now2).1 None None = Ok (JsonList l, 200) /\
    filter (fun e => Expense.id e = Expense.id e1) l = [e1].
Proof.
  intros Hwf H1 Hk Hkey Hv2.
  assert (Hwf1 : db_wf db1).
  { pose proof (create_expense_wf db req1 now1 Hwf) as H. by rewrite H1 in H. }
  unfold create_expense in H1.
  destruct (validate (get_json req1)) as [[msg|a c d dt]|ex]; [by inversion H1| |by inversion H1].
  destruct (store_expense_keyed _ _ _ _ _ _ _ _ _ H1 Hk) as (r & e & [= <-] & Hfind & He).
  assert (H2 : create_expense db1 req2 now2 = (db1, Ok (JsonExpense e1, 201))).
  { unfold create_expense. rewrite Hv2, Hkey.
    rewrite (store_expense_hit _ _ _ _ _ _ _ r Hk Hfind). by rewrite He. }
  split; [done|]. rewrite H2. cbn [fst].
  destruct (mapM_row_to_expense _ (select_expenses_wf db1 EmptyString EmptyString Hwf1))
    as (l & Hl & Hf).
  exists l. split.
  { unfold get_expenses. change (Text.strip (default EmptyString None)) with EmptyString.
    by rewrite Hl. }
  pose proof (select_expenses_perm db1 EmptyString EmptyString) as Hperm.
  cbn [Text.is_empty] in Hperm.
  apply (filter_by_id_one _ _ r _ Hf).
  - rewrite Hperm. apply NoDup_fst_map_to_list.
  - rewrite Hperm.
    destruct (find_existing_sound _ _ _ Hfind) as (k & _ & _ & Hrow).
    destruct r as [i x]. by apply elem_of_map_to_list.
  - done.
Qed.

(** [test_idempotency]: the same request, without a header, sent twice
    to an empty database. *)
Lemma create_expense_idempotent_witness :
  create_expense BUS_FARE_DB BUS_FARE_REQUEST "2025-02-18T10:00:05Z"
  = (BUS_FARE_DB, Ok (JsonExpense BUS_FARE_EXPENSE, 201)) /\
  exists l,
    get_expenses (create_expense BUS_FARE_DB BUS_FARE_REQUEST "2025-02-18T10:00:05Z").1
                 None None = Ok (JsonList l, 200) /\
    filter (fun e => Expense.id e = Expense.id BUS_FARE_EXPENSE) l = [BUS_FARE_EXPENSE].
Proof.
  apply (create_expense_idempotent EMPTY_DB BUS_FARE_DB BUS_FARE_REQUEST BUS_FARE_REQUEST
           "2025-02-18T10:00:00Z" "2025-02-18T10:00:05Z" BUS_FARE_EXPENSE
           (Some 9999) "Transport" "Bus fare" "2025-02-18").
  - apply db_wf_check. vm_compute. reflexivity.
  - vm_compute. reflexivity.
  - vm_compute. reflexivity.
  - reflexivity.
  - vm_compute. reflexivity.
Defined.

(** ** The idempotency key *)

Section DigestFacts.
Import hashlib.

Lemma round_length st kw : length st = 8%nat -> length (round st kw) = 8%nat.
Proof.
  intros H. do 9 (destruct st as [|? st]; try discriminate H). reflexivity.
Qed.

Lemma fold_round_length kws : forall st,
  length st = 8%nat -> length (fold_left round kws st) = 8%nat.
Proof.
  induction kws as [|kw kws IH]; intros st H; simpl; [done|].
  apply IH. by apply round_length.
Qed.

Lemma compress_length h block : length h = 8%nat -> length (compress h block) = 8%nat.
Proof.
  intros H. unfold compress.
  rewrite length_map, length_combine, fold_round_length by done. lia.
Qed.

Lemma blocks_length n : forall ws h,
  length h = 8%nat -> length (blocks n ws h) = 8%nat.
Proof.
  induction n as [|n IH]; intros ws h H; simpl; [done|].
  apply IH. by apply compress_length.
Qed.

Lemma sha256_hexdigest_nonempty body : Text.is_empty (sha256_hexdigest body) = false.
Proof.
  unfold sha256_hexdigest, digest_words.
  pose proof (blocks_length (length (words (pad (encode body))) / 16)
                            (words (pad (encode body))) H0 eq_refl) as H.
  destruct (blocks _ _ _) as [|x l]; [discriminate H|].
  reflexivity.
Qed.

End DigestFacts.

(** How the key is chosen. *)
Lemma get_idempotency_key_spec (req : Request) :
  match header_idempotency_key req with
  | Some (String c h) =>
      _get_idempotency_key req = Some (Text.strip (String c h))
  | _ =>
      match get_data req with
      | String _ _ =>
          _get_idempotency_key req = Some (hashlib.sha256_hexdigest (get_data req)) /\
          key_truthy (_get_idempotency_key req) = true
      | EmptyString => _get_idempotency_key req = None
      end
  end.
Proof.
  unfold _get_idempotency_key.
  destruct (header_idempotency_key req) as [[|c h]|]; simpl; [|done|];
    destruct (get_data req) eqn:Hb; simpl; try done;
    (split; [done|]); rewrite <- Hb; by rewrite sha256_hexdigest_nonempty.
Qed.

(** C3.  The key is the trimmed header when a header is sent and is not
    empty, else the SHA-256 fingerprint of the body when the body is not
    empty, else none.  A header made of whitespace only is sent and is
    not empty, so its trimmed value, the empty text, is returned as the
    key and [create_expense] takes it for no key at all: nothing falls
    back to the fingerprint, and the same request served twice creates
    two expenses, where without the header it creates one. *)
Theorem blank_header_disables_idempotency :
  _get_idempotency_key BLANK_HEADER_REQUEST = Some EmptyString /\
  key_truthy (_get_idempotency_key BLANK_HEADER_REQUEST) = false /\
  _get_idempotency_key BUS_FARE_REQUEST
    = Some (hashlib.sha256_hexdigest (get_data BLANK_HEADER_REQUEST)) /\
  (exists db1 db2 e1 e2,
     create_expense EMPTY_DB BLANK_HEADER_REQUEST "2025-02-18T10:00:00Z"
       = (db1, Ok (JsonExpense e1, 201)) /\
     create_expense db1 BLANK_HEADER_REQUEST "2025-02-18T10:00:05Z"
       = (db2, Ok (JsonExpense e2, 201)) /\
     Expense.id e1 = 1 /\ Expense.id e2 = 2 /\
     size (expenses db2) = 2%nat /\
     idempotency_keys db2 = ∅).
Proof.
  split; [reflexivity|]. split; [reflexivity|]. split; [reflexivity|].
  eexists _, _, _, _.
  split; [vm_compute; reflexivity|].
  split; [vm_compute; reflexivity|].
  split; [reflexivity|]. split; [reflexivity|].
  split; [vm_compute; reflexivity|].
  vm_compute. reflexivity.
Qed.

(** ** Validation *)

Lemma strptime_raise s e : strptime.strptime s = Raise e -> e = ValueError.
Proof.
  unfold strptime.strptime.
  destruct (strptime.regex_match s) as [[[[y m] d] rest]|]; [|congruence].
  destruct (negb (Text.is_empty rest)); [congruence|].
  destruct (strptime.valid_date y m d); congruence.
Qed.

(** Calendar validation is strict: the fields of an accepted date name a
    day that exists. *)
Lemma strptime_valid s y m d :
  strptime.strptime s = Ok (y, m, d) -> strptime.valid_date y m d = true.
Proof.
  unfold strptime.strptime.
  destruct (strptime.regex_match s) as [[[[y' m'] d'] rest]|]; [|done].
  destruct (negb (Text.is_empty rest)); [done|].
  destruct (strptime.valid_date y' m' d') eqn:Hv; [|done].
  by intros [= <- <- <-].
Qed.

(** The checks on a JSON object that is not empty and whose text fields
    are texts (or falsy). *)
Lemma validate_dict d category description date :
  d <> [] ->
  or_empty_strip (Py.dict_get d "category") = Ok category ->
  or_empty_strip (Py.dict_get d "description") = Ok description ->
  or_empty_strip (Py.dict_get d "date") = Ok date ->
  validate (PyDict d) =
  match _parse_amount (Py.dict_get d "amount") with
  | Raise e => Raise e
  | Ok (amount_paise, amount_err) =>
      if key_truthy amount_err then Ok (Rejected (default EmptyString amount_err))
      else if Text.is_empty category then Ok (Rejected MSG_CATEGORY_REQUIRED)
      else if Text.is_empty date then Ok (Rejected MSG_DATE_REQUIRED)
      else
        match strptime.strptime date with
        | Raise _ => Ok (Rejected MSG_DATE_FORMAT)
        | Ok _ => Ok (Accepted amount_paise category description date)
        end
  end.
Proof.
  intros Hd Hc Hde Hda. unfold validate.
  assert (Py.truthy (PyDict d) = true) as -> by (by destruct d).
  cbn [negb data_get mbind res_bind]. rewrite Hc, Hde, Hda. cbn [mbind res_bind].
  destruct (_parse_amount _) as [[a err]|]; [|done]. cbn [mbind res_bind].
  destruct (key_truthy err); [done|].
  destruct (Text.is_empty category); [done|].
  destruct (Text.is_empty date); [done|].
  destruct (strptime.strptime date) as [|e] eqn:Hs; [done|].
  by apply strptime_raise in Hs as ->.
Qed.

(** A body that passes the first test is never answered ["Invalid JSON"]. *)
Lemma validate_truthy_message data msg :
  Py.truthy data = true -> validate data = Ok (Rejected msg) -> msg <> MSG_INVALID_JSON.
Proof.
  intros Ht. unfold validate. rewrite Ht. cbn [negb].
  destruct (data_get data "amount") as [amount_raw|]; [|done]. cbn [mbind res_bind].
  destruct (data_get data "category") as [v1|]; [|done]. cbn [mbind res_bind].
  destruct (or_empty_strip v1) as [category|]; [|done]. cbn [mbind res_bind].
  destruct (data_get data "description") as [v2|]; [|done]. cbn [mbind res_bind].
  destruct (or_empty_strip v2) as [description|]; [|done]. cbn [mbind res_bind].
  destruct (data_get data "date") as [v3|]; [|done]. cbn [mbind res_bind].
  destruct (or_empty_strip v3) as [date|]; [|done]. cbn [mbind res_bind].
  destruct (parse_amount_shape amount_raw) as [(p & -> & _)|(m & -> & Hm)];
    cbn [mbind res_bind key_truthy].
  - destruct (Text.is_empty category); [by intros [= <-]|].
    destruct (Text.is_empty date); [by intros [= <-]|].
    destruct (strptime.strptime date) as [|[]]; try done. by intros [= <-].
  - destruct Hm as [->|[->| ->]]; by intros [= <-].
Qed.

(** C4.  A date that is empty once trimmed aside, [create_expense]
    answers ["Date must be in YYYY-MM-DD format"] when [strptime]
    rejects the text.  Months and days out of range are rejected
    ([2025-02-30], month 13), and every date let through names a day
    that exists.  But the shape is not held to four, two and two digits:
    [2025-2-8] is let through, and the expense is stored with the date
    text ["2025-2-8"]. *)
Theorem create_expense_accepts_unpadded_date :
  strptime.strptime "2025-2-8" = Ok (2025, 2, 8) /\
  validate (get_json UNPADDED_DATE_REQUEST)
    = Ok (Accepted (Some 9999) "Transport" "Bus fare" "2025-2-8") /\
  (exists db1 e,
     create_expense EMPTY_DB UNPADDED_DATE_REQUEST "2025-02-18T10:00:00Z"
       = (db1, Ok (JsonExpense e, 201)) /\
     Expense.date e = "2025-2-8" /\
     Row.date <$> (expenses db1 !! 1) = Some "2025-2-8") /\
  validate (bus_fare "2025-02-30") = Ok (Rejected MSG_DATE_FORMAT) /\
  validate (bus_fare "2025-13-01") = Ok (Rejected MSG_DATE_FORMAT) /\
  validate (bus_fare "2025-02-18")
    = Ok (Accepted (Some 9999) "Transport" "Bus fare" "2025-02-18") /\
  (forall s y m d, strptime.strptime s = Ok (y, m, d) -> strptime.valid_date y m d = true).
Proof.
  split; [reflexivity|]. split; [vm_compute; reflexivity|].
  split.
  { eexists _, _. split; [vm_compute; reflexivity|]. split; [reflexivity|].
    vm_compute. reflexivity. }
  split; [vm_compute; reflexivity|]. split; [vm_compute; reflexivity|].
  split; [vm_compute; reflexivity|].
  apply strptime_valid.
Qed.

(** C5, the claim as written fails: the body [{}] parses as JSON and its
    amount is missing, a failure of the first check, yet the answer is
    not the message of that check. *)
Lemma empty_object_skips_validation :
  _parse_amount (Py.dict_get [] "amount") = Ok (None, Some MSG_AMOUNT_REQUIRED) /\
  (create_expense EMPTY_DB EMPTY_OBJECT_REQUEST "2025-02-18T10:00:00Z").2
    = Ok (JsonError MSG_INVALID_JSON, 400) /\
  create_expense EMPTY_DB EMPTY_OBJECT_REQUEST "2025-02-18T10:00:00Z"
    <> (EMPTY_DB, Ok (JsonError MSG_AMOUNT_REQUIRED, 400)).
Proof. split; [reflexivity|]. split; [reflexivity|]. vm_compute. discriminate. Qed.

(** C5 (as the code has it).  For every create request whose body parses
    to a JSON object that is not empty and whose category, description
    and date are texts (or absent or falsy), the checks run in the order
    amount, category, date, and the first failure wins: a failure of the
    Money Parser is answered 400 with the parser's message; else an
    empty category with ["Category is required"]; else an empty date
    with ["Date is required"]; else a date [strptime] rejects with
    ["Date must be in YYYY-MM-DD format"]; in each case the database is
    left as it was.  Only when all pass does the transaction start. *)
Theorem validation_order (db : DB) (req : Request) (now : string)
    (d : list (string * pyval)) (category description date : string) :
  get_json req = PyDict d ->
  d <> [] ->
  or_empty_strip (Py.dict_get d "category") = Ok category ->
  or_empty_strip (Py.dict_get d "description") = Ok description ->
  or_empty_strip (Py.dict_get d "date") = Ok date ->
  (forall msg,
     _parse_amount (Py.dict_get d "amount") = Ok (None, Some msg) ->
     create_expense db req now = (db, Ok (JsonError msg, 400))) /\
  (forall paise,
     _parse_amount (Py.dict_get d "amount") = Ok (Some paise, None) ->
     (category = EmptyString ->
      create_expense db req now = (db, Ok (JsonError MSG_CATEGORY_REQUIRED, 400))) /\
     (category <> EmptyString -> date = EmptyString ->
      create_expense db req now = (db, Ok (JsonError MSG_DATE_REQUIRED, 400))) /\
     (category <> EmptyString -> date <> EmptyString ->
      (exists e, strptime.strptime date = Raise e) ->
      create_expense db req now = (db, Ok (JsonError MSG_DATE_FORMAT, 400))) /\
     (category <> EmptyString -> date <> EmptyString ->
      (exists ymd, strptime.strptime date = Ok ymd) ->
      create_expense db req now
      = store_expense db (Some paise) category description date
                      (_get_idempotency_key req) now)) /\
  ((exists msg, _parse_amount (Py.dict_get d "amount") = Ok (None, Some msg)) \/
   (exists paise, _parse_amount (Py.dict_get d "amount") = Ok (Some paise, None))).
Proof.
  intros Hj Hd Hc Hde Hda. unfold create_expense.
  rewrite Hj, (validate_dict d category description date Hd Hc Hde Hda).
  split; [|split].
  - intros msg Hp. rewrite Hp.
    destruct (parse_amount_shape (Py.dict_get d "amount")) as [(p & Hp' & _)|(m & Hp' & Hm)];
      [congruence|].
    assert (m = msg) as -> by congruence.
    by destruct Hm as [->|[->| ->]].
  - intros paise Hp. rewrite Hp. cbn [key_truthy].
    split; [by intros ->|].
    split; [intros Hcat ->; by destruct category|].
    split.
    + intros Hcat Hdate [e He]. rewrite He. by destruct category, date.
    + intros Hcat Hdate [ymd He]. rewrite He. by destruct category, date.
  - destruct (parse_amount_shape (Py.dict_get d "amount")) as [(p & Hp' & _)|(m & Hp' & Hm)];
      [right|left]; eauto.
Qed.

(** The first failure wins: with a negative amount, an empty category
    and an empty date, the answer is the message about the amount. *)
Lemma validation_order_witness :
  create_expense EMPTY_DB ALL_WRONG_REQUEST "2025-02-18T10:00:00Z"
  = (EMPTY_DB, Ok (JsonError MSG_AMOUNT_NEGATIVE, 400)).
Proof.
  refine (proj1 (validation_order EMPTY_DB ALL_WRONG_REQUEST "2025-02-18T10:00:00Z"
                   ALL_WRONG "" "" "" _ _ _ _ _) MSG_AMOUNT_NEGATIVE _).
  - reflexivity.
  - discriminate.
  - reflexivity.
  - reflexivity.
  - reflexivity.
  - vm_compute. reflexivity.
Defined.

(** C6, the claim as written fails: the body [{}] parses as valid JSON
    and supplies no amount, yet the answer is ["Invalid JSON"] and not
    ["Amount is required"]. *)
Lemma empty_object_is_invalid_json :
  create_expense EMPTY_DB EMPTY_OBJECT_REQUEST "2025-02-18T10:00:00Z"
  = (EMPTY_DB, Ok (JsonError MSG_INVALID_JSON, 400)).
Proof. vm_compute. reflexivity. Qed.

(** C6 (as the code has it).  [create_expense] answers ["Invalid JSON"]
    exactly when what [get_json] returns is falsy: [None] (the body is
    absent or does not parse, or is [null]), [false], zero, the empty
    text, the empty array or the empty object [{}].  For every body that
    parses to an object that is not empty, supplies no amount (absent or
    [null]) and whose category, description and date are texts (or
    absent or falsy), it answers ["Amount is required"]. *)
Theorem invalid_json_cases (db : DB) (req : Request) (now : string) :
  ((create_expense db req now).2 = Ok (JsonError MSG_INVALID_JSON, 400) <->
   Py.truthy (get_json req) = false) /\
  (forall d category description date,
     get_json req = PyDict d ->
     d <> [] ->
     Py.dict_get d "amount" = PyNone ->
     or_empty_strip (Py.dict_get d "category") = Ok category ->
     or_empty_strip (Py.dict_get d "description") = Ok description ->
     or_empty_strip (Py.dict_get d "date") = Ok date ->
     create_expense db req now = (db, Ok (JsonError MSG_AMOUNT_REQUIRED, 400))).
Proof.
  split.
  - unfold create_expense. split.
    + destruct (Py.truthy (get_json req)) eqn:Ht; [|done]. intros H. exfalso.
      destruct (validate (get_json req)) as [[msg|a c dd dt]|ex] eqn:Hv.
      * simpl in H. injection H as H.
        by apply (validate_truthy_message _ _ Ht Hv).
      * destruct (store_expense _ _ _ _ _ _ _) as [db1 [resp|ex]] eqn:Hs; [|done].
        apply store_expense_created in Hs as [e ->]. done.
      * done.
    + intros Ht. unfold validate. by rewrite Ht.
  - intros d category description date Hj Hd Ha Hc Hde Hda.
    unfold create_expense.
    rewrite Hj, (validate_dict d category description date Hd Hc Hde Hda), Ha.
    reflexivity.
Qed.

(** An object with a category, a description and a date but no amount
    is answered ["Amount is required"]. *)
Lemma invalid_json_cases_witness :
  create_expense EMPTY_DB NO_AMOUNT_REQUEST "2025-02-18T10:00:00Z"
  = (EMPTY_DB, Ok (JsonError MSG_AMOUNT_REQUIRED, 400)).
Proof.
  refine (proj2 (invalid_json_cases EMPTY_DB NO_AMOUNT_REQUEST "2025-02-18T10:00:00Z")
                NO_AMOUNT "Food" "x" "2025-02-18" _ _ _ _ _ _).
  - reflexivity.
  - discriminate.
  - reflexivity.
  - reflexivity.
  - reflexivity.
  - reflexivity.
Defined.

(** * More on the transaction *)

(** The three ways [store_expense] can end: the key names a stored row
    and nothing is written; an exception and nothing is written; or one
    row is inserted under a fresh id. *)
Lemma store_expense_cases db amount_paise category description date key now db' out :
  store_expense db amount_paise category description date key now = (db', out) ->
  (exists r, key_truthy key = true /\
     find_existing db (default EmptyString key) = Some r /\ db' = db /\
     out = (e ← _row_to_expense r; Ok (JsonExpense e, 201))) \/
  (db' = db /\ exists ex, out = Raise ex) \/
  (exists paise,
     amount_paise = Some paise /\ INT64_MIN <= paise <= INT64_MAX /\
     (key_truthy key = false \/ find_existing db (default EmptyString key) = None) /\
     let i := Z.max (expenses_seq db) (max_rowid (expenses db)) + 1 in
     let r := Row.mk paise category description date now in
     i <= INT64_MAX /\
     db' = mkDB (<[i := r]> (expenses db)) i
                (if key_truthy key
                 then <[default EmptyString key := KeyRow.mk i now]> (idempotency_keys db)
                 else idempotency_keys db) /\
     out = (e ← _row_to_expense (i, r); Ok (JsonExpense e, 201))).
Proof.
  unfold store_expense.
  destruct (key_truthy key) eqn:Hk.
  - destruct (find_existing db (default EmptyString key)) as [r|] eqn:Hf.
    + intros [= <- <-]. left. by exists r.
    + destruct amount_paise as [paise|]; [|intros [= <- <-]; right; left; eauto].
      destruct (Z.ltb_spec paise INT64_MIN); [intros [= <- <-]; right; left; eauto|].
      destruct (Z.ltb_spec INT64_MAX paise); [intros [= <- <-]; right; left; eauto|].
      cbn [orb].
      destruct (Z.ltb_spec INT64_MAX (Z.max (expenses_seq db) (max_rowid (expenses db)) + 1));
        [intros [= <- <-]; right; left; eauto|].
      cbn [expenses]. rewrite lookup_insert_eq. intros [= <- <-].
      right. right. exists paise. repeat split; auto; lia.
  - destruct amount_paise as [paise|]; [|intros [= <- <-]; right; left; eauto].
    destruct (Z.ltb_spec paise INT64_MIN); [intros [= <- <-]; right; left; eauto|].
    destruct (Z.ltb_spec INT64_MAX paise); [intros [= <- <-]; right; left; eauto|].
    cbn [orb].
    destruct (Z.ltb_spec INT64_MAX (Z.max (expenses_seq db) (max_rowid (expenses db)) + 1));
      [intros [= <- <-]; right; left; eauto|].
    cbn [expenses]. rewrite lookup_insert_eq. intros [= <- <-].
    right. right. exists paise. repeat split; auto; lia.
Qed.

(** The same for the whole handler. *)
Lemma create_expense_cases db req now db' out :
  create_expense db req now = (db', out) ->
  (db' = db /\ (forall e, out <> Ok (JsonExpense e, 201))) \/
  (exists a c d dt r e, validate (get_json req) = Ok (Accepted a c d dt) /\
     key_truthy (_get_idempotency_key req) = true /\
     find_existing db (default EmptyString (_get_idempotency_key req)) = Some r /\
     db' = db /\ _row_to_expense r = Ok e /\ out = Ok (JsonExpense e, 201)) \/
  (exists paise c d dt e,
     validate (get_json req) = Ok (Accepted (Some paise) c d dt) /\
     INT64_MIN <= paise <= INT64_MAX /\
     (key_truthy (_get_idempotency_key req) = false \/
      find_existing db (default EmptyString (_get_idempotency_key req)) = None) /\
     let i := Z.max (expenses_seq db) (max_rowid (expenses db)) + 1 in
     let r := Row.mk paise c d dt now in
     i <= INT64_MAX /\
     db' = mkDB (<[i := r]> (expenses db)) i
                (if key_truthy (_get_idempotency_key req)
                 then <[default EmptyString (_get_idempotency_key req) := KeyRow.mk i now]>
                        (idempotency_keys db)
                 else idempotency_keys db) /\
     _row_to_expense (i, r) = Ok e /\ out = Ok (JsonExpense e, 201)).
Proof.
  unfold create_expense.
  destruct (validate (get_json req)) as [[msg|a c d dt]|ex] eqn:Hv.
  - intros [= <- <-]. left. by split.
  - intros Hs. apply store_expense_cases in Hs
      as [(r & Hk & Hf & -> & ->)|[(-> & ex & ->)|(paise & -> & Hb & Hn & Hi & -> & ->)]].
    + destruct (_row_to_expense r) as [e|ex] eqn:He.
      * right. left. by exists a, c, d, dt, r, e.
      * left. by split.
    + left. by split.
    + set (i := Z.max (expenses_seq db) (max_rowid (expenses db)) + 1) in *.
      destruct (row_to_expense_ok (i, Row.mk paise c d dt now)) as (f & _ & He).
      { apply int64_small. exact Hb. }
      simpl in He. right. right.
      exists paise, c, d, dt, (Expense.mk i f c d dt now).
      cbn zeta. fold i. rewrite He. repeat split; auto; lia.
  - intros [= <- <-]. left. by split.
Qed.

(** A count the parser returns is not negative and has at most 28 digits. *)
Lemma parse_amount_bound value paise :
  _parse_amount value = Ok (Some paise, None) -> 0 <= paise < MINOR_UNITS_LIMIT.
Proof.
  destruct (is_none_dec value) as [->|Hv]; [done|].
  rewrite (parse_amount_unfold value Hv).
  destruct (amount_decimal value) as [[s c e|s|s sig]|ex] eqn:Hd; try done.
  - destruct (s && negb (c =? 0)); [done|].
    destruct (Z.ltb_spec (minor_units c e) MINOR_UNITS_LIMIT); [|done].
    intros [= <-]. split; [|done].
    apply minor_units_nonneg. by eapply amount_decimal_coeff_nonneg.
  - by destruct s.
Qed.

Lemma or_empty_strip_stripped v s : or_empty_strip v = Ok s -> Text.strip s = s.
Proof.
  unfold or_empty_strip. destruct (Py.truthy v).
  - destruct v; try done. intros [= <-]. apply strip_idem.
  - by intros [= <-].
Qed.

(** What the checks guarantee about the fields they let through. *)
Lemma validate_accepted data a c d dt :
  validate data = Ok (Accepted a c d dt) ->
  (exists paise, a = Some paise /\ 0 <= paise < MINOR_UNITS_LIMIT) /\
  c <> EmptyString /\ Text.strip c = c /\ Text.strip d = d /\ Text.strip dt = dt /\
  dt <> EmptyString /\ exists ymd, strptime.strptime dt = Ok ymd.
Proof.
  unfold validate. destruct (negb (Py.truthy data)); [done|].
  destruct (data_get data "amount") as [amount_raw|]; [|done]. cbn [mbind res_bind].
  destruct (data_get data "category") as [v1|]; [|done]. cbn [mbind res_bind].
  destruct (or_empty_strip v1) as [category|] eqn:H1; [|done]. cbn [mbind res_bind].
  destruct (data_get data "description") as [v2|]; [|done]. cbn [mbind res_bind].
  destruct (or_empty_strip v2) as [description|] eqn:H2; [|done]. cbn [mbind res_bind].
  destruct (data_get data "date") as [v3|]; [|done]. cbn [mbind res_bind].
  destruct (or_empty_strip v3) as [date|] eqn:H3; [|done]. cbn [mbind res_bind].
  destruct (parse_amount_shape amount_raw) as [(p & Hp & Hp0)|(m & -> & Hm)];
    cbn [mbind res_bind key_truthy].
  2:{ destruct Hm as [->|[->| ->]]; done. }
  pose proof (parse_amount_bound _ _ Hp) as Hlim.
  rewrite Hp. cbn [mbind res_bind key_truthy].
  destruct category as [|c0 category]; [done|]. cbn [Text.is_empty].
  destruct date as [|d0 date]; [done|]. cbn [Text.is_empty].
  destruct (strptime.strptime _) as [ymd|[]] eqn:Hs; try done.
  intros [= <- <- <- <-].
  apply or_empty_strip_stripped in H1, H2, H3.
  split; [by exists p|].
  repeat split; try done. by exists ymd.
Qed.

(** X1.  The table of expenses is append-only: whatever the request,
    [create_expense] leaves every stored row under its id, unchanged. *)
Theorem create_expense_keeps_rows (db : DB) (req : Request) (now : string)
    (i : Z) (r : Row.t) :
  expenses db !! i = Some r ->
  expenses (create_expense db req now).1 !! i = Some r.
Proof.
  intros Hir. destruct (create_expense db req now) as [db' out] eqn:Hc. cbn [fst].
  apply create_expense_cases in Hc
    as [[-> _]|[(a & c & d & dt & r0 & e & _ & _ & _ & -> & _)
               |(p & c & d & dt & e & _ & _ & _ & _ & -> & _)]]; [done..|].
  cbn [expenses]. rewrite lookup_insert_ne; [done|].
  intros <-. by rewrite fresh_rowid in Hir.
Qed.

Lemma create_expense_keeps_rows_witness :
  expenses (create_expense BUS_FARE_DB UNPADDED_DATE_REQUEST "2025-02-19T08:00:00Z").1 !! 1
  = Some BUS_FARE_ROW.
Proof.
  apply (create_expense_keeps_rows BUS_FARE_DB UNPADDED_DATE_REQUEST
           "2025-02-19T08:00:00Z" 1 BUS_FARE_ROW).
  vm_compute. reflexivity.
Defined.

(** X2.  A call writes at most one row, and only when it answers 201:
    either the database is returned as it was, or the answer is a 201
    whose expense was stored under an id that was free, every other row
    being as before and every key that was bound keeping its binding or
    pointing to the new row. *)
Theorem create_expense_writes_at_most_one_row (db : DB) (req : Request) (now : string) :
  (create_expense db req now).1 = db \/
  exists e r,
    (create_expense db req now).2 = Ok (JsonExpense e, 201) /\
    expenses db !! Expense.id e = None /\
    expenses (create_expense db req now).1 = <[Expense.id e := r]> (expenses db) /\
    _row_to_expense (Expense.id e, r) = Ok e /\
    forall k kr, idempotency_keys (create_expense db req now).1 !! k = Some kr ->
      idempotency_keys db !! k = Some kr \/ KeyRow.expense_id kr = Expense.id e.
Proof.
  destruct (create_expense db req now) as [db' out] eqn:Hc. cbn [fst snd].
  apply create_expense_cases in Hc
    as [[-> _]|[(a & c & d & dt & r0 & e & _ & _ & _ & -> & _)
               |(p & c & d & dt & e & _ & _ & _ & _ & -> & He & ->)]]; [by left..|].
  right. pose proof (row_to_expense_inv _ _ He) as (Hid & _). cbn [fst] in Hid.
  eexists e, _. rewrite Hid. cbn [expenses idempotency_keys].
  split; [done|]. split; [apply fresh_rowid|]. split; [done|]. split; [done|].
  intros k kr. destruct (key_truthy (_get_idempotency_key req)); [|by left].
  destruct (decide (k = default EmptyString (_get_idempotency_key req))) as [->|Hne].
  - rewrite lookup_insert_eq. intros [= <-]. by right.
  - rewrite lookup_insert_ne by done. by left.
Qed.

(** X3.  Ids are handed out in increasing order: when a call stores a
    new expense, its id is positive, larger than every id in the table
    and larger than the counter, and the counter moves to it, so an id
    is never given twice. *)
Theorem create_expense_fresh_id (db db' : DB) (req : Request) (now : string) (e : Expense.t) :
  create_expense db req now = (db', Ok (JsonExpense e, 201)) ->
  expenses db !! Expense.id e = None ->
  1 <= Expense.id e /\ expenses_seq db < Expense.id e /\
  expenses_seq db' = Expense.id e /\
  forall i r, expenses db !! i = Some r -> i < Expense.id e.
Proof.
  intros Hc Hfresh. apply create_expense_cases in Hc
    as [[_ Hno]|[(a & c & d & dt & r0 & e0 & _ & _ & Hf & _ & He & [= <-])
                |(p & c & d & dt & e0 & _ & _ & _ & _ & -> & He & [= <-])]].
  - by destruct (Hno e).
  - apply find_existing_sound in Hf as (k & _ & _ & Hrow).
    apply row_to_expense_inv in He as (Hid & _). rewrite Hid in Hfresh. congruence.
  - apply row_to_expense_inv in He as (Hid & _). cbn [fst] in Hid. rewrite Hid.
    cbn [expenses_seq].
    assert (0 <= max_rowid (expenses db)).
    { unfold max_rowid. induction (map fst _) as [|x l IH]; simpl; lia. }
    repeat split; try lia.
    intros i r Hir. apply max_rowid_ge in Hir. lia.
Qed.

Lemma create_expense_fresh_id_witness :
  1 <= Expense.id BUS_FARE_EXPENSE /\
  expenses_seq EMPTY_DB < Expense.id BUS_FARE_EXPENSE /\
  expenses_seq BUS_FARE_DB = Expense.id BUS_FARE_EXPENSE /\
  forall i r, expenses EMPTY_DB !! i = Some r -> i < Expense.id BUS_FARE_EXPENSE.
Proof.
  apply (create_expense_fresh_id EMPTY_DB BUS_FARE_DB BUS_FARE_REQUEST "2025-02-18T10:00:00Z").
  - vm_compute. reflexivity.
  - reflexivity.
Defined.

Lemma find_existing_bound (db : DB) (k : string) (kr : KeyRow.t) :
  keys_ok db -> idempotency_keys db !! k = Some kr ->
  exists r, find_existing db k = Some r.
Proof.
  intros Hok Hk. unfold find_existing. rewrite Hk.
  destruct (Hok _ _ Hk) as [r ->]. by eexists.
Qed.

(** X4.  The key table is write-once and keeps its references: over a
    database where every key names a stored expense, [create_expense]
    returns a database where that still holds and where every key that
    was bound is bound to the same expense, with the same time of first
    use. *)
Theorem create_expense_keeps_keys (db : DB) (req : Request) (now : string) :
  keys_ok db ->
  keys_ok (create_expense db req now).1 /\
  forall k kr, idempotency_keys db !! k = Some kr ->
    idempotency_keys (create_expense db req now).1 !! k = Some kr.
Proof.
  intros Hok. destruct (create_expense db req now) as [db' out] eqn:Hc. cbn [fst].
  apply create_expense_cases in Hc
    as [[-> _]|[(a & c & d & dt & r0 & e & _ & _ & _ & -> & _)
               |(p & c & d & dt & e & _ & _ & Hn & _ & -> & _)]]; [done..|].
  set (i := Z.max (expenses_seq db) (max_rowid (expenses db)) + 1) in *.
  set (key := default EmptyString (_get_idempotency_key req)) in *.
  assert (Hfree : key_truthy (_get_idempotency_key req) = true ->
                  idempotency_keys db !! key = None).
  { intros Ht. destruct Hn as [Hn|Hn]; [congruence|].
    destruct (idempotency_keys db !! key) as [kr|] eqn:Hk; [|done].
    destruct (find_existing_bound db key kr Hok Hk) as [r Hr]. congruence. }
  split.
  - intros k kr. cbn [idempotency_keys expenses].
    destruct (key_truthy (_get_idempotency_key req)) eqn:Ht.
    + destruct (decide (k = key)) as [->|Hne].
      * rewrite lookup_insert_eq. intros [= <-]. cbn [KeyRow.expense_id].
        rewrite lookup_insert_eq. by eexists.
      * rewrite lookup_insert_ne by done. intros Hk.
        destruct (Hok _ _ Hk) as [r Hr]. exists r.
        rewrite lookup_insert_ne; [done|].
        intros Heq. rewrite <- Heq in Hr. subst i. by rewrite fresh_rowid in Hr.
    + intros Hk. destruct (Hok _ _ Hk) as [r Hr]. exists r.
      rewrite lookup_insert_ne; [done|].
      intros Heq. rewrite <- Heq in Hr. subst i. by rewrite fresh_rowid in Hr.
  - intros k kr Hk. cbn [idempotency_keys].
    destruct (key_truthy (_get_idempotency_key req)) eqn:Ht; [|done].
    rewrite lookup_insert_ne; [done|].
    intros <-. rewrite (Hfree eq_refl) in Hk. done.
Qed.

Lemma create_expense_keeps_keys_witness :
  keys_ok (create_expense BUS_FARE_DB UNPADDED_DATE_REQUEST "2025-02-19T08:00:00Z").1 /\
  forall k kr, idempotency_keys BUS_FARE_DB !! k = Some kr ->
    idempotency_keys
      (create_expense BUS_FARE_DB UNPADDED_DATE_REQUEST "2025-02-19T08:00:00Z").1 !! k
    = Some kr.
Proof.
  apply (create_expense_keeps_keys BUS_FARE_DB UNPADDED_DATE_REQUEST "2025-02-19T08:00:00Z").
  intros k kr Hk.
  assert (Hin : (k, kr) ∈ map_to_list (idempotency_keys BUS_FARE_DB))
    by (by apply elem_of_map_to_list).
  vm_compute in Hin. apply list_elem_of_In in Hin. simpl in Hin.
  destruct Hin as [[= <- <-]|[]]. vm_compute. by eexists.
Defined.

(** X5.  Without a usable key, or with a key the table does not hold,
    every call answered 201 adds exactly one expense; a usable key is
    then bound to the new expense, and without one the key table is left
    alone. *)
Theorem create_expense_new_key_inserts (db db' : DB) (req : Request) (now : string)
    (e : Expense.t) :
  key_truthy (_get_idempotency_key req) = false \/
    idempotency_keys db !! default EmptyString (_get_idempotency_key req) = None ->
  create_expense db req now = (db', Ok (JsonExpense e, 201)) ->
  size (expenses db') = S (size (expenses db)) /\
  expenses db !! Expense.id e = None /\
  is_Some (expenses db' !! Expense.id e) /\
  (key_truthy (_get_idempotency_key req) = false ->
   idempotency_keys db' = idempotency_keys db) /\
  (key_truthy (_get_idempotency_key req) = true ->
   idempotency_keys db' !! default EmptyString (_get_idempotency_key req)
   = Some (KeyRow.mk (Expense.id e) now)).
Proof.
  intros Hkey Hc. apply create_expense_cases in Hc
    as [[_ Hno]|[(a & c & d & dt & r0 & e0 & _ & Ht & Hf & _ & _ & _)
                |(p & c & d & dt & e0 & _ & _ & _ & _ & -> & He & [= <-])]].
  - by destruct (Hno e).
  - exfalso. destruct Hkey as [Hkey|Hkey]; [congruence|].
    apply find_existing_sound in Hf as (k & Hk & _). congruence.
  - apply row_to_expense_inv in He as (Hid & _). cbn [fst] in Hid. rewrite Hid.
    cbn [expenses idempotency_keys].
    split; [apply map_size_insert_None, fresh_rowid|].
    split; [apply fresh_rowid|].
    split; [rewrite lookup_insert_eq; by eexists|].
    split; intros Ht; rewrite Ht; [done|]. by rewrite lookup_insert_eq.
Qed.

Lemma create_expense_new_key_inserts_witness :
  size (expenses BUS_FARE_DB) = S (size (expenses EMPTY_DB)) /\
  expenses EMPTY_DB !! Expense.id BUS_FARE_EXPENSE = None /\
  is_Some (expenses BUS_FARE_DB !! Expense.id BUS_FARE_EXPENSE) /\
  (key_truthy (_get_idempotency_key BUS_FARE_REQUEST) = false ->
   idempotency_keys BUS_FARE_DB = idempotency_keys EMPTY_DB) /\
  (key_truthy (_get_idempotency_key BUS_FARE_REQUEST) = true ->
   idempotency_keys BUS_FARE_DB !! default EmptyString (_get_idempotency_key BUS_FARE_REQUEST)
   = Some (KeyRow.mk (Expense.id BUS_FARE_EXPENSE) "2025-02-18T10:00:00Z")).
Proof.
  apply (create_expense_new_key_inserts EMPTY_DB BUS_FARE_DB BUS_FARE_REQUEST
           "2025-02-18T10:00:00Z" BUS_FARE_EXPENSE).
  - right. reflexivity.
  - vm_compute. reflexivity.
Defined.

(** A call keeps the rows within the checks. *)
Lemma rows_ok_step (db db' : DB) (req : Request) (now : string) (out : res response) :
  rows_ok db -> create_expense db req now = (db', out) -> rows_ok db'.
Proof.
  intros Hok Hc.
  apply create_expense_cases in Hc
    as [[-> _]|[(a & c & d & dt & r0 & e & _ & _ & _ & -> & _)
               |(p & c & d & dt & e & Hv & Hb & _ & _ & -> & _)]]; [done..|].
  apply validate_accepted in Hv as ((p' & [= <-] & Hp) & Hc & Hsc & Hsd & Hsdt & _ & Hdate).
  intros i r. cbn [expenses].
  destruct (decide (i = Z.max (expenses_seq db) (max_rowid (expenses db)) + 1)) as [->|Hne].
  - rewrite lookup_insert_eq. intros [= <-]. unfold row_ok. simpl.
    repeat split; try done; lia.
  - rewrite lookup_insert_ne by done. apply Hok.
Qed.

(** X6.  Every row [create_expense] stores satisfies the checks: over a
    table whose rows all have an amount that is not negative and fits 64
    bits, a category that is not empty, texts without surrounding
    whitespace and a date [strptime] accepts, the table returned has
    only such rows. *)
Theorem create_expense_keeps_rows_ok (db : DB) (req : Request) (now : string) :
  rows_ok db -> rows_ok (create_expense db req now).1.
Proof.
  intros Hok. destruct (create_expense db req now) as [db' out] eqn:Hc. cbn [fst].
  by eapply rows_ok_step.
Qed.

Lemma create_expense_keeps_rows_ok_witness :
  rows_ok (create_expense EMPTY_DB BUS_FARE_REQUEST "2025-02-18T10:00:00Z").1.
Proof.
  apply (create_expense_keeps_rows_ok EMPTY_DB BUS_FARE_REQUEST "2025-02-18T10:00:00Z").
  intros i r H. unfold EMPTY_DB in H. simpl in H. by rewrite lookup_empty in H.
Defined.

(** What the checks did with the fields of an object they let through. *)
Lemma validate_dict_accepted d a c de dt :
  validate (PyDict d) = Ok (Accepted a c de dt) ->
  or_empty_strip (Py.dict_get d "category") = Ok c /\
  or_empty_strip (Py.dict_get d "description") = Ok de /\
  or_empty_strip (Py.dict_get d "date") = Ok dt /\
  _parse_amount (Py.dict_get d "amount") = Ok (a, None).
Proof.
  unfold validate. destruct (negb (Py.truthy (PyDict d))); [done|].
  cbn [data_get mbind res_bind].
  destruct (or_empty_strip (Py.dict_get d "category")) as [c'|]; [|done].
  cbn [mbind res_bind].
  destruct (or_empty_strip (Py.dict_get d "description")) as [de'|]; [|done].
  cbn [mbind res_bind].
  destruct (or_empty_strip (Py.dict_get d "date")) as [dt'|]; [|done].
  cbn [mbind res_bind].
  destruct (parse_amount_shape (Py.dict_get d "amount")) as [(p & -> & _)|(m & -> & Hm)];
    cbn [mbind res_bind key_truthy].
  2:{ destruct Hm as [->|[->| ->]]; done. }
  destruct (Text.is_empty c'); [done|]. destruct (Text.is_empty dt'); [done|].
  destruct (strptime.strptime dt') as [ymd|[]]; try done.
  by intros [= <- <- <- <-].
Qed.

(** X7.  A newly stored expense is the request, trimmed, with the time
    of the server: when a request whose body is the object [d] is
    answered 201 with an expense that was not in the table, the
    category, description and date of that expense are the trimmed
    fields of [d], its amount is the parsed amount of [d] divided by
    100, its [created_at] is the time handed to the call, and the row
    with these values is in the table under its id. *)
Theorem create_expense_echoes_request (db db' : DB) (req : Request) (now : string)
    (d : list (string * pyval)) (e : Expense.t) :
  get_json req = PyDict d ->
  create_expense db req now = (db', Ok (JsonExpense e, 201)) ->
  expenses db !! Expense.id e = None ->
  or_empty_strip (Py.dict_get d "category") = Ok (Expense.category e) /\
  or_empty_strip (Py.dict_get d "description") = Ok (Expense.description e) /\
  or_empty_strip (Py.dict_get d "date") = Ok (Expense.date e) /\
  Expense.created_at e = now /\
  exists paise,
    _parse_amount (Py.dict_get d "amount") = Ok (Some paise, None) /\
    float.truediv paise 100 = Ok (Expense.amount e) /\
    expenses db' !! Expense.id e
    = Some (Row.mk paise (Expense.category e) (Expense.description e) (Expense.date e) now).
Proof.
  intros Hj Hc Hfresh. apply create_expense_cases in Hc
    as [[_ Hno]|[(a & c & de & dt & r0 & e0 & _ & _ & Hf & _ & He & [= <-])
                |(p & c & de & dt & e0 & Hv & _ & _ & _ & -> & He & [= <-])]].
  - by destruct (Hno e).
  - apply find_existing_sound in Hf as (k & _ & _ & Hrow).
    apply row_to_expense_inv in He as (Hid & _). rewrite Hid in Hfresh. congruence.
  - rewrite Hj in Hv. apply validate_dict_accepted in Hv as (H1 & H2 & H3 & H4).
    apply row_to_expense_inv in He as (Hid & -> & -> & -> & -> & Hdiv).
    cbn [fst snd Row.category Row.description Row.date Row.created_at Row.amount_paise] in *.
    repeat split; try done.
    exists p. repeat split; try done.
    rewrite Hid. cbn [expenses]. by rewrite lookup_insert_eq.
Qed.

Lemma create_expense_echoes_request_witness :
  or_empty_strip (Py.dict_get ALL_FIELDS_PADDED "category") = Ok (Expense.category PADDED_EXPENSE) /\
  or_empty_strip (Py.dict_get ALL_FIELDS_PADDED "description")
    = Ok (Expense.description PADDED_EXPENSE) /\
  or_empty_strip (Py.dict_get ALL_FIELDS_PADDED "date") = Ok (Expense.date PADDED_EXPENSE) /\
  Expense.created_at PADDED_EXPENSE = "2025-02-19T08:00:00Z" /\
  exists paise,
    _parse_amount (Py.dict_get ALL_FIELDS_PADDED "amount") = Ok (Some paise, None) /\
    float.truediv paise 100 = Ok (Expense.amount PADDED_EXPENSE) /\
    expenses (create_expense EMPTY_DB PADDED_REQUEST "2025-02-19T08:00:00Z").1
      !! Expense.id PADDED_EXPENSE
    = Some (Row.mk paise (Expense.category PADDED_EXPENSE) (Expense.description PADDED_EXPENSE)
                   (Expense.date PADDED_EXPENSE) "2025-02-19T08:00:00Z").
Proof.
  apply (create_expense_echoes_request EMPTY_DB _ PADDED_REQUEST "2025-02-19T08:00:00Z"
           ALL_FIELDS_PADDED PADDED_EXPENSE).
  - reflexivity.
  - vm_compute. reflexivity.
  - reflexivity.
Defined.

(** X8.  Input of the wrong type is not answered 400: a body that
    parses to a truthy value other than an object (an array, a number, a
    text, [true]) makes the handler raise [AttributeError] on
    [data.get]; so does an object whose category is truthy and no text,
    and that before the amount is looked at.  Nothing is written. *)
Theorem create_expense_raises_on_wrong_types (db : DB) (req : Request) (now : string) :
  (Py.truthy (get_json req) = true -> (forall d, get_json req <> PyDict d) ->
   create_expense db req now = (db, Raise AttributeError)) /\
  (forall d, get_json req = PyDict d ->
     Py.truthy (Py.dict_get d "category") = true ->
     (forall s, Py.dict_get d "category" <> PyStr s) ->
     create_expense db req now = (db, Raise AttributeError)).
Proof.
  unfold create_expense, validate. split.
  - intros Ht Hd. rewrite Ht. cbn [negb].
    destruct (get_json req) as [| | | | | |d]; try done. by destruct (Hd d).
  - intros d -> Ht Hs.
    assert (Py.truthy (PyDict d) = true) as ->.
    { destruct d; [|done]. by simpl in Ht. }
    cbn [negb data_get mbind res_bind].
    assert (or_empty_strip (Py.dict_get d "category") = Raise AttributeError) as ->; [|done].
    unfold or_empty_strip. rewrite Ht.
    destruct (Py.dict_get d "category"); try done. by destruct (Hs s).
Qed.

Lemma create_expense_raises_on_wrong_types_witness :
  create_expense EMPTY_DB ARRAY_REQUEST "2025-02-18T10:00:00Z"
    = (EMPTY_DB, Raise AttributeError) /\
  create_expense EMPTY_DB NUMERIC_CATEGORY_REQUEST "2025-02-18T10:00:00Z"
    = (EMPTY_DB, Raise AttributeError).
Proof.
  split.
  - apply (proj1 (create_expense_raises_on_wrong_types EMPTY_DB ARRAY_REQUEST
                    "2025-02-18T10:00:00Z")); [reflexivity|discriminate].
  - apply (proj2 (create_expense_raises_on_wrong_types EMPTY_DB NUMERIC_CATEGORY_REQUEST
                    "2025-02-18T10:00:00Z") NUMERIC_CATEGORY);
      [reflexivity|reflexivity|discriminate].
Defined.

(** X9.  An amount that passes the checks but needs more than 64 bits
    in minor units ([2^63] or more, while the parser lets through
    anything below [10^28]) is not answered 400: unless its key names a
    stored expense, the insert raises [OverflowError] and nothing is
    written. *)
Theorem create_expense_overflows (db : DB) (req : Request) (now : string)
    (paise : Z) (category description date : string) :
  validate (get_json req) = Ok (Accepted (Some paise) category description date) ->
  INT64_MAX < paise ->
  key_truthy (_get_idempotency_key req) = false \/
    idempotency_keys db !! default EmptyString (_get_idempotency_key req) = None ->
  create_expense db req now = (db, Raise OverflowError).
Proof.
  intros Hv Hbig Hkey. unfold create_expense, store_expense. rewrite Hv.
  assert ((if key_truthy (_get_idempotency_key req)
           then find_existing db (default EmptyString (_get_idempotency_key req))
           else None) = None) as ->.
  { destruct (key_truthy _); [|done]. destruct Hkey as [|Hk]; [done|].
    unfold find_existing. by rewrite Hk. }
  destruct (Z.ltb_spec paise INT64_MIN); [done|].
  destruct (Z.ltb_spec INT64_MAX paise); [done|lia].
Qed.

Lemma create_expense_overflows_witness :
  create_expense EMPTY_DB HUGE_AMOUNT_REQUEST "2025-02-18T10:00:00Z"
  = (EMPTY_DB, Raise OverflowError).
Proof.
  apply (create_expense_overflows EMPTY_DB HUGE_AMOUNT_REQUEST "2025-02-18T10:00:00Z"
           (10 ^ 19) "Food" "" "2025-02-18").
  - vm_compute. reflexivity.
  - vm_compute. reflexivity.
  - right. reflexivity.
Defined.

(** * More on the listing *)

Lemma rows_ok_wf (db : DB) : rows_ok db -> db_wf db.
Proof.
  intros H i r Hir. destruct (H i r Hir) as [Ha _].
  unfold INT64_MIN. lia.
Qed.

Lemma Forall2_elem_of_r (rows : list row) (l : list Expense.t) (e : Expense.t) :
  Forall2 (fun r e => _row_to_expense r = Ok e) rows l ->
  e ∈ l <-> exists r, r ∈ rows /\ _row_to_expense r = Ok e.
Proof.
  induction 1 as [|r e' rows l Hre Hf IH].
  - split; [intros H; by apply elem_of_nil in H|intros (r & H & _); by apply elem_of_nil in H].
  - rewrite elem_of_cons, IH. split.
    + intros [->|(r' & Hin & He)]; [exists r|exists r']; rewrite elem_of_cons; auto.
    + intros (r' & Hin & He). apply elem_of_cons in Hin as [->|Hin].
      * left. congruence.
      * right. by exists r'.
Qed.

(** What is listed, said row by row. *)
Lemma get_expenses_elem (db : DB) (args_category args_sort : option string) :
  db_wf db ->
  exists l, get_expenses db args_category args_sort = Ok (JsonList l, 200) /\
    length l = length (select_expenses db (Text.strip (default EmptyString args_category))
                         (Text.strip (default EmptyString args_sort))) /\
    forall e, e ∈ l <->
      exists i r, expenses db !! i = Some r /\ _row_to_expense (i, r) = Ok e /\
        (Text.is_empty (Text.strip (default EmptyString args_category)) = false ->
         Row.category r = Text.strip (default EmptyString args_category)).
Proof.
  intros Hwf.
  set (category := Text.strip (default EmptyString args_category)).
  set (sort := Text.strip (default EmptyString args_sort)).
  destruct (mapM_row_to_expense _ (select_expenses_wf db category sort Hwf))
    as (l & Hl & Hf).
  exists l. split; [|split].
  - unfold get_expenses. fold category sort. by rewrite Hl.
  - symmetry. by eapply Forall2_length.
  - intros e. rewrite (Forall2_elem_of_r _ _ _ Hf). split.
    + intros ([i r] & Hin & He). rewrite select_expenses_perm in Hin.
      exists i, r. destruct (Text.is_empty category) eqn:Hc.
      * apply elem_of_map_to_list in Hin. done.
      * apply list_elem_of_filter in Hin as [Hcat Hin].
        apply elem_of_map_to_list in Hin. done.
    + intros (i & r & Hir & He & Hcat). exists (i, r). split; [|done].
      rewrite select_expenses_perm. apply elem_of_map_to_list in Hir.
      destruct (Text.is_empty category) eqn:Hc; [done|].
      apply list_elem_of_filter. split; [|done]. by apply Hcat.
Qed.

Lemma is_empty_false (s : string) : s <> EmptyString -> Text.is_empty s = false.
Proof. by destruct s. Qed.

(** A 201 names a stored row: the one the key led to, or the new one. *)
Lemma create_expense_row db req now db' e :
  create_expense db req now = (db', Ok (JsonExpense e, 201)) ->
  exists r, expenses db' !! Expense.id e = Some r /\
    _row_to_expense (Expense.id e, r) = Ok e /\
    (expenses db !! Expense.id e = Some r \/
     Row.category r <> EmptyString /\ Text.strip (Row.category r) = Row.category r).
Proof.
  intros Hc. apply create_expense_cases in Hc
    as [[_ Hno]|[(a & c & de & dt & [i r] & e0 & _ & _ & Hf & -> & He & [= <-])
                |(p & c & de & dt & e0 & Hv & _ & _ & _ & -> & He & [= <-])]].
  - by destruct (Hno e).
  - apply find_existing_sound in Hf as (k & _ & _ & Hrow).
    pose proof (row_to_expense_inv _ _ He) as (-> & _).
    exists r. auto.
  - pose proof (row_to_expense_inv _ _ He) as (-> & _).
    eexists. cbn [expenses fst]. rewrite lookup_insert_eq. split; [done|]. split; [done|].
    right. apply validate_accepted in Hv as (_ & Hc & Hsc & _). done.
Qed.

(** X10.  What a 201 answers is what the list shows: over a table whose
    rows satisfy the checks, the expense [create_expense] answers with,
    newly stored or found by its key, is an entry of the unfiltered list
    and of the list filtered by its own category, whatever the sort
    parameter; it is no entry of the list filtered by another category. *)
Theorem created_expense_is_listed (db db' : DB) (req : Request) (now : string)
    (e : Expense.t) (args_sort : option string) :
  rows_ok db ->
  create_expense db req now = (db', Ok (JsonExpense e, 201)) ->
  (exists l, get_expenses db' None args_sort = Ok (JsonList l, 200) /\ e ∈ l) /\
  (exists l, get_expenses db' (Some (Expense.category e)) args_sort = Ok (JsonList l, 200) /\
             e ∈ l) /\
  (forall c, Text.strip c <> EmptyString -> Text.strip c <> Expense.category e ->
     exists l, get_expenses db' (Some c) args_sort = Ok (JsonList l, 200) /\ e ∉ l).
Proof.
  intros Hok Hc.
  assert (db_wf db') as Hwf by (by eapply rows_ok_wf, rows_ok_step).
  destruct (create_expense_row _ _ _ _ _ Hc) as (r & Hr & He & Hcat).
  assert (Row.category r <> EmptyString /\ Text.strip (Row.category r) = Row.category r)
    as [Hne Hst].
  { destruct Hcat as [Hold|]; [|done]. by destruct (Hok _ _ Hold) as (_ & ? & ? & _). }
  pose proof (row_to_expense_inv _ _ He) as (_ & Hce & _). cbn [snd] in Hce.
  split; [|split].
  - destruct (get_expenses_elem db' None args_sort Hwf) as (l & Hl & _ & Hin).
    exists l. split; [done|]. apply Hin. exists (Expense.id e), r.
    split; [done|]. split; [done|]. done.
  - destruct (get_expenses_elem db' (Some (Expense.category e)) args_sort Hwf)
      as (l & Hl & _ & Hin).
    exists l. split; [done|]. apply Hin. exists (Expense.id e), r.
    split; [done|]. split; [done|]. intros _. cbn [default from_option id]. rewrite Hce. by rewrite Hst.
  - intros c Hc1 Hc2.
    destruct (get_expenses_elem db' (Some c) args_sort Hwf) as (l & Hl & _ & Hin).
    exists l. split; [done|]. rewrite Hin. intros (i & r' & _ & He' & Hcat').
    apply row_to_expense_inv in He' as (_ & Hce' & _). cbn [snd default from_option id] in *.
    apply Hc2. rewrite Hce'. symmetry. apply Hcat'. by apply is_empty_false.
Qed.

Lemma mapM_of_Forall2 (rows : list row) (l : list Expense.t) :
  Forall2 (fun r e => _row_to_expense r = Ok e) rows l ->
  mapM _row_to_expense rows = Ok l.
Proof.
  induction 1 as [|r e rows l Hre Hf IH]; [done|].
  cbn [mapM]. rewrite Hre. cbn [mbind res_bind]. by rewrite IH.
Qed.

Lemma Sorted_weaken {A} (R R' : relation A) (l : list A) :
  (forall x y, R x y -> R' x y) -> Sorted R l -> Sorted R' l.
Proof.
  intros HR. induction 1 as [|x l Hs IH Hhd]; constructor; [done|].
  destruct Hhd; constructor; auto.
Qed.

Lemma lex_desc_antisym d1 c1 d2 c2 :
  lex_desc d1 c1 d2 c2 -> lex_desc d2 c2 d1 c1 -> d1 = d2 /\ c1 = c2.
Proof.
  unfold lex_desc. intros [H12|[-> H12]] [H21|[E H21]].
  - exfalso. eapply text_lt_irrefl, text_lt_trans; eauto.
  - subst. by destruct (text_lt_irrefl d1).
  - by destruct (text_lt_irrefl d2).
  - split; [done|]. by destruct (text_trichotomy c1 c2) as [?|[?|?]].
Qed.

(** The rows a query selects are rows of the table. *)
Lemma select_expenses_stored (db : DB) (category sort : string) (r : row) :
  r ∈ select_expenses db category sort -> expenses db !! r.1 = Some r.2.
Proof.
  rewrite select_expenses_perm. destruct r as [i r].
  destruct (Text.is_empty category).
  - intros H. by apply elem_of_map_to_list in H.
  - intros [_ H]%list_elem_of_filter. by apply elem_of_map_to_list in H.
Qed.

Lemma select_expenses_asc_desc (db : DB) (category sort : string) :
  sort_keys_distinct db -> sort <> "date_asc" ->
  select_expenses db category "date_asc" = reverse (select_expenses db category sort).
Proof.
  intros Hd Hs.
  apply (StronglySorted_unique_strong OrderAsc).
  - intros [i r1] [j r2] H1 H2 H12 H21.
    apply select_expenses_stored in H1.
    apply elem_of_reverse, select_expenses_stored in H2.
    apply order_asc_lex in H12, H21.
    destruct (lex_desc_antisym _ _ _ _ H12 H21) as [Hdt Hct].
    cbn [fst snd] in *.
    assert (i = j) as -> by (by eapply Hd).
    congruence.
  - by apply select_expenses_sorted.
  - apply Sorted_StronglySorted; [apply _|].
    apply (Sorted_weaken (flip OrderDesc)).
    + intros x y. unfold flip. rewrite order_desc_lex, order_asc_lex. done.
    + apply Sorted_reverse, StronglySorted_Sorted. by apply select_expenses_sorted.
  - rewrite reverse_Permutation, !select_expenses_perm. done.
Qed.

Lemma sort_keys_distinct_check (db : DB) :
  sort_keys_distinct_b db = true -> sort_keys_distinct db.
Proof.
  unfold sort_keys_distinct_b. rewrite forallb_forall. intros H i j r1 r2 H1 H2 Hd Hc.
  apply elem_of_map_to_list, list_elem_of_In in H1, H2.
  specialize (H _ H1). rewrite forallb_forall in H. specialize (H _ H2).
  cbn [fst snd] in H. rewrite Hd, Hc, !String.eqb_refl in H. simpl in H. lia.
Qed.

(** X11.  The list has one entry for each selected row: the ids in an
    answer are pairwise distinct, a filtered answer has no more entries
    than the table has rows, and the unfiltered answer has exactly as
    many. *)
Theorem get_expenses_lists_each_row_once (db : DB) (args_category args_sort : option string) :
  db_wf db ->
  exists l, get_expenses db args_category args_sort = Ok (JsonList l, 200) /\
    NoDup (Expense.id <$> l) /\
    (length l <= size (expenses db))%nat /\
    (Text.strip (default EmptyString args_category) = EmptyString ->
     length l = size (expenses db)).
Proof.
  intros Hwf.
  set (category := Text.strip (default EmptyString args_category)).
  set (sort := Text.strip (default EmptyString args_sort)).
  destruct (mapM_row_to_expense _ (select_expenses_wf db category sort Hwf))
    as (l & Hl & Hf).
  exists l. split; [|split; [|split]].
  - unfold get_expenses. fold category sort. by rewrite Hl.
  - assert (Expense.id <$> l = (select_expenses db category sort).*1) as ->.
    { clear Hl. induction Hf as [|r e rows l' Hre Hf IH]; [done|].
      cbn [fmap list_fmap]. apply row_to_expense_inv in Hre as (-> & _). by f_equal. }
    rewrite select_expenses_perm.
    pose proof (NoDup_fst_map_to_list (expenses db)) as Hnd.
    destruct (Text.is_empty category); [done|].
    eapply sublist_NoDup; [exact Hnd|]. apply fmap_sublist, sublist_filter.
  - rewrite <- (Forall2_length _ _ _ Hf), select_expenses_perm, <- length_map_to_list.
    destruct (Text.is_empty category); [done|]. apply length_filter.
  - intros Hc. rewrite <- (Forall2_length _ _ _ Hf), select_expenses_perm, Hc.
    cbn [Text.is_empty]. apply length_map_to_list.
Qed.

(** X12.  When no two stored rows agree on both the date and the
    creation time, [sort=date_asc] lists the selected rows in exactly the
    reverse of the order any other value of [sort] gives. *)
Theorem get_expenses_asc_reverses_desc (db : DB) (args_category args_sort : option string) :
  db_wf db -> sort_keys_distinct db ->
  Text.strip (default EmptyString args_sort) <> "date_asc" ->
  exists l, get_expenses db args_category args_sort = Ok (JsonList l, 200) /\
    get_expenses db args_category (Some "date_asc") = Ok (JsonList (reverse l), 200).
Proof.
  intros Hwf Hd Hs.
  set (category := Text.strip (default EmptyString args_category)).
  set (sort := Text.strip (default EmptyString args_sort)) in *.
  destruct (mapM_row_to_expense _ (select_expenses_wf db category sort Hwf))
    as (l & Hl & Hf).
  exists l. unfold get_expenses. fold category sort. rewrite Hl. split; [done|].
  change (Text.strip (default EmptyString (Some "date_asc"))) with "date_asc".
  rewrite (select_expenses_asc_desc db category sort Hd Hs).
  by rewrite (mapM_of_Forall2 _ _ (Forall2_reverse _ _ _ Hf)).
Qed.

Lemma get_expenses_asc_reverses_desc_witness :
  exists l, get_expenses THREE_DATES_DB None (Some " newest ") = Ok (JsonList l, 200) /\
    get_expenses THREE_DATES_DB None (Some "date_asc") = Ok (JsonList (reverse l), 200).
Proof.
  apply (get_expenses_asc_reverses_desc THREE_DATES_DB None (Some " newest ")).
  - apply db_wf_check. vm_compute. reflexivity.
  - apply sort_keys_distinct_check. vm_compute. reflexivity.
  - vm_compute. discriminate.
Defined.

Lemma rows_ok_empty : rows_ok EMPTY_DB.
Proof. intros i r H. unfold EMPTY_DB in H. simpl in H. by rewrite lookup_empty in H. Qed.

Lemma created_expense_is_listed_witness :
  (exists l, get_expenses BUS_FARE_DB None None = Ok (JsonList l, 200) /\
             BUS_FARE_EXPENSE ∈ l) /\
  (exists l, get_expenses BUS_FARE_DB (Some (Expense.category BUS_FARE_EXPENSE)) None
             = Ok (JsonList l, 200) /\ BUS_FARE_EXPENSE ∈ l) /\
  (forall c, Text.strip c <> EmptyString ->
     Text.strip c <> Expense.category BUS_FARE_EXPENSE ->
     exists l, get_expenses BUS_FARE_DB (Some c) None = Ok (JsonList l, 200) /\
               BUS_FARE_EXPENSE ∉ l).
Proof.
  apply (created_expense_is_listed EMPTY_DB BUS_FARE_DB BUS_FARE_REQUEST
           "2025-02-18T10:00:00Z" BUS_FARE_EXPENSE None).
  - apply rows_ok_empty.
  - vm_compute. reflexivity.
Defined.

Lemma get_expenses_lists_each_row_once_witness :
  exists l, get_expenses THREE_CATEGORIES_DB (Some "Food") None = Ok (JsonList l, 200) /\
    NoDup (Expense.id <$> l) /\
    (length l <= size (expenses THREE_CATEGORIES_DB))%nat /\
    (Text.strip (default EmptyString (Some "Food")) = EmptyString ->
     length l = size (expenses THREE_CATEGORIES_DB)).
Proof.
  apply (get_expenses_lists_each_row_once THREE_CATEGORIES_DB (Some "Food") None).
  apply db_wf_check. vm_compute. reflexivity.
Defined.

(** * More on the money parser *)

Section PlainTextFacts.
Import Text.

Lemma append_cons (c : ascii) (s r : string) : String c s +:+ r = String c (s +:+ r).
Proof. reflexivity. Qed.

Lemma append_empty_r (s : string) : s +:+ EmptyString = s.
Proof. induction s as [|c s IH]; [done|]. rewrite append_cons. by f_equal. Qed.

Lemma digit_not_special c :
  is_digit c = true ->
  is_space c = false /\ Ascii.eqb c "_" = false /\ c <> "-"%char /\ c <> "+"%char /\
  c <> "."%char.
Proof.
  destruct c as [[] [] [] [] [] [] [] []]; vm_compute; intros H; try discriminate H;
    repeat split; discriminate.
Qed.

Lemma digit_char_digit (k : Z) :
  0 <= k <= 9 ->
  is_digit (ascii_of_N (Z.to_N (48 + k))) = true /\
  digit_val (ascii_of_N (Z.to_N (48 + k))) = k.
Proof.
  intros Hk. unfold is_digit, digit_val.
  rewrite N_ascii_embedding by lia. rewrite Z2N.id by lia. lia.
Qed.

Lemma rstrip_app_digits i r :
  all_digits i = true -> rstrip (i +:+ r) = i +:+ rstrip r.
Proof.
  induction i as [|c i IH]; [done|]. rewrite append_cons. cbn [all_digits].
  intros [Hc Hi]%andb_true_iff.
  destruct (digit_not_special c Hc) as (Hsp & _).
  rewrite (rstrip_cons_nonspace _ _ Hsp). by rewrite IH.
Qed.

Lemma remove_underscores_app_digits i r :
  all_digits i = true ->
  decimal.remove_underscores (i +:+ r) = i +:+ decimal.remove_underscores r.
Proof.
  induction i as [|c i IH]; [done|]. rewrite append_cons. cbn [all_digits].
  intros [Hc Hi]%andb_true_iff.
  destruct (digit_not_special c Hc) as (_ & Hu & _).
  cbn [decimal.remove_underscores]. rewrite Hu. by rewrite IH.
Qed.

Lemma span_digits_app i r :
  all_digits i = true ->
  span_digits (i +:+ r) = ((i +:+ (span_digits r).1), (span_digits r).2).
Proof.
  induction i as [|c i IH].
  { change (EmptyString +:+ r) with r. by destruct (span_digits r). }
  rewrite append_cons. cbn [all_digits]. intros [Hc Hi]%andb_true_iff.
  cbn [span_digits]. rewrite Hc, (IH Hi). done.
Qed.

Lemma digits_val_app s1 s2 : forall acc,
  digits_val acc (s1 +:+ s2) = digits_val (digits_val acc s1) s2.
Proof. induction s1 as [|c s1 IH]; intros acc; [done|]. rewrite append_cons. cbn [digits_val]. apply IH. Qed.

Lemma digits_val_bound s : forall acc,
  all_digits s = true -> 0 <= acc ->
  acc * 10 ^ Z.of_nat (String.length s) <= digits_val acc s
    < (acc + 1) * 10 ^ Z.of_nat (String.length s).
Proof.
  induction s as [|c s IH]; intros acc Hs Hacc.
  - simpl. lia.
  - cbn [all_digits] in Hs. apply andb_true_iff in Hs as [Hc Hs].
    pose proof (digit_val_nonneg c Hc) as Hd.
    cbn [digits_val String.length]. rewrite Nat2Z.inj_succ, Z.pow_succ_r by lia.
    specialize (IH (10 * acc + digit_val c) Hs ltac:(lia)).
    assert (0 < 10 ^ Z.of_nat (String.length s)) by (apply Z.pow_pos_nonneg; lia).
    nia.
Qed.

(** The text [str] prints for a number that is not negative: digits
    only, at least one, and they denote the number. *)
Lemma digits_of_pos_fuel_spec (f : nat) : forall n acc,
  (0 < f)%nat -> 0 <= n < 2 ^ Z.of_nat f -> all_digits acc = true ->
  all_digits (digits_of_pos_fuel f n acc) = true /\
  digits_of_pos_fuel f n acc <> EmptyString /\
  digits_val 0 (digits_of_pos_fuel f n acc) = digits_val n acc.
Proof.
  induction f as [|f IH]; intros n acc Hf Hn Hacc; [lia|].
  cbn [digits_of_pos_fuel].
  assert (0 <= n mod 10 <= 9) as Hr by (pose proof (Z.mod_pos_bound n 10); lia).
  destruct (digit_char_digit _ Hr) as [Hd Hv].
  destruct (Z.ltb_spec n 10) as [Hlt|Hge].
  - split; [|split; [done|]].
    + cbn [all_digits]. by rewrite Hd, Hacc.
    + cbn [digits_val]. rewrite Hv. f_equal. rewrite Z.mod_small; lia.
  - rewrite Nat2Z.inj_succ, Z.pow_succ_r in Hn by lia.
    assert (0 <= n / 10 < 2 ^ Z.of_nat f) as Hq.
    { split; [apply Z.div_pos; lia|].
      apply Z.div_lt_upper_bound; lia. }
    assert (0 < f)%nat as Hf'.
    { destruct f; [|lia]. simpl in Hq. assert (1 <= n / 10); [|lia].
      apply Z.div_le_lower_bound; lia. }
    destruct (IH (n / 10) (String (ascii_of_N (Z.to_N (48 + n mod 10))) acc) Hf' Hq)
      as (H1 & H2 & H3).
    { cbn [all_digits]. by rewrite Hd, Hacc. }
    split; [done|]. split; [done|].
    rewrite H3. cbn [digits_val]. rewrite Hv. f_equal.
    pose proof (Z.div_mod n 10). lia.
Qed.

(** There are as many digits as the number needs, and no more. *)
Lemma digits_of_pos_fuel_length (f : nat) : forall n acc,
  (0 < f)%nat -> 0 <= n < 2 ^ Z.of_nat f ->
  let len := Z.of_nat (String.length (digits_of_pos_fuel f n acc))
             - Z.of_nat (String.length acc) in
  1 <= len /\ (0 < n -> 10 ^ (len - 1) <= n) /\ n < 10 ^ len.
Proof.
  induction f as [|f IH]; intros n acc Hf Hn; [lia|].
  cbn [digits_of_pos_fuel]. cbv zeta.
  destruct (Z.ltb_spec n 10) as [Hlt|Hge].
  - cbn [String.length]. rewrite Nat2Z.inj_succ.
    replace (Z.succ (Z.of_nat (String.length acc)) - Z.of_nat (String.length acc)) with 1
      by lia.
    change (10 ^ (1 - 1)) with 1. change (10 ^ 1) with 10. lia.
  - rewrite Nat2Z.inj_succ, Z.pow_succ_r in Hn by lia.
    assert (0 <= n / 10 < 2 ^ Z.of_nat f) as Hq.
    { split; [apply Z.div_pos; lia|].
      apply Z.div_lt_upper_bound; lia. }
    assert (1 <= n / 10) as Hq1 by (apply Z.div_le_lower_bound; lia).
    assert (0 < f)%nat as Hf'.
    { destruct f; [|lia]. simpl in Hq. lia. }
    pose proof (IH (n / 10) (String (ascii_of_N (Z.to_N (48 + n mod 10))) acc) Hf' Hq)
      as (H1 & H2 & H3).
    cbn [String.length] in H1, H2, H3. rewrite Nat2Z.inj_succ in H1, H2, H3.
    set (len' := Z.of_nat (String.length
                   (digits_of_pos_fuel f (n / 10)
                      (String (ascii_of_N (Z.to_N (48 + n mod 10))) acc)))
                 - Z.succ (Z.of_nat (String.length acc))) in *.
    match goal with
    | |- context [?a - Z.of_nat (String.length acc)] =>
        replace (a - Z.of_nat (String.length acc)) with (len' + 1) by (subst len'; lia)
    end.
    replace (len' + 1 - 1) with (Z.succ (len' - 1)) by lia.
    rewrite Z.pow_succ_r by lia. rewrite Z.pow_add_r by lia. change (10 ^ 1) with 10.
    specialize (H2 ltac:(lia)). pose proof (Z.div_mod n 10 ltac:(lia)) as Hdm.
    pose proof (Z.mod_pos_bound n 10 ltac:(lia)). lia.
Qed.

(** [str] prints an [int] of up to 4300 digits, sign and digits, and
    refuses a longer one. *)
Lemma str_of_int_spec (n : Z) :
  (Z.abs n < 10 ^ INT_MAX_STR_DIGITS ->
   exists ds, str_of_int n = Ok (if n <? 0 then String "-" ds else ds) /\
     all_digits ds = true /\ ds <> EmptyString /\ digits_val 0 ds = Z.abs n) /\
  (10 ^ INT_MAX_STR_DIGITS <= Z.abs n -> str_of_int n = Raise ValueError).
Proof.
  unfold str_of_int.
  set (m := Z.abs n). set (f := S (Z.to_nat (Z.log2 m))).
  assert (0 < f)%nat as Hf by (subst f; lia).
  assert (0 <= m < 2 ^ Z.of_nat f) as Hm.
  { subst f. rewrite Nat2Z.inj_succ, Z2Nat.id by apply Z.log2_nonneg.
    split; [subst m; lia|].
    destruct (Z.eq_dec m 0) as [->|Hm]; [done|].
    apply Z.log2_spec. subst m. lia. }
  destruct (digits_of_pos_fuel_spec f m EmptyString Hf Hm eq_refl) as (H1 & H2 & H3).
  pose proof (digits_of_pos_fuel_length f m EmptyString Hf Hm) as (L1 & L2 & L3).
  cbn [String.length] in L1, L2, L3. rewrite Z.sub_0_r in L1, L2, L3.
  set (len := Z.of_nat (String.length (digits_of_pos_fuel f m EmptyString))) in *.
  assert (0 <= INT_MAX_STR_DIGITS) as Hlim by done.
  split.
  - intros Hsmall. exists (digits_of_pos_fuel f m EmptyString).
    split; [|done].
    destruct (Z.ltb_spec INT_MAX_STR_DIGITS len) as [Hlong|]; [|done].
    exfalso. destruct (Z.eq_dec m 0) as [Hz|Hnz].
    + assert (0 < 10 ^ INT_MAX_STR_DIGITS) by (apply Z.pow_pos_nonneg; lia).
      assert (len = 1); [|unfold INT_MAX_STR_DIGITS in Hlong; lia].
      subst len f. rewrite Hz. done.
    + specialize (L2 ltac:(lia)).
      assert (10 ^ INT_MAX_STR_DIGITS <= 10 ^ (len - 1)) by (apply Z.pow_le_mono_r; lia).
      lia.
  - intros Hbig. destruct (Z.ltb_spec INT_MAX_STR_DIGITS len) as [|Hshort]; [done|].
    exfalso.
    assert (10 ^ len <= 10 ^ INT_MAX_STR_DIGITS) by (apply Z.pow_le_mono_r; lia).
    lia.
Qed.

End PlainTextFacts.

Section PlainNumberFacts.
Import Text decimal.

Lemma rstrip_digits i : all_digits i = true -> rstrip i = i.
Proof.
  intros Hi. rewrite <- (append_empty_r i) at 1.
  rewrite (rstrip_app_digits _ _ Hi). apply append_empty_r.
Qed.

Lemma remove_underscores_digits i : all_digits i = true -> remove_underscores i = i.
Proof.
  intros Hi. rewrite <- (append_empty_r i) at 1.
  rewrite (remove_underscores_app_digits _ _ Hi). apply append_empty_r.
Qed.

Lemma span_digits_digits i : all_digits i = true -> span_digits i = (i, EmptyString).
Proof.
  intros Hi. rewrite <- (append_empty_r i) at 1.
  rewrite (span_digits_app _ _ Hi). simpl. by rewrite append_empty_r.
Qed.

Lemma parse_sign_digit c r :
  is_digit c = true -> parse_sign (String c r) = (false, String c r).
Proof. destruct c as [[] [] [] [] [] [] [] []]; vm_compute; intros H; done. Qed.

Lemma plain_body i f tail :
  all_digits i = true -> i <> EmptyString -> all_digits f = true ->
  (f = EmptyString /\ tail = EmptyString) \/ tail = String "." f ->
  rstrip (i +:+ tail) = i +:+ tail /\
  remove_underscores (i +:+ tail) = i +:+ tail /\
  (exists c r, i +:+ tail = String c r /\ is_digit c = true) /\
  forall sg, parse_number sg (i +:+ tail)
             = Some (Finite sg (digits_val 0 (i +:+ f)) (- Z.of_nat (String.length f))).
Proof.
  intros Hi Hne Hf Ht. split; [|split; [|split]].
  - rewrite (rstrip_app_digits _ _ Hi). f_equal. destruct Ht as [[-> ->]| ->]; [done|].
    rewrite rstrip_cons_nonspace by done. by rewrite (rstrip_digits _ Hf).
  - rewrite (remove_underscores_app_digits _ _ Hi). f_equal. destruct Ht as [[-> ->]| ->]; [done|].
    cbn [remove_underscores]. change (Ascii.eqb "." "_") with false. cbn iota.
    by rewrite (remove_underscores_digits _ Hf).
  - destruct i as [|c i]; [done|]. exists c, (i +:+ tail). split; [done|].
    cbn [all_digits] in Hi. by apply andb_true_iff in Hi as [-> _].
  - intros sg. unfold parse_number. rewrite (span_digits_app _ _ Hi).
    destruct Ht as [[-> ->]| ->].
    + cbn [span_digits fst snd]. rewrite !append_empty_r.
      destruct i; [done|]. done.
    + change (span_digits (String "." f)) with (EmptyString, String "." f).
      cbn [fst snd]. rewrite append_empty_r, (span_digits_digits _ Hf).
      destruct i; [done|]. done.
Qed.

Lemma of_string_plain (sg : bool) (i f tail : string) (k : Z) :
  all_digits i = true -> i <> EmptyString -> all_digits f = true ->
  (f = EmptyString /\ tail = EmptyString) \/ tail = String "." f ->
  Z.of_nat (String.length f) <= 2 ->
  0 <= k <= 10 ^ 18 -> digits_val 0 (i +:+ f) < 10 ^ k ->
  of_string ((if sg then "-" else EmptyString) +:+ i +:+ tail)
  = Ok (Finite sg (digits_val 0 (i +:+ f)) (- Z.of_nat (String.length f))).
Proof.
  intros Hi Hne Hf Ht Hlen Hk Hc.
  destruct (plain_body i f tail Hi Hne Hf Ht) as (Hr & Hu & (c & r & Hb & Hd) & Hp).
  assert (0 <= digits_val 0 (i +:+ f)) as Hc0.
  { apply digits_val_nonneg; [by apply all_digits_app|lia]. }
  destruct (digit_not_special c Hd) as (Hsp & _).
  assert (parse_sign (remove_underscores (strip ((if sg then "-" else EmptyString)
                                                  +:+ i +:+ tail)))
          = (sg, i +:+ tail)) as Hsign.
  { destruct sg.
    - change ("-" +:+ i +:+ tail) with (String "-" (i +:+ tail)).
      unfold strip. cbn [lstrip]. change (is_space "-") with false. cbn iota.
      rewrite rstrip_cons_nonspace by done. rewrite Hr.
      cbn [remove_underscores]. change (Ascii.eqb "-" "_") with false. cbn iota.
      by rewrite Hu.
    - change (EmptyString +:+ i +:+ tail) with (i +:+ tail).
      unfold strip. rewrite Hb. cbn [lstrip]. rewrite Hsp. rewrite <- Hb, Hr, Hu, Hb.
      by apply parse_sign_digit. }
  unfold of_string. rewrite Hsign, Hp. unfold exact.
  destruct (Z.eqb_spec (digits_val 0 (i +:+ f)) 0) as [Hz|Hnz].
  - destruct (Z.ltb_spec (- Z.of_nat (String.length f)) MIN_ETINY) as [H|H];
      [unfold MIN_ETINY in H; lia|].
    destruct (Z.ltb_spec MAX_EMAX (- Z.of_nat (String.length f))) as [H'|H'];
      [unfold MAX_EMAX in H'; lia|]. done.
  - destruct (Z.ltb_spec (- Z.of_nat (String.length f)) MIN_ETINY) as [H|H];
      [unfold MIN_ETINY in H; lia|].
    assert (ndigits (digits_val 0 (i +:+ f)) <= k) as Hnd by (apply ndigits_le; lia).
    destruct (Z.ltb_spec MAX_EMAX
                (adjusted (digits_val 0 (i +:+ f)) (- Z.of_nat (String.length f))))
      as [H'|H']; [|done].
    unfold adjusted, MAX_EMAX in H'. lia.
Qed.

End PlainNumberFacts.

(** X13.  Integer amounts: a negative [int] is answered "Amount must be
    non-negative"; one from 0 up to, but not including, [10^26] gives
    exactly a hundred times itself in minor units; one of [10^26] or more
    is answered "Amount must be a valid number", the 28 digits of the
    decimal context being exceeded.  ([str] prints an [int] of up to 4300
    digits.) *)
Theorem parse_amount_integer (n : Z) :
  Z.abs n < 10 ^ 4300 ->
  _parse_amount (PyInt n)
  = if n <? 0 then Ok (None, Some MSG_AMOUNT_NEGATIVE)
    else if n <? 10 ^ 26 then Ok (Some (100 * n), None)
    else Ok (None, Some MSG_AMOUNT_INVALID).
Proof.
  intros Hn. rewrite parse_amount_unfold by done.
  unfold amount_decimal. cbn [Py.str Py.repr].
  destruct (proj1 (str_of_int_spec n) Hn) as (ds & -> & Hds & Hne & Hval).
  cbn [mbind res_bind].
  assert (decimal.of_string (if n <? 0 then String "-" ds else ds)
          = Ok (decimal.Finite (n <? 0) (Z.abs n) 0)) as ->.
  { pose proof (of_string_plain (n <? 0) ds EmptyString EmptyString 4300 Hds Hne eq_refl
                  (or_introl (conj eq_refl eq_refl))) as H.
    rewrite !append_empty_r, Hval in H. cbn [String.length] in H.
    change (- Z.of_nat 0) with 0 in H.
    rewrite <- H; [|lia|lia|done]. by destruct (n <? 0). }
  destruct (Z.ltb_spec n 0) as [Hneg|Hpos].
  - destruct (Z.eqb_spec (Z.abs n) 0); [lia|done].
  - cbn [andb]. unfold minor_units, MINOR_UNITS_LIMIT. cbn [Z.leb Z.opp Z.compare Z.add].
    change (10 ^ (0 + 2)) with 100.
    replace (Z.abs n * 100) with (100 * n) by lia.
    destruct (Z.ltb_spec (100 * n) (10 ^ 28)), (Z.ltb_spec n (10 ^ 26)); try done; lia.
Qed.

Lemma parse_amount_integer_witness :
  _parse_amount (PyInt 20)
  = if 20 <? 0 then Ok (None, Some MSG_AMOUNT_NEGATIVE)
    else if 20 <? 10 ^ 26 then Ok (Some (100 * 20), None)
    else Ok (None, Some MSG_AMOUNT_INVALID).
Proof. apply (parse_amount_integer 20). vm_compute. reflexivity. Defined.

(** Past the 4300 digits [str] raises, and the handler of
    [_parse_amount] answers for it, whatever the sign. *)
Lemma parse_amount_long_integer (n : Z) :
  10 ^ 4300 <= Z.abs n ->
  amount_decimal (PyInt n) = Raise ValueError /\
  _parse_amount (PyInt n) = Ok (None, Some MSG_AMOUNT_INVALID).
Proof.
  intros Hn.
  assert (amount_decimal (PyInt n) = Raise ValueError) as Hd.
  { unfold amount_decimal. cbn [Py.str Py.repr].
    by rewrite (proj2 (str_of_int_spec n) Hn). }
  split; [done|]. rewrite parse_amount_unfold by done. by rewrite Hd.
Qed.

(** X14.  Plain decimal text is converted without rounding: digits, a
    point and at most two more digits give the number the digits spell,
    in minor units; so do the digits alone when nothing follows the
    point, and a [float] whose [repr] is that text.  With a minus sign in
    front the text is answered "Amount must be non-negative", unless all
    its digits are zeros: minus zero is accepted as zero. *)
Theorem parse_amount_plain_text (i f : string) :
  Text.all_digits i = true -> i <> EmptyString ->
  Text.all_digits f = true -> (String.length f <= 2)%nat ->
  let paise := Text.digits_val 0 (i +:+ f) * 10 ^ (2 - Z.of_nat (String.length f)) in
  paise < MINOR_UNITS_LIMIT ->
  _parse_amount (PyStr (i +:+ "." +:+ f)) = Ok (Some paise, None) /\
  _parse_amount (PyFloat (i +:+ "." +:+ f)) = Ok (Some paise, None) /\
  (f = EmptyString -> _parse_amount (PyStr i) = Ok (Some paise, None)) /\
  _parse_amount (PyStr ("-" +:+ i +:+ "." +:+ f))
  = if paise =? 0 then Ok (Some 0, None) else Ok (None, Some MSG_AMOUNT_NEGATIVE).
Proof.
  intros Hi Hne Hf Hlen paise Hlim.
  set (c := Text.digits_val 0 (i +:+ f)) in *.
  assert (0 <= c) as Hc0.
  { apply digits_val_nonneg; [by apply all_digits_app|lia]. }
  assert (1 <= 10 ^ (2 - Z.of_nat (String.length f))) as Hpow.
  { pose proof (Z.pow_pos_nonneg 10 (2 - Z.of_nat (String.length f))). lia. }
  assert (c < 10 ^ 28) as Hc28 by (unfold MINOR_UNITS_LIMIT in Hlim; nia).
  assert (minor_units c (- Z.of_nat (String.length f)) = paise) as Hmu.
  { unfold minor_units. destruct (Z.leb_spec (-2) (- Z.of_nat (String.length f))); [|lia].
    subst paise. do 2 f_equal. lia. }
  assert (forall sg tail, (f = EmptyString /\ tail = EmptyString) \/ tail = String "." f ->
            amount_decimal (PyStr ((if sg : bool then "-" else EmptyString) +:+ i +:+ tail))
            = Ok (decimal.Finite sg c (- Z.of_nat (String.length f)))) as Hdec.
  { intros sg tail Ht. unfold amount_decimal. cbn [Py.str].
    apply (of_string_plain sg i f tail 28); try done; lia. }
  split; [|split; [|split]].
  - rewrite parse_amount_unfold by done.
    assert (amount_decimal (PyStr (i +:+ "." +:+ f))
            = Ok (decimal.Finite false c (- Z.of_nat (String.length f)))) as ->
      by exact (Hdec false (String "." f) (or_intror eq_refl)).
    cbn [andb]. rewrite Hmu. by destruct (Z.ltb_spec paise MINOR_UNITS_LIMIT); [|lia].
  - rewrite parse_amount_unfold by done.
    assert (amount_decimal (PyFloat (i +:+ "." +:+ f))
            = Ok (decimal.Finite false c (- Z.of_nat (String.length f)))) as ->
      by exact (Hdec false (String "." f) (or_intror eq_refl)).
    cbn [andb]. rewrite Hmu. by destruct (Z.ltb_spec paise MINOR_UNITS_LIMIT); [|lia].
  - intros Hfe. rewrite parse_amount_unfold by done.
    assert (amount_decimal (PyStr (i +:+ EmptyString))
            = Ok (decimal.Finite false c (- Z.of_nat (String.length f)))) as H
      by exact (Hdec false EmptyString (or_introl (conj Hfe eq_refl))).
    rewrite append_empty_r in H. rewrite H.
    cbn [andb]. rewrite Hmu. by destruct (Z.ltb_spec paise MINOR_UNITS_LIMIT); [|lia].
  - rewrite parse_amount_unfold by done.
    assert (amount_decimal (PyStr ("-" +:+ i +:+ "." +:+ f))
            = Ok (decimal.Finite true c (- Z.of_nat (String.length f)))) as ->
      by exact (Hdec true (String "." f) (or_intror eq_refl)).
    cbn [andb]. destruct (Z.eqb_spec c 0) as [Hz|Hnz].
    + cbn [negb]. rewrite Hmu.
      assert (paise = 0) as -> by (subst paise; rewrite Hz; lia). done.
    + cbn [negb]. destruct (Z.eqb_spec paise 0) as [Hp|]; [|done].
      subst paise. nia.
Qed.

Lemma parse_amount_plain_text_witness :
  _parse_amount (PyStr ("150" +:+ "." +:+ "5")) = Ok (Some 15050, None) /\
  _parse_amount (PyFloat ("150" +:+ "." +:+ "5")) = Ok (Some 15050, None) /\
  ("5" = EmptyString -> _parse_amount (PyStr "150") = Ok (Some 15050, None)) /\
  _parse_amount (PyStr ("-" +:+ "150" +:+ "." +:+ "5"))
  = if 15050 =? 0 then Ok (Some 0, None) else Ok (None, Some MSG_AMOUNT_NEGATIVE).
Proof.
  apply (parse_amount_plain_text "150" "5"); [reflexivity|discriminate|reflexivity| |].
  - simpl. lia.
  - vm_compute. reflexivity.
Defined.

(** * Dates *)

Section IsoDateFacts.
Import strptime.

Lemma match_Y_pad4 (y : Z) (r : string) :
  0 <= y <= 9999 -> match_Y (pad4 y +:+ r) = Some (y, r).
Proof.
  intros Hy.
  change (pad4 y +:+ r)
    with (String (digit_char (y / 1000)) (String (digit_char (y / 100 mod 10))
           (String (digit_char (y mod 100 / 10)) (String (digit_char (y mod 100 mod 10)) r)))).
  unfold match_Y, digit_char.
  destruct (digit_char_digit (y / 1000)) as [-> Ha]; [Z.div_mod_to_equations; lia|].
  destruct (digit_char_digit (y / 100 mod 10)) as [-> Hb]; [Z.div_mod_to_equations; lia|].
  destruct (digit_char_digit (y mod 100 / 10)) as [-> Hc]; [Z.div_mod_to_equations; lia|].
  destruct (digit_char_digit (y mod 100 mod 10)) as [-> Hd]; [Z.div_mod_to_equations; lia|].
  cbn [andb Text.digits_val]. rewrite Ha, Hb, Hc, Hd. do 2 f_equal.
  Z.div_mod_to_equations. lia.
Qed.

Lemma first_match_month {B : Type} (K : Z -> string -> option B) (a : nat) (t : string) :
  (a < 100)%nat ->
  let m := Z.of_nat a in
  first_match (match_m (pad2 m +:+ "-" +:+ t))
    (fun '(m, r2) =>
       match expect_dash r2 with
       | None => None
       | Some r3 => K m r3
       end)
  = if (1 <=? m) && (m <=? 12) then K m t else None.
Proof.
  intros Ha.
  do 100 (destruct a as [|a];
          [vm_compute; try reflexivity;
           match goal with |- context [K ?x ?r] => destruct (K x r) end; reflexivity|]).
  lia.
Qed.

Lemma first_match_day {B : Type} (K : Z -> string -> B) (b : nat) :
  (b < 100)%nat ->
  let d := Z.of_nat b in
  first_match (match_d (pad2 d)) (fun '(d, r4) => Some (K d r4))
  = if d =? 0 then None
    else if d <=? 31 then Some (K d EmptyString)
    else Some (K (d / 10) (String (digit_char (d mod 10)) EmptyString)).
Proof.
  intros Hb.
  do 100 (destruct b as [|b]; [vm_compute; reflexivity|]).
  lia.
Qed.

Lemma strptime_iso_date (y m d : Z) :
  0 <= y <= 9999 -> 0 <= m <= 99 -> 0 <= d <= 99 ->
  strptime (iso_date y m d) = if valid_date y m d then Ok (y, m, d) else Raise ValueError.
Proof.
  intros Hy Hm Hd.
  assert (days_in_month y m <= 31) as Hdm.
  { unfold days_in_month. repeat (destruct (_ =? _) || destruct (is_leap _)); simpl; lia. }
  unfold strptime, regex_match.
  change (iso_date y m d) with (pad4 y +:+ "-" +:+ pad2 m +:+ "-" +:+ pad2 d).
  rewrite match_Y_pad4 by lia.
  change (expect_dash ("-" +:+ pad2 m +:+ "-" +:+ pad2 d))
    with (Some (pad2 m +:+ "-" +:+ pad2 d)).
  cbv iota.
  pose proof (first_match_month
                (fun m r3 => first_match (match_d r3) (fun '(d, r4) => Some (y, m, d, r4)))
                (Z.to_nat m) (pad2 d) ltac:(lia)) as Hmonth.
  cbv zeta beta in Hmonth. rewrite Z2Nat.id in Hmonth by lia. rewrite Hmonth. clear Hmonth.
  pose proof (first_match_day (fun d r4 => (y, m, d, r4)) (Z.to_nat d) ltac:(lia)) as Hday.
  cbv zeta beta in Hday. rewrite Z2Nat.id in Hday by lia.
  unfold valid_date.
  destruct (Z.leb_spec 1 m), (Z.leb_spec m 12); cbn [andb]; try rewrite Hday; clear Hday;
    try destruct (Z.eqb_spec d 0);
    repeat (match goal with
            | |- context [?a <=? ?b] => destruct (Z.leb_spec a b); try lia
            end); done.
Qed.

End IsoDateFacts.

(** X15.  A date written [YYYY-MM-DD] with every field padded with
    zeros passes the date check exactly when it names a day of the
    calendar: year 1 to 9999, month 1 to 12, and a day the month has in
    that year.  For such a request with an amount and a category that
    pass, a real date goes on to the transaction, and any other
    (30 February, month 13, day 00, year 0000) is answered 400 with
    "Date must be in YYYY-MM-DD format" and nothing is written. *)
Theorem create_expense_checks_calendar (db : DB) (req : Request) (now : string)
    (d : list (string * pyval)) (paise : Z) (category description : string) (y m dd : Z) :
  get_json req = PyDict d ->
  _parse_amount (Py.dict_get d "amount") = Ok (Some paise, None) ->
  or_empty_strip (Py.dict_get d "category") = Ok category -> category <> EmptyString ->
  or_empty_strip (Py.dict_get d "description") = Ok description ->
  or_empty_strip (Py.dict_get d "date") = Ok (iso_date y m dd) ->
  0 <= y <= 9999 -> 0 <= m <= 99 -> 0 <= dd <= 99 ->
  create_expense db req now
  = if strptime.valid_date y m dd
    then store_expense db (Some paise) category description (iso_date y m dd)
                       (_get_idempotency_key req) now
    else (db, Ok (JsonError MSG_DATE_FORMAT, 400)).
Proof.
  intros Hj Hp Hc Hne Hde Hdt Hy Hm Hd.
  assert (d <> []) as Hd0 by (by intros ->).
  unfold create_expense. rewrite Hj, (validate_dict d _ _ _ Hd0 Hc Hde Hdt), Hp.
  cbn [key_truthy]. rewrite (is_empty_false _ Hne).
  change (Text.is_empty (iso_date y m dd)) with false. cbv iota.
  rewrite (strptime_iso_date y m dd Hy Hm Hd).
  by destruct (strptime.valid_date y m dd).
Qed.

Lemma create_expense_checks_calendar_witness :
  create_expense EMPTY_DB FEB_30_REQUEST "2025-02-18T10:00:00Z"
  = if strptime.valid_date 2025 2 30
    then store_expense EMPTY_DB (Some 2000) "Food" EmptyString (iso_date 2025 2 30)
                       (_get_idempotency_key FEB_30_REQUEST) "2025-02-18T10:00:00Z"
    else (EMPTY_DB, Ok (JsonError MSG_DATE_FORMAT, 400)).
Proof.
  apply (create_expense_checks_calendar EMPTY_DB FEB_30_REQUEST "2025-02-18T10:00:00Z"
           FEB_30 2000 "Food" EmptyString 2025 2 30);
    try reflexivity; try discriminate; lia.
Defined.

(** * Amounts shown *)

(** X16.  The amount shown is the amount stored: for a row whose count
    of minor units is below [2^52] in absolute value, [_row_to_expense]
    returns, and the float it puts in [amount], times 100, is less than
    half a minor unit away from the stored count; for a whole number of
    major units the float is that number exactly. *)
Theorem row_to_expense_amount_accurate (r : row) :
  let p := Row.amount_paise r.2 in
  Z.abs p < 2 ^ 52 ->
  exists e, _row_to_expense r = Ok e /\
    (inject_Z p - (1 # 2) < Expense.amount e * inject_Z 100)%Q /\
    (Expense.amount e * inject_Z 100 < inject_Z p + (1 # 2))%Q /\
    (p mod 100 = 0 -> Expense.amount e = inject_Z (p / 100)).
Proof.
  intros p Hp.
  assert (Z.abs p < 100 * 2 ^ 46) as Hp' by (change (2 ^ 52) with (64 * 2 ^ 46) in Hp; lia).
  destruct (truediv_100_shape p Hp') as (m & e & He & Hdiv & Herr & Hex).
  assert (0 < 2 ^ (- e)) as HE by (apply Z.pow_pos_nonneg; lia).
  assert (2 ^ 7 <= 2 ^ (- e)) as HE7 by (apply Z.pow_le_mono_r; lia).
  eexists. split; [unfold _row_to_expense; fold p; rewrite Hdiv; reflexivity|].
  cbn [Expense.amount].
  split; [|split].
  - rewrite Qred_correct. unfold Qlt, Qminus, Qplus, Qopp, Qmult, inject_Z.
    cbn [Qnum Qden]. rewrite !Pos2Z.inj_mul, Z2Pos.id by lia. lia.
  - rewrite Qred_correct. unfold Qlt, Qminus, Qplus, Qopp, Qmult, inject_Z.
    cbn [Qnum Qden]. rewrite !Pos2Z.inj_mul, Z2Pos.id by lia. lia.
  - intros Hmod. specialize (Hex Hmod).
    rewrite <- Qred_inject_Z. apply Qred_complete.
    unfold Qeq, inject_Z. cbn [Qnum Qden]. rewrite Z2Pos.id by lia.
    pose proof (Z.div_mod p 100 ltac:(lia)) as Hdm. rewrite Hmod in Hdm. nia.
Qed.

Lemma row_to_expense_amount_accurate_witness :
  exists e, _row_to_expense (1, BUS_FARE_ROW) = Ok e /\
    (inject_Z 9999 - (1 # 2) < Expense.amount e * inject_Z 100)%Q /\
    (Expense.amount e * inject_Z 100 < inject_Z 9999 + (1 # 2))%Q /\
    (9999 mod 100 = 0 -> Expense.amount e = inject_Z (9999 / 100)).
Proof.
  apply (row_to_expense_amount_accurate (1, BUS_FARE_ROW)). vm_compute. reflexivity.
Defined.
